(** * smart-unicom/payment: provider adapters and status normalisation

    A shallow embedding of the Go package [payment]: the shared helpers
    (attachment codec, amount codec, id splitting), the normalised types
    and the [Notify] / [GetResponseError] methods and constructors of the
    eight provider adapters, followed by the properties of the package's
    specification.

    Conventions of the embedding.
    - A Go [string] is a sequence of bytes: Rocq's [string].
    - [int64] is [Z], [float64] is the kernel's binary64 [float].
    - A Go call that returns [(value, error)] or panics is an [outcome].
    - A call into a vendor SDK reads or changes the vendor's durable,
      server-side state [W]; such code lives in the monad [Vendor W].
    - [map[string]T] is stdpp's [gmap string T]. *)

From Stdlib Require Import ZArith String Ascii List Bool Lia DecimalString.
From Stdlib Require Import PrimFloat FloatOps SpecFloat FloatAxioms.
From stdpp Require Import base option gmap strings.

Import ListNotations.
Set Warnings "-inexact-float".
Set Warnings "-register-all".
Open Scope string_scope.
Open Scope Z_scope.

(* ===================================================================== *)
(** * The Go runtime, as far as the package uses it                       *)
(* ===================================================================== *)

(** A non-nil Go [error], identified with the text of its [Error()]. *)
Definition error : Type := string.

(** What a Go call does: it returns a value ([err == nil]), it returns a
    non-nil error (and a nil result), or it panics. *)
Inductive outcome (A : Type) : Type :=
| Val (a : A)
| Err (e : error)
| Panic (msg : string).

Arguments Val {A} a.
Arguments Err {A} e.
Arguments Panic {A} msg.

(** Code that talks to a vendor threads the vendor's state. *)
Definition Vendor (W A : Type) : Type := W -> outcome A * W.

Definition ret {W A : Type} (a : A) : Vendor W A := fun w => (Val a, w).

Definition fail {W A : Type} (e : error) : Vendor W A := fun w => (Err e, w).

Definition panic {W A : Type} (msg : string) : Vendor W A :=
  fun w => (Panic msg, w).

(** [x, err := m; if err != nil { return nil, err }; k x] *)
Definition bind {W A B : Type} (m : Vendor W A) (k : A -> Vendor W B)
  : Vendor W B :=
  fun w =>
    match m w with
    | (Val a, w') => k a w'
    | (Err e, w') => (Err e, w')
    | (Panic p, w') => (Panic p, w')
    end.

(** [x, err := m] where the code goes on to inspect [err] itself. *)
Definition attempt {W A : Type} (m : Vendor W A) : Vendor W (error + A) :=
  fun w =>
    match m w with
    | (Val a, w') => (Val (inr a), w')
    | (Err e, w') => (Val (inl e), w')
    | (Panic p, w') => (Panic p, w')
    end.

(** A pure Go computation used inside vendor code. *)
Definition lift {W A : Type} (o : outcome A) : Vendor W A := fun w => (o, w).

Declare Scope vendor_scope.
Delimit Scope vendor_scope with vendor.
Notation "'let*' x ':=' m 'in' k" := (bind m (fun x => k))
  (at level 10, x name, m at level 100, k at level 200) : vendor_scope.
Open Scope vendor_scope.

(** Dereferencing a pointer: [nil] panics. *)
Definition deref {A : Type} (p : option A) : outcome A :=
  match p with
  | Some a => Val a
  | None => Panic "invalid memory address or nil pointer dereference"
  end.

(** [s[0]] on a slice. *)
Definition index0 {A : Type} (s : list A) : outcome A :=
  match s with
  | a :: _ => Val a
  | [] => Panic "index out of range [0] with length 0"
  end.

(** ** Package [strings], for one-byte separators

    The package only ever splits and joins on ["|"] and ["/"]. Both are
    single ASCII bytes, which never occur inside a multi-byte UTF-8
    sequence, so working on bytes is exact. *)
Module Strings.

(** [strings.Split(s, sep)] for a separator of one byte: the pieces of
    [s] between the occurrences of [sep]; never empty. *)
Fixpoint Split (s : string) (sep : ascii) : list string :=
  match s with
  | EmptyString => [EmptyString]
  | String c rest =>
      if Ascii.eqb c sep then EmptyString :: Split rest sep
      else match Split rest sep with
           | tok :: toks => String c tok :: toks
           | [] => [String c EmptyString]
           end
  end.

(** [strings.Join(tokens, sep)] *)
Fixpoint Join (tokens : list string) (sep : string) : string :=
  match tokens with
  | [] => EmptyString
  | [t] => t
  | t :: rest => t +:+ sep +:+ Join rest sep
  end.

(** [strings.IndexByte(s, c) >= 0] *)
Fixpoint ContainsByte (s : string) (c : ascii) : bool :=
  match s with
  | EmptyString => false
  | String d rest => Ascii.eqb d c || ContainsByte rest c
  end.

(** [strings.HasPrefix(s, prefix)] *)
Fixpoint HasPrefix (s prefix : string) : bool :=
  match prefix, s with
  | EmptyString, _ => true
  | String _ _, EmptyString => false
  | String p prefix', String c s' => Ascii.eqb c p && HasPrefix s' prefix'
  end.

(** [strings.Contains(s, substr)] *)
Fixpoint Contains (s substr : string) : bool :=
  HasPrefix s substr ||
  match s with
  | EmptyString => false
  | String _ s' => Contains s' substr
  end.

End Strings.

(** ** Package [fmt] *)
Module Fmt.

(** The verb [%d] on a non-negative [int]. *)
Definition verb_d (n : nat) : string := NilZero.string_of_uint (Nat.to_uint n).

End Fmt.

(** ** [int64] and [float64] *)

Definition int64_min : Z := - 2 ^ 63.
Definition int64_max : Z := 2 ^ 63 - 1.

(** The conversion [float64(n)] of an integer: the nearest binary64,
    ties to even. *)
Definition float64_of_int (n : Z) : float :=
  SF2Prim (binary_normalize prec emax n 0 false).

(** Go leaves [int64(f)] implementation-dependent when [f] is not finite
    or its integer part does not fit; the two conventions of the
    platforms Go is mostly run on are modelled. *)
Inductive platform : Type :=
| amd64   (* CVTTSD2SQ: the "integer indefinite" value 0x8000000000000000 *)
| arm64.  (* FCVTZS: saturation, and 0 for a NaN *)

(** The integer part (truncation towards zero) of a finite float given
    by its sign, mantissa and exponent. *)
Definition trunc_finite (s : bool) (m : positive) (e : Z) : Z :=
  let a := if 0 <=? e then Z.pos m * 2 ^ e else Z.pos m / 2 ^ (- e) in
  if s then - a else a.

(** [int64(f)] *)
Definition int64_of_float (p : platform) (f : float) : Z :=
  match Prim2SF f with
  | S754_zero _ => 0
  | S754_finite s m e =>
      let t := trunc_finite s m e in
      if (int64_min <=? t) && (t <=? int64_max) then t
      else match p with
           | amd64 => int64_min
           | arm64 => if s then int64_min else int64_max
           end
  | S754_infinity s =>
      match p with
      | amd64 => int64_min
      | arm64 => if s then int64_min else int64_max
      end
  | S754_nan =>
      match p with
      | amd64 => int64_min
      | arm64 => 0
      end
  end.

Module Math.

(** [math.Round(f)]: the nearest integer, halves away from zero; zeros,
    infinities and NaN are returned as they are. *)
Definition Round (f : float) : float :=
  match Prim2SF f with
  | S754_finite s m e =>
      if 0 <=? e then f
      else
        let q := (2 * Z.pos m + 2 ^ (- e)) / 2 ^ (- e + 1) in
        SF2Prim (binary_normalize prec emax (if s then - q else q) 0 s)
  | _ => f
  end.

End Math.

(** A pure library call returning [(value, error)]. *)
Definition of_pair {A : Type} (r : error + A) : outcome A :=
  match r with
  | inl e => Err e
  | inr a => Val a
  end.

(** Go's [switch s { case a, b, c: ... }] on strings. *)
Definition one_of (s : string) (cases : list string) : bool :=
  existsb (String.eqb s) cases.

(** ** The vendor SDKs

    Only the types, fields and calls the adapters touch. A pointer that
    the adapter dereferences is an [option]. *)
Module alipay.
(** go-pay's Alipay client, as far as the adapter uses it. *)

(** [alipay.ErrorResponse], the fields of an error body. *)
Record ErrorResponse : Type := {
  Code : string;
  Msg : string;
  SubCode : string;
  SubMsg : string;
}.

(** The struct behind [TradeQueryResponse.Response]. *)
Record TradeQueryData : Type := {
  TradeStatus : string;
  Subject : string;
  TotalAmount : string;
}.

Record TradeQueryResponse : Type := {
  Response : option TradeQueryData;
}.

(** [gopay.BodyMap], with string values. *)
Abbreviation BodyMap := (gmap string string).

Class SDK (W : Type) : Type := {
  Client : Type;
  (** [alipay.NewClient(appid, privateKey, isProd)] *)
  NewClient : string -> string -> bool -> error + Client;
  (** [client.SetCertSnByContent(appCert, rootCert, publicCert)]: the
      client with its certificate numbers set, or the error. *)
  SetCertSnByContent : Client -> string -> string -> string -> error + Client;
  (** [client.TradeQuery(ctx, bm)] *)
  TradeQuery : Client -> BodyMap -> Vendor W TradeQueryResponse;
}.
End alipay.

Module wechat.
(** go-pay's WeChat Pay v3 client. *)

(** The constant [wechat.Success] of go-pay. *)
Definition Success : Z := 0.

Inductive OrderNoType : Type := TransactionId | OutTradeNo.

Record Amount : Type := { Total : Z }.

Record QueryOrder : Type := {
  TradeState : string;
  Attach : string;
  OutTradeNo_ : string;
  Amount_ : option Amount;
}.

Record QueryOrderRsp : Type := {
  Code : Z;
  Error : string;
  Response : option QueryOrder;
}.

Class SDK (W : Type) : Type := {
  ClientV3 : Type;
  (** [wechat.NewClientV3(mchid, serialNo, apiV3Key, privateKey)] *)
  NewClientV3 : string -> string -> string -> string -> error + ClientV3;
  (** [c.GetAndSelectNewestCert()]: a call to the vendor returning the
      platform certificate and its serial number. *)
  GetAndSelectNewestCert : ClientV3 -> Vendor W (string * string);
  (** [c.SetPlatformCert(cert, serialNo)] *)
  SetPlatformCert : ClientV3 -> string -> string -> ClientV3;
  (** [c.V3TransactionQueryOrder(ctx, orderNoType, orderNo)] *)
  V3TransactionQueryOrder :
    ClientV3 -> OrderNoType -> string -> Vendor W QueryOrderRsp;
}.
End wechat.

Module paypal.
(** go-pay's PayPal client. *)

(** The constant [paypal.Success] of go-pay. *)
Definition Success : Z := 0.

Record ErrorDetail : Type := {
  Issue : string;
  Description : string;
}.

Record ErrorResponse : Type := {
  Details : list ErrorDetail;
}.

Record Amount : Type := {
  CurrencyCode : string;
  Value : string;
}.

Record PurchaseUnit : Type := {
  Amount_ : option Amount;
  Description_ : string;
}.

Record OrderDetail : Type := {
  Id : string;
  Status : string;
  PurchaseUnits : list PurchaseUnit;
}.

(** The shape shared by [OrderCaptureRsp] and [OrderDetailRsp]. *)
Record Rsp : Type := {
  Code : Z;
  Error : string;
  ErrorResponse_ : option ErrorResponse;
  Response : option OrderDetail;
}.

Class SDK (W : Type) : Type := {
  Client : Type;
  (** [paypal.NewClient(clientid, secret, isProd)] *)
  NewClient : string -> string -> bool -> error + Client;
  (** [c.OrderCapture(ctx, orderId, nil)]: asks the vendor to capture
      the order, which changes the vendor's state. *)
  OrderCapture : Client -> string -> Vendor W Rsp;
  (** [c.OrderDetail(ctx, orderId, nil)] *)
  OrderDetail_ : Client -> string -> Vendor W Rsp;
}.
End paypal.

Module stripe.
(** stripe-go v74: package-level calls, configured by the global
    [stripe.Key]. *)

Record PaymentIntent : Type := {
  ID : string;
  Amount : Z;
  Currency : string;
}.

Record CheckoutSession : Type := {
  Status : string;
  PaymentStatus : string;
  PaymentIntent_ : option PaymentIntent;
  Metadata : gmap string string;
  ClientReferenceID : string;
}.

Class SDK (W : Type) : Type := {
  (** [stripeCheckout.Get(id, nil)] *)
  checkout_session_Get : string -> Vendor W CheckoutSession;
  (** [stripeIntent.Get(id, nil)] *)
  paymentintent_Get : string -> Vendor W PaymentIntent;
}.

(** The process-wide configuration of the SDK. *)
Record Globals : Type := { Key : string }.
End stripe.

Module GcNotifyRespInfo.
(** [GcNotifyRespInfo], the decoded body of a GC notification. *)
Record t : Type := {
  Xmpch : string;
  OrderDate : string;
  OrderNo : string;
  Amount : float;
  Jylsh : string;
  TradeNo : string;
  PayMethod : string;
  OrderState : string;
  ReturnType : string;
  PayerId : string;
  PayerName : string;
}.
End GcNotifyRespInfo.

(** ** The library functions the package calls and does not define

    They are deterministic functions of their arguments; the package's
    behaviour is stated for whatever they compute. *)
Class GoLib : Type := {
  (** [strconv.ParseFloat(s, 64)] *)
  strconv_ParseFloat : string -> error + float;
  (** [fmt.Errorf(format).Error()], a format with no operand *)
  fmt_Sprintf0 : string -> string;
  (** [json.Unmarshal([]byte(s), &alipay.ErrorResponse{})] *)
  json_Unmarshal_ErrorResponse : string -> error + alipay.ErrorResponse;
  (** [json.Unmarshal(b, &GcNotifyRespInfo{})] *)
  json_Unmarshal_GcNotifyRespInfo : string -> error + GcNotifyRespInfo.t;
  (** [url.ParseQuery(s)]: the type [url.Values] is [map[string][]string] *)
  url_ParseQuery : string -> error + gmap string (list string);
  (** [base64.StdEncoding.DecodeString(s)] *)
  base64_DecodeString : string -> error + string;
}.

(** ** Package [unicode/utf8] *)
Module utf8.

Definition RuneError : N := 65533.   (* U+FFFD *)
Definition RuneSelf : N := 128.
Definition UTFMax : nat := 4.

(** The byte [s[i]], for [i] below [len(s)]. *)
Definition byte (s : string) (i : nat) : N :=
  match String.get i s with
  | Some c => N_of_ascii c
  | None => 0%N
  end.

(** The tables [first] and [acceptRanges], for a first byte from
    [RuneSelf] on: the size of the encoding that the byte starts and the
    range in which its second byte has to lie; [None] for a byte that
    starts no encoding. *)
Definition first (s0 : N) : option (nat * N * N) :=
  if ((194 <=? s0) && (s0 <=? 223))%N then Some (2%nat, 128%N, 191%N)
  else if (s0 =? 224)%N then Some (3%nat, 160%N, 191%N)
  else if ((225 <=? s0) && (s0 <=? 236))%N then Some (3%nat, 128%N, 191%N)
  else if (s0 =? 237)%N then Some (3%nat, 128%N, 159%N)
  else if ((238 <=? s0) && (s0 <=? 239))%N then Some (3%nat, 128%N, 191%N)
  else if (s0 =? 240)%N then Some (4%nat, 144%N, 191%N)
  else if ((241 <=? s0) && (s0 <=? 243))%N then Some (4%nat, 128%N, 191%N)
  else if (s0 =? 244)%N then Some (4%nat, 128%N, 143%N)
  else None.

(** The range [locb .. hicb] of a continuation byte. *)
Definition continues (b : N) : bool := ((128 <=? b) && (b <=? 191))%N.

(** [utf8.DecodeRuneInString(s)]: the rune that [s] starts with and the
    number of its bytes; [(RuneError, 1)] when [s] starts with no
    encoding. *)
Definition DecodeRuneInString (s : string) : N * nat :=
  let n := String.length s in
  if (n <? 1)%nat then (RuneError, 0%nat)
  else
    let s0 := byte s 0 in
    if (s0 <? RuneSelf)%N then (s0, 1%nat)
    else
      match first s0 with
      | None => (RuneError, 1%nat)
      | Some (sz, lo, hi) =>
          if (n <? sz)%nat then (RuneError, 1%nat)
          else
            let s1 := byte s 1 in
            if ((s1 <? lo) || (hi <? s1))%N then (RuneError, 1%nat)
            else if (sz <=? 2)%nat then
              (N.lor (N.shiftl (N.land s0 31) 6) (N.land s1 63), 2%nat)
            else
              let s2 := byte s 2 in
              if negb (continues s2) then (RuneError, 1%nat)
              else if (sz <=? 3)%nat then
                (N.lor (N.shiftl (N.land s0 15) 12)
                   (N.lor (N.shiftl (N.land s1 63) 6) (N.land s2 63)),
                 3%nat)
              else
                let s3 := byte s 3 in
                if negb (continues s3) then (RuneError, 1%nat)
                else
                  (N.lor (N.shiftl (N.land s0 7) 18)
                     (N.lor (N.shiftl (N.land s1 63) 12)
                        (N.lor (N.shiftl (N.land s2 63) 6) (N.land s3 63))),
                   4%nat)
      end.

End utf8.

(** ** [encoding/json] on strings

    [json.Marshal] of a Go string, as Go 1.22 and later write it: quoted,
    with the two-character escapes for the quote, the backslash and
    [\b \f \n \r \t], and [\u00XX] for the other control bytes and for
    [<], [>] and [&]. From 0x80 on the bytes are read as UTF-8: a byte
    that starts no encoding is written as [\ufffd], the runes U+2028
    and U+2029 are written as [\u2028] and [\u2029], and the bytes of
    every other rune are copied. *)
Module Json.

Definition dquote : ascii := "034"%char.
Definition backslash : ascii := "092"%char.

Definition hex_digit (n : N) : ascii :=
  if (n <? 10)%N then ascii_of_N (48 + n) else ascii_of_N (87 + n).

Definition u00 (c : ascii) : string :=
  let n := N_of_ascii c in
  String backslash
    (String "u" (String "0" (String "0"
       (String (hex_digit (n / 16)) (String (hex_digit (n mod 16)) ""))))).

(** A byte below [utf8.RuneSelf]. *)
Definition escape (c : ascii) : string :=
  let n := N_of_ascii c in
  if Ascii.eqb c dquote then String backslash (String dquote "")
  else if Ascii.eqb c backslash then String backslash (String backslash "")
  else if (n =? 8)%N then String backslash "b"
  else if (n =? 12)%N then String backslash "f"
  else if (n =? 10)%N then String backslash "n"
  else if (n =? 13)%N then String backslash "r"
  else if (n =? 9)%N then String backslash "t"
  else if (n <? 32)%N then u00 c
  else if one_of (String c "") ["<"; ">"; "&"] then u00 c
  else String c "".

(** What stands for a byte that starts no encoding. *)
Definition replacement : string := String backslash "ufffd".

(** [\u202X] for the rune [c], which is U+2028 or U+2029. *)
Definition u202 (c : N) : string :=
  String backslash ("u202" +:+ String (hex_digit (N.land c 15)) "").

(** The loop of [appendString]. The rune at the head of [s] is decoded
    from the [utf8.UTFMax] bytes that [s] starts with, as Go does.
    [skip] counts the bytes of a rune already decoded that are still to
    be passed over; they are copied when [copy] holds. *)
Fixpoint escape_from (skip : nat) (copy : bool) (s : string) : string :=
  match s with
  | EmptyString => EmptyString
  | String b rest =>
      match skip with
      | S skip' =>
          (if copy then String b "" else "") +:+ escape_from skip' copy rest
      | O =>
          if (N_of_ascii b <? utf8.RuneSelf)%N then
            escape b +:+ escape_from 0 true rest
          else
            let n := Nat.min (String.length s) utf8.UTFMax in
            let '(c, size) := utf8.DecodeRuneInString (substring 0 n s) in
            if (c =? utf8.RuneError)%N && (size =? 1)%nat then
              replacement +:+ escape_from 0 true rest
            else if ((c =? 8232) || (c =? 8233))%N then
              u202 c +:+ escape_from (size - 1) false rest
            else String b (escape_from (size - 1) true rest)
      end
  end.

Definition escape_all (s : string) : string := escape_from 0 true s.

Definition quote (s : string) : string :=
  String dquote (escape_all s +:+ String dquote "").

(** [json.Marshal] of a struct whose fields are all strings, given as
    the list of its (key, value) pairs in declaration order. *)
Fixpoint members (kvs : list (string * string)) : string :=
  match kvs with
  | [] => EmptyString
  | [(k, v)] => quote k +:+ ":" +:+ quote v
  | (k, v) :: rest => quote k +:+ ":" +:+ quote v +:+ "," +:+ members rest
  end.

Definition object (kvs : list (string * string)) : string :=
  "{" +:+ members kvs +:+ "}".

End Json.

(* ===================================================================== *)
(** * The normalised types (payment.go)                                  *)
(* ===================================================================== *)

(** [type PaymentState string] *)
Definition PaymentState : Type := string.

Definition PaymentStatePaid : PaymentState := "Paid".
Definition PaymentStateCreated : PaymentState := "Created".
Definition PaymentStateCanceled : PaymentState := "Canceled".
Definition PaymentStateTimeout : PaymentState := "Timeout".
Definition PaymentStateError : PaymentState := "Error".

Definition PaymentEnvWechatBrowser : string := "WechatBrowser".

Module PayReq.
Record t : Type := {
  ProviderName : string;
  ProductName : string;
  PayerName : string;
  PayerId : string;
  PayerEmail : string;
  PaymentName : string;
  ProductDisplayName : string;
  ProductDescription : string;
  ProductImage : string;
  Price : float;
  Currency : string;
  ReturnUrl : string;
  NotifyUrl : string;
  PaymentEnv : string;
}.
End PayReq.

Module PayResp.
Record t : Type := {
  PayUrl : string;
  OrderId : string;
  AttachInfo : gmap string string;
}.
End PayResp.

Module NotifyResult.
Record t : Type := {
  PaymentName : string;
  PaymentStatus : PaymentState;
  NotifyMessage : string;
  ProductName : string;
  ProductDisplayName : string;
  ProviderName : string;
  Price : float;
  Currency : string;
  OrderId : string;
}.

(** [&NotifyResult{}] *)
Definition zero : t := {|
  PaymentName := ""; PaymentStatus := ""; NotifyMessage := "";
  ProductName := ""; ProductDisplayName := ""; ProviderName := "";
  Price := 0%float; Currency := ""; OrderId := "";
|}.

(** [r.PaymentStatus = s] *)
Definition setPaymentStatus (r : t) (s : PaymentState) : t := {|
  PaymentName := PaymentName r; PaymentStatus := s;
  NotifyMessage := NotifyMessage r;
  ProductName := ProductName r; ProductDisplayName := ProductDisplayName r;
  ProviderName := ProviderName r;
  Price := Price r; Currency := Currency r; OrderId := OrderId r;
|}.

(** [r.NotifyMessage = m] *)
Definition setNotifyMessage (r : t) (m : string) : t := {|
  PaymentName := PaymentName r; PaymentStatus := PaymentStatus r;
  NotifyMessage := m;
  ProductName := ProductName r; ProductDisplayName := ProductDisplayName r;
  ProviderName := ProviderName r;
  Price := Price r; Currency := Currency r; OrderId := OrderId r;
|}.
End NotifyResult.

(** The part of the interface [PaymentProvider] that the specification
    quantifies over: every adapter has a [Notify] and a
    [GetResponseError]. The argument of [GetResponseError] is [None] for
    a nil error. *)
Class PaymentProvider (W P : Type) : Type := {
  Notify : P -> string -> string -> Vendor W NotifyResult.t;
  GetResponseError : P -> option error -> string;
}.

(* ===================================================================== *)
(** * Shared helpers (util.go)                                           *)
(* ===================================================================== *)

Definition joinAttachString (tokens : list string) : string :=
  Strings.Join tokens "|".

Definition parseAttachString (s : string)
  : string * string * string * option error :=
  let tokens := Strings.Split s "|"%char in
  match tokens with
  | [t0; t1; t2] => (t0, t1, t2, None)
  | _ =>
      ("", "", "",
       Some ("parseAttachString() error: len(tokens) expected 3, got: "
             +:+ Fmt.verb_d (length tokens)))
  end.

Definition priceInt64ToFloat64 (price : Z) : float :=
  (float64_of_int price / 100)%float.

Definition priceFloat64ToInt64 (p : platform) (price : float) : Z :=
  int64_of_float p (Math.Round (price * 100)%float).

Definition priceStringToFloat64 `{GoLib} (price : string) : outcome float :=
  match strconv_ParseFloat price with
  | inr f => Val f
  | inl err => Panic err
  end.

Definition GetOwnerAndNameFromId (id : string) : outcome (string * string) :=
  let tokens := Strings.Split id "/"%char in
  match tokens with
  | [t0; t1] => Val (t0, t1)
  | _ => Panic ("GetOwnerAndNameFromId() error, wrong token count for ID: " +:+ id)
  end.


(** [if err == nil { return "success" } else { return "fail" }], the
    body shared by six adapters. *)
Definition success_or_fail (err : option error) : string :=
  match err with
  | None => "success"
  | Some _ => "fail"
  end.

(* ===================================================================== *)
(** * Alipay (alipay.go)                                                 *)
(* ===================================================================== *)

Module AlipayPaymentProvider.
Section Adapter.
Context {W : Type} `{!GoLib} `{!alipay.SDK W}.

Record t : Type := { Client : alipay.Client }.

Definition NewAlipayPaymentProvider
    (appId appCertificate appPrivateKey : string)
    (authorityPublicKey authorityRootPublicKey : string) : outcome t :=
  match alipay.NewClient appId appPrivateKey true with
  | inl err => Err err
  | inr client =>
      match alipay.SetCertSnByContent client appCertificate
              authorityRootPublicKey authorityPublicKey with
      | inl err => Err err
      | inr client' => Val {| Client := client' |}
      end
  end.

Definition Notify (pp : t) (body orderId : string)
  : Vendor W NotifyResult.t :=
  let bm : alipay.BodyMap := <[ "out_trade_no" := orderId ]> ∅ in
  let* queried := attempt (alipay.TradeQuery (Client pp) bm) in
  let notifyResult := NotifyResult.zero in
  match queried with
  | inl err =>
      match json_Unmarshal_ErrorResponse err with
      | inl _ => fail err
      | inr errRsp =>
          if String.eqb (alipay.SubCode errRsp) "ACQ.TRADE_NOT_EXIST"
          then ret (NotifyResult.setPaymentStatus notifyResult
                      PaymentStateCanceled)
          else fail err
      end
  | inr aliRsp =>
      let* rsp := lift (deref (alipay.Response aliRsp)) in
      let st := alipay.TradeStatus rsp in
      if String.eqb st "WAIT_BUYER_PAY" then
        ret (NotifyResult.setPaymentStatus notifyResult PaymentStateCreated)
      else if String.eqb st "TRADE_CLOSED" then
        ret (NotifyResult.setPaymentStatus notifyResult PaymentStateTimeout)
      else if String.eqb st "TRADE_SUCCESS" then
        let '(productDisplayName, productName, providerName, _) :=
          parseAttachString (alipay.Subject rsp) in
        let* price := lift (priceStringToFloat64 (alipay.TotalAmount rsp)) in
        ret {| NotifyResult.ProductName := productName;
               NotifyResult.ProductDisplayName := productDisplayName;
               NotifyResult.ProviderName := providerName;
               NotifyResult.OrderId := orderId;
               NotifyResult.PaymentStatus := PaymentStatePaid;
               NotifyResult.Price := price;
               NotifyResult.PaymentName := orderId;
               NotifyResult.NotifyMessage := "";
               NotifyResult.Currency := "" |}
      else
        ret (NotifyResult.setNotifyMessage
               (NotifyResult.setPaymentStatus notifyResult PaymentStateError)
               ("unexpected alipay trade state: " +:+ st))
  end.

Definition GetResponseError (pp : t) (err : option error) : string :=
  success_or_fail err.

#[global] Instance provider : PaymentProvider W t :=
  Build_PaymentProvider W t Notify GetResponseError.
End Adapter.
End AlipayPaymentProvider.

(* ===================================================================== *)
(** * WeChat Pay (wechat.go)                                             *)
(* ===================================================================== *)

Module WechatPayNotifyResponse.
Record t : Type := { Code : string; Message : string }.
End WechatPayNotifyResponse.

(** [util.StructToJson] of casdoor on a [WechatPayNotifyResponse]:
    [json.Marshal], the fields in declaration order under their tags. *)
Definition StructToJson (r : WechatPayNotifyResponse.t) : string :=
  Json.object [("Code", WechatPayNotifyResponse.Code r);
               ("Message", WechatPayNotifyResponse.Message r)].

Module WechatPaymentProvider.
Section Adapter.
Context {W : Type} `{!wechat.SDK W}.

(** [Client] is a pointer: nil in the zero value. *)
Record t : Type := {
  Client : option wechat.ClientV3;
  AppId : string;
}.

(** [&WechatPaymentProvider{}] *)
Definition zero : t := {| Client := None; AppId := "" |}.

Definition is_empty (s : string) : bool := String.eqb s "".

Definition NewWechatPaymentProvider
    (mchId apiV3Key appId serialNo privateKey : string) : Vendor W t :=
  if is_empty appId || is_empty mchId || is_empty serialNo
     || is_empty apiV3Key || is_empty privateKey
  then ret zero
  else
    let* clientV3 :=
      lift (of_pair (wechat.NewClientV3 mchId serialNo apiV3Key privateKey)) in
    let* cert := wechat.GetAndSelectNewestCert clientV3 in
    let '(platformCert, serialNo') := cert in
    ret {| Client := Some (wechat.SetPlatformCert clientV3 platformCert serialNo');
           AppId := appId |}.

Definition Notify (pp : t) (body orderId : string)
  : Vendor W NotifyResult.t :=
  let notifyResult := NotifyResult.zero in
  (* the SDK's method reads the fields of its receiver *)
  let* client := lift (deref (Client pp)) in
  let* queryRsp :=
    wechat.V3TransactionQueryOrder client wechat.OutTradeNo orderId in
  if negb (wechat.Code queryRsp =? wechat.Success) then
    fail (wechat.Error queryRsp)
  else
    let* rsp := lift (deref (wechat.Response queryRsp)) in
    let st := wechat.TradeState rsp in
    if String.eqb st "SUCCESS" then
      let '(productDisplayName, productName, providerName, _) :=
        parseAttachString (wechat.Attach rsp) in
      let* amount := lift (deref (wechat.Amount_ rsp)) in
      ret {| NotifyResult.ProductName := productName;
             NotifyResult.ProductDisplayName := productDisplayName;
             NotifyResult.ProviderName := providerName;
             NotifyResult.OrderId := orderId;
             NotifyResult.Price := priceInt64ToFloat64 (wechat.Total amount);
             NotifyResult.PaymentStatus := PaymentStatePaid;
             NotifyResult.PaymentName := wechat.OutTradeNo_ rsp;
             NotifyResult.NotifyMessage := "";
             NotifyResult.Currency := "" |}
    else if String.eqb st "CLOSED" then
      ret (NotifyResult.setPaymentStatus notifyResult PaymentStateCanceled)
    else if one_of st ["NOTPAY"; "USERPAYING"] then
      ret (NotifyResult.setPaymentStatus notifyResult PaymentStateCreated)
    else
      ret (NotifyResult.setNotifyMessage
             (NotifyResult.setPaymentStatus notifyResult PaymentStateError)
             ("unexpected wechat trade state: " +:+ st)).

Definition GetResponseError (pp : t) (err : option error) : string :=
  let response :=
    match err with
    | None =>
        {| WechatPayNotifyResponse.Code := "SUCCESS";
           WechatPayNotifyResponse.Message := "" |}
    | Some e =>
        {| WechatPayNotifyResponse.Code := "FAIL";
           WechatPayNotifyResponse.Message := e |}
    end in
  StructToJson response.

#[global] Instance provider : PaymentProvider W t :=
  Build_PaymentProvider W t Notify GetResponseError.
End Adapter.
End WechatPaymentProvider.

(* ===================================================================== *)
(** * Stripe (stripe.go)                                                 *)
(* ===================================================================== *)

Module StripePaymentProvider.
Section Adapter.
Context {W : Type} `{!stripe.SDK W}.

Record t : Type := {
  PublishableKey : string;
  SecretKey : string;
  isProd : bool;
}.

(** The constructor writes the global [stripe.Key]. *)
Definition NewStripePaymentProvider (publishableKey secretKey : string)
    (g : stripe.Globals) : outcome t * stripe.Globals :=
  let pp := {| PublishableKey := publishableKey;
               SecretKey := secretKey;
               isProd := true |} in
  (Val pp, {| stripe.Key := SecretKey pp |}).

Definition Notify (pp : t) (body orderId : string)
  : Vendor W NotifyResult.t :=
  let notifyResult := NotifyResult.zero in
  let* sCheckout := stripe.checkout_session_Get orderId in
  let st := stripe.Status sCheckout in
  if String.eqb st "open" then
    ret (NotifyResult.setPaymentStatus notifyResult PaymentStateCreated)
  else if String.eqb st "complete" then
    let pst := stripe.PaymentStatus sCheckout in
    if String.eqb pst "paid" then
      let* ref := lift (deref (stripe.PaymentIntent_ sCheckout)) in
      let* sIntent := stripe.paymentintent_Get (stripe.ID ref) in
      let '(productName, productDisplayName, providerName) :=
        match stripe.Metadata sCheckout !! "product_description" with
        | Some description =>
            let '(a, b, c, _) := parseAttachString description in (a, b, c)
        | None => ("", "", "")
        end in
      ret {| NotifyResult.PaymentName := stripe.ClientReferenceID sCheckout;
             NotifyResult.PaymentStatus := PaymentStatePaid;
             NotifyResult.ProductName := productName;
             NotifyResult.ProductDisplayName := productDisplayName;
             NotifyResult.ProviderName := providerName;
             NotifyResult.Price := priceInt64ToFloat64 (stripe.Amount sIntent);
             NotifyResult.Currency := stripe.Currency sIntent;
             NotifyResult.OrderId := orderId;
             NotifyResult.NotifyMessage := "" |}
    else if String.eqb pst "unpaid" then
      ret (NotifyResult.setPaymentStatus notifyResult PaymentStateCreated)
    else
      ret (NotifyResult.setNotifyMessage
             (NotifyResult.setPaymentStatus notifyResult PaymentStateError)
             ("unexpected stripe checkout payment status: " +:+ pst))
  else if String.eqb st "expired" then
    ret (NotifyResult.setPaymentStatus notifyResult PaymentStateTimeout)
  else
    ret (NotifyResult.setNotifyMessage
           (NotifyResult.setPaymentStatus notifyResult PaymentStateError)
           ("unexpected stripe checkout status: " +:+ st)).

Definition GetResponseError (pp : t) (err : option error) : string :=
  success_or_fail err.

#[global] Instance provider : PaymentProvider W t :=
  Build_PaymentProvider W t Notify GetResponseError.
End Adapter.
End StripePaymentProvider.

(* ===================================================================== *)
(** * PayPal (paypal.go)                                                 *)
(* ===================================================================== *)

Module PaypalPaymentProvider.
Section Adapter.
Context {W : Type} `{!GoLib} `{!paypal.SDK W}.

Record t : Type := { Client : paypal.Client }.

Definition NewPaypalPaymentProvider (clientID secret : string) : outcome t :=
  match paypal.NewClient clientID secret true with
  | inl err => Err err
  | inr client => Val {| Client := client |}
  end.

(** [errDetail := rsp.ErrorResponse.Details[0]] *)
Definition first_detail (rsp : paypal.Rsp) : outcome paypal.ErrorDetail :=
  match deref (paypal.ErrorResponse_ rsp) with
  | Val er => index0 (paypal.Details er)
  | Err e => Err e
  | Panic m => Panic m
  end.

(** The part of [Notify] after the capture attempt: the order's
    details decide the result. *)
Definition notify_detail (pp : t) (orderId : string)
  : Vendor W NotifyResult.t :=
  let notifyResult := NotifyResult.zero in
  let* detailRsp := paypal.OrderDetail_ (Client pp) orderId in
  if negb (paypal.Code detailRsp =? paypal.Success) then
    let* errDetail := lift (first_detail detailRsp) in
    if String.eqb (paypal.Issue errDetail) "ORDER_NOT_APPROVED" then
      ret (NotifyResult.setNotifyMessage
             (NotifyResult.setPaymentStatus notifyResult PaymentStateCanceled)
             (paypal.Description errDetail))
    else fail (fmt_Sprintf0 (paypal.Description errDetail))
  else
    let* order := lift (deref (paypal.Response detailRsp)) in
    let paymentName := paypal.Id order in
    let* unit0 := lift (index0 (paypal.PurchaseUnits order)) in
    let* amount := lift (deref (paypal.Amount_ unit0)) in
    let* price := lift (of_pair (strconv_ParseFloat (paypal.Value amount))) in
    let currency := paypal.CurrencyCode amount in
    let '(productDisplayName, productName, providerName, err) :=
      parseAttachString (paypal.Description_ unit0) in
    match err with
    | Some e => fail e
    | None =>
        let paymentStatus :=
          if String.eqb (paypal.Status order) "COMPLETED"
          then PaymentStatePaid else PaymentStateError in
        ret {| NotifyResult.PaymentStatus := paymentStatus;
               NotifyResult.PaymentName := paymentName;
               NotifyResult.ProductName := productName;
               NotifyResult.ProductDisplayName := productDisplayName;
               NotifyResult.ProviderName := providerName;
               NotifyResult.Price := price;
               NotifyResult.Currency := currency;
               NotifyResult.OrderId := orderId;
               NotifyResult.NotifyMessage := "" |}
    end.

Definition Notify (pp : t) (body orderId : string)
  : Vendor W NotifyResult.t :=
  let notifyResult := NotifyResult.zero in
  let* captureRsp := paypal.OrderCapture (Client pp) orderId in
  if negb (paypal.Code captureRsp =? paypal.Success) then
    let* errDetail := lift (first_detail captureRsp) in
    let issue := paypal.Issue errDetail in
    if String.eqb issue "ORDER_ALREADY_CAPTURED" then
      notify_detail pp orderId
    else if String.eqb issue "ORDER_NOT_APPROVED" then
      ret (NotifyResult.setNotifyMessage
             (NotifyResult.setPaymentStatus notifyResult PaymentStateCanceled)
             (paypal.Description errDetail))
    else fail (fmt_Sprintf0 (paypal.Description errDetail))
  else notify_detail pp orderId.

Definition GetResponseError (pp : t) (err : option error) : string :=
  success_or_fail err.

#[global] Instance provider : PaymentProvider W t :=
  Build_PaymentProvider W t Notify GetResponseError.
End Adapter.
End PaypalPaymentProvider.

(* ===================================================================== *)
(** * Airwallex (airwallex.go)                                           *)
(* ===================================================================== *)

(** A value of type [interface{}] held in decoded JSON metadata: the
    adapter asserts it to be a string. *)
Inductive any : Type :=
| AnyString (s : string)
| AnyOther.

Module AirWallexTokenInfo.
Record t : Type := { Token : string; ExpiresAt : string }.
End AirWallexTokenInfo.

Module AirwallexClient.
Record t : Type := {
  ClientId : string;
  APIKey : string;
  APIEndpoint : string;
  APICheckout : string;
  client_Timeout : Z;   (* [http.Client.Timeout], in nanoseconds *)
  tokenCache : option AirWallexTokenInfo.t;
}.
End AirwallexClient.

Module AirWallexIntentInfo.
Record t : Type := {
  Amount : string;   (* [json.Number], a string type *)
  Currency : string;
  Id : string;
  Status : string;
  Descriptor : string;
  MerchantOrderId : string;
  PaymentStatus : string;
  Metadata : gmap string any;
}.
End AirWallexIntentInfo.

(** The bespoke HTTP client's query is the boundary to the vendor:
    [c.GetIntentByOrderId(orderId)] answers with the decoded intent. *)
Class AirwallexAPI (W : Type) : Type := {
  GetIntentByOrderId :
    AirwallexClient.t -> string -> Vendor W AirWallexIntentInfo.t;
}.

Module AirwallexPaymentProvider.
Section Adapter.
Context {W : Type} `{!GoLib} `{!AirwallexAPI W}.

Record t : Type := { Client : AirwallexClient.t }.

Definition NewAirwallexPaymentProvider (clientId apiKey : string)
  : outcome t :=
  let apiEndpoint := "https://api.airwallex.com/api/v1" in
  let apiCheckout := "https://checkout.airwallex.com/#/standalone/checkout?" in
  let client := {| AirwallexClient.ClientId := clientId;
                   AirwallexClient.APIKey := apiKey;
                   AirwallexClient.APIEndpoint := apiEndpoint;
                   AirwallexClient.APICheckout := apiCheckout;
                   AirwallexClient.client_Timeout := 15 * 1000000000;
                   AirwallexClient.tokenCache := None |} in
  Val {| Client := client |}.

(** The tail of [Notify], once both status axes say the payment is
    complete. *)
Definition notify_paid (intent : AirWallexIntentInfo.t)
  : Vendor W NotifyResult.t :=
  let* names :=
    match AirWallexIntentInfo.Metadata intent !! "description" with
    | Some (AnyString description) =>
        let '(a, b, c, _) := parseAttachString description in ret (a, b, c)
    | Some AnyOther =>
        panic "interface conversion: interface {} is not string"
    | None => ret ("", "", "")
    end in
  let '(productName, productDisplayName, providerName) := names in
  let orderId := AirWallexIntentInfo.MerchantOrderId intent in
  let* price :=
    lift (priceStringToFloat64 (AirWallexIntentInfo.Amount intent)) in
  ret {| NotifyResult.PaymentName := orderId;
         NotifyResult.PaymentStatus := PaymentStatePaid;
         NotifyResult.ProductName := productName;
         NotifyResult.ProductDisplayName := productDisplayName;
         NotifyResult.ProviderName := providerName;
         NotifyResult.Price := price;
         NotifyResult.Currency := AirWallexIntentInfo.Currency intent;
         NotifyResult.OrderId := orderId;
         NotifyResult.NotifyMessage := "" |}.

Definition Notify (pp : t) (body orderId : string)
  : Vendor W NotifyResult.t :=
  let notifyResult := NotifyResult.zero in
  let* intent := GetIntentByOrderId (Client pp) orderId in
  let st := AirWallexIntentInfo.Status intent in
  if one_of st ["PENDING"; "REQUIRES_PAYMENT_METHOD";
                "REQUIRES_CUSTOMER_ACTION"; "REQUIRES_CAPTURE"] then
    ret (NotifyResult.setPaymentStatus notifyResult PaymentStateCreated)
  else if String.eqb st "CANCELLED" then
    ret (NotifyResult.setPaymentStatus notifyResult PaymentStateCanceled)
  else if String.eqb st "EXPIRED" then
    ret (NotifyResult.setPaymentStatus notifyResult PaymentStateTimeout)
  else if String.eqb st "SUCCEEDED" then
    let pst := AirWallexIntentInfo.PaymentStatus intent in
    if negb (String.eqb pst "") then
      if one_of pst ["CANCELLED"; "EXPIRED"; "RECEIVED";
                     "AUTHENTICATION_REDIRECTED"; "AUTHORIZED";
                     "CAPTURE_REQUESTED"] then
        ret (NotifyResult.setPaymentStatus notifyResult PaymentStateCreated)
      else if one_of pst ["PAID"; "SETTLED"] then
        notify_paid intent
      else
        ret (NotifyResult.setNotifyMessage
               (NotifyResult.setPaymentStatus notifyResult PaymentStateError)
               ("unexpected airwallex checkout payment status: " +:+ pst))
    else notify_paid intent
  else
    ret (NotifyResult.setNotifyMessage
           (NotifyResult.setPaymentStatus notifyResult PaymentStateError)
           ("unexpected airwallex checkout status: " +:+ st)).

Definition GetResponseError (pp : t) (err : option error) : string :=
  success_or_fail err.

#[global] Instance provider : PaymentProvider W t :=
  Build_PaymentProvider W t Notify GetResponseError.
End Adapter.
End AirwallexPaymentProvider.

(* ===================================================================== *)
(** * GC (gc.go)                                                         *)
(* ===================================================================== *)

Module GcRequestBody.
Record t : Type := {
  Op : string;
  Xmpch : string;
  Version : string;
  Data : string;
  RequestTime : string;
  Sign : string;
}.
End GcRequestBody.

Module GcPaymentProvider.
Section Adapter.
Context {W : Type} `{!GoLib}.

Record t : Type := {
  Xmpch : string;
  SecretKey : string;
  Host : string;
}.

(** The constructor has no error result. *)
Definition NewGcPaymentProvider (clientId clientSecret host : string) : t :=
  {| Xmpch := clientId; SecretKey := clientSecret; Host := host |}.

(** [m[key][0]] on [url.Values]: a missing key is a nil slice. *)
Definition form_value (m : gmap string (list string)) (key : string)
  : outcome string :=
  index0 (default [] (m !! key)).

(** The first half of [Notify]: the notification's form fields, and the
    record decoded from its [data] field. *)
Definition decode_body (body : string) : Vendor W GcNotifyRespInfo.t :=
  let* m := lift (of_pair (url_ParseQuery body)) in
  let* op := lift (form_value m "op") in
  let* xmpch := lift (form_value m "xmpch") in
  let* version := lift (form_value m "version") in
  let* data := lift (form_value m "data") in
  let* requesttime := lift (form_value m "requesttime") in
  let* sign := lift (form_value m "sign") in
  let reqBody := {| GcRequestBody.Op := op;
                    GcRequestBody.Xmpch := xmpch;
                    GcRequestBody.Version := version;
                    GcRequestBody.Data := data;
                    GcRequestBody.RequestTime := requesttime;
                    GcRequestBody.Sign := sign |} in
  let* notifyReqInfoBytes :=
    lift (of_pair (base64_DecodeString (GcRequestBody.Data reqBody))) in
  lift (of_pair (json_Unmarshal_GcNotifyRespInfo notifyReqInfoBytes)).

Definition Notify (pp : t) (body orderId : string)
  : Vendor W NotifyResult.t :=
  let* notifyRespInfo := decode_body body in
  let providerName := "" in
  let productName := "" in
  let productDisplayName := "" in
  let paymentName := GcNotifyRespInfo.OrderNo notifyRespInfo in
  let price := GcNotifyRespInfo.Amount notifyRespInfo in
  if negb (String.eqb (GcNotifyRespInfo.OrderState notifyRespInfo) "1") then
    fail ("error order state: " +:+ GcNotifyRespInfo.OrderDate notifyRespInfo)
  else
    ret {| NotifyResult.ProductName := productName;
           NotifyResult.ProductDisplayName := productDisplayName;
           NotifyResult.ProviderName := providerName;
           NotifyResult.OrderId := orderId;
           NotifyResult.Price := price;
           NotifyResult.PaymentStatus := PaymentStatePaid;
           NotifyResult.PaymentName := paymentName;
           NotifyResult.NotifyMessage := "";
           NotifyResult.Currency := "" |}.

Definition GetResponseError (pp : t) (err : option error) : string :=
  success_or_fail err.

#[global] Instance provider : PaymentProvider W t :=
  Build_PaymentProvider W t Notify GetResponseError.
End Adapter.
End GcPaymentProvider.

(* ===================================================================== *)
(** * Balance (balance.go) and Dummy (dummy.go)                          *)
(* ===================================================================== *)

Module BalancePaymentProvider.
Section Adapter.
Context {W : Type}.

(** [type BalancePaymentProvider struct{}] *)
Inductive t : Type := Build_t.

Definition NewBalancePaymentProvider : outcome t := Val Build_t.

Definition Pay (pp : t) (r : PayReq.t) : outcome PayResp.t :=
  match GetOwnerAndNameFromId (PayReq.PayerId r) with
  | Val (owner, _) =>
      Val {| PayResp.PayUrl := PayReq.ReturnUrl r;
             PayResp.OrderId := owner +:+ "/" +:+ PayReq.PaymentName r;
             PayResp.AttachInfo := ∅ |}
  | Err e => Err e
  | Panic m => Panic m
  end.

Definition Notify (pp : t) (body orderId : string)
  : Vendor W NotifyResult.t :=
  ret (NotifyResult.setPaymentStatus NotifyResult.zero PaymentStatePaid).

Definition GetResponseError (pp : t) (err : option error) : string := "".

#[global] Instance provider : PaymentProvider W t :=
  Build_PaymentProvider W t Notify GetResponseError.
End Adapter.
End BalancePaymentProvider.

Module DummyPaymentProvider.
Section Adapter.
Context {W : Type}.

(** [type DummyPaymentProvider struct{}] *)
Inductive t : Type := Build_t.

Definition NewDummyPaymentProvider : outcome t := Val Build_t.

Definition Pay (pp : t) (r : PayReq.t) : outcome PayResp.t :=
  Val {| PayResp.PayUrl := PayReq.ReturnUrl r;
         PayResp.OrderId := "";
         PayResp.AttachInfo := ∅ |}.

Definition Notify (pp : t) (body orderId : string)
  : Vendor W NotifyResult.t :=
  ret (NotifyResult.setPaymentStatus NotifyResult.zero PaymentStatePaid).

Definition GetResponseError (pp : t) (err : option error) : string := "".

#[global] Instance provider : PaymentProvider W t :=
  Build_PaymentProvider W t Notify GetResponseError.
End Adapter.
End DummyPaymentProvider.

(* ===================================================================== *)
(** * The rest of the package: [Pay], the HTTP clients, more helpers     *)
(* ===================================================================== *)

(** ** More of the Go library *)

(** Package [strings], again on bytes. *)
Module GoStrings.

(** [strings.Count(s, string(c))] for one byte [c]. *)
Fixpoint CountByte (s : string) (c : ascii) : nat :=
  match s with
  | EmptyString => 0%nat
  | String d rest =>
      if Ascii.eqb d c then S (CountByte rest c) else CountByte rest c
  end.

(** [strings.TrimRight(s, string(c))]: [s] without its trailing [c]s. *)
Fixpoint TrimRight (s : string) (c : ascii) : string :=
  match s with
  | EmptyString => EmptyString
  | String d rest =>
      match TrimRight rest c with
      | EmptyString => if Ascii.eqb d c then EmptyString else String d EmptyString
      | kept => String d kept
      end
  end.

(** [s[n:]], for [n <= len(s)]. *)
Fixpoint skip (n : nat) (s : string) : string :=
  match n, s with
  | O, _ => s
  | S n', String _ rest => skip n' rest
  | S _, EmptyString => EmptyString
  end.

(** [strings.Replace(s, old, new, 1)]: the first occurrence of [old]
    gives way to [new]. *)
Fixpoint Replace1 (s old new : string) : string :=
  if Strings.HasPrefix s old then new +:+ skip (String.length old) s
  else match s with
       | EmptyString => EmptyString
       | String c rest => String c (Replace1 rest old new)
       end.

End GoStrings.

(** Package [time]. An instant is its number of nanoseconds since the
    Unix epoch; the monotonic reading and the location are left out. *)
Module time.

Definition Time : Type := Z.

(** The zero [Time], January 1 of the year 1. *)
Definition zero : Time := -62135596800 * 1000000000.

Definition Minute : Z := 60 * 1000000000.

(** [t.Before(u)] *)
Definition Before (t u : Time) : bool := t <? u.

(** [t.Add(d)] *)
Definition Add (t : Time) (d : Z) : Time := t + d.

(** [t.Unix()] *)
Definition Unix (t : Time) : Z := t / 1000000000.

(** [t.UnixNano()] *)
Definition UnixNano (t : Time) : Z := t.

End time.

(** The clock is part of the world. *)
Class Clock (W : Type) : Type := {
  (** [time.Now()] *)
  time_Now : Vendor W time.Time;
}.

(** A decoded JSON value held in an [interface{}]. *)
Inductive json : Type :=
| JNull
| JBool (b : bool)
| JNumber (f : float)
| JString (s : string)
| JArray (items : list json)
| JObject (fields : gmap string json).

(** Formatting, which the package leaves to [strconv] and [fmt]. *)
Class GoFmt : Type := {
  (** [strconv.FormatFloat(f, 'f', 2, 64)] *)
  strconv_FormatFloat_f2 : float -> string;
  (** [fmt.Sprintf("%.2f", f)] *)
  fmt_Sprintf_2f : float -> string;
}.

(** [math/rand]: a generator is a value; drawing from it gives the
    number drawn and the generator to go on with. *)
Class Rand : Type := {
  Source : Type;
  (** [rand.New(rand.NewSource(seed))] *)
  rand_New : Z -> Source;
  (** [r.Intn(n)], for [0 < n] *)
  Intn : Source -> Z -> Z * Source;
}.

(** The Go runtime, as far as a [make] with a computed capacity shows
    it. A process that the operating system ends for lack of memory
    returns nothing and is not modelled. *)
Class GoRuntime : Type := {
  (** [maxAlloc], the largest size in bytes that [make] accepts (2^48 on
      linux/amd64): a larger capacity makes it panic *)
  maxAlloc : Z;
}.

(* ===================================================================== *)
(** ** Shared helpers, continued (util.go)                               *)
(* ===================================================================== *)

Definition getPriceString `{GoFmt} (price : float) : string :=
  let priceString :=
    GoStrings.TrimRight (GoStrings.TrimRight (fmt_Sprintf_2f price) "0") "." in
  priceString.

Definition priceFloat64ToString `{GoFmt} (price : float) : string :=
  strconv_FormatFloat_f2 price.

(** [BytesToString]: the string that shares the slice's bytes. *)
Definition BytesToString (b : list ascii) : string := string_of_list_ascii b.

(** The alphabet [GetRandomString] draws from. *)
Definition random_alphabet : string :=
  "0123456789AaBbCcDdEeFfGgHhIiJjKkLlMmNnOoPpQqRrSsTtUuVvWwXxYyZz".

(** The loop of [GetRandomString]: [n] more bytes are appended to
    [result]. An index outside [bytes] panics. *)
Fixpoint random_loop `{Rand} (n : nat) (bytes result : list ascii)
    (r : Source) : outcome (list ascii) :=
  match n with
  | O => Val result
  | S n' =>
      let '(i, r') := Intn r (Z.of_nat (length bytes)) in
      if (0 <=? i) && (i <? Z.of_nat (length bytes)) then
        match nth_error bytes (Z.to_nat i) with
        | Some b => random_loop n' bytes (result ++ [b]) r'
        | None => Panic "index out of range"
        end
      else Panic "index out of range"
  end.

Definition GetRandomString {W : Type} `{!GoRuntime} `{!Clock W} `{!Rand}
    (l : Z) : Vendor W string :=
  let str := random_alphabet in
  let bytes := list_ascii_of_string str in
  if (l <? 0) || (maxAlloc <? l) then panic "makeslice: cap out of range"
  else
    let* now := time_Now in
    let r := rand_New (time.UnixNano now) in
    let* result := lift (random_loop (Z.to_nat l) bytes [] r) in
    ret (BytesToString result).

(** [gopay.BodyMap], a [map[string]interface{}]: the values the
    adapters store are strings, integers, nested maps and, for PayPal,
    one slice of a type [X] of its own. *)
Module gopay.

Inductive value (X : Type) : Type :=
| VString (s : string)
| VInt64 (n : Z)
| VBodyMap (bm : gmap string (value X))
| VOther (x : X).

Arguments VString {X} s.
Arguments VInt64 {X} n.
Arguments VBodyMap {X} bm.
Arguments VOther {X} x.

Abbreviation BodyMap X := (gmap string (value X)).

End gopay.

(* ===================================================================== *)
(** ** Alipay: [Pay] (alipay.go)                                         *)
(* ===================================================================== *)

Module AlipayPay.

(** The calls of go-pay's client that [Pay] makes. The two setters
    write fields of the client [pp.Client] points to. *)
Class SDK (W : Type) `{!alipay.SDK W} : Type := {
  (** [client.SetReturnUrl(url)] *)
  SetReturnUrl : alipay.Client -> string -> alipay.Client;
  (** [client.SetNotifyUrl(url)] *)
  SetNotifyUrl : alipay.Client -> string -> alipay.Client;
  (** [client.TradePagePay(ctx, bm)] *)
  TradePagePay : alipay.Client -> alipay.BodyMap -> Vendor W string;
}.

Section Adapter.
Context {W : Type} `{!GoFmt} `{!alipay.SDK W} `{!SDK W}.

(** The client [pp.Client] points to, once [Pay] has set the URLs. *)
Definition client_after_Pay (pp : AlipayPaymentProvider.t) (r : PayReq.t)
  : alipay.Client :=
  SetNotifyUrl
    (SetReturnUrl (AlipayPaymentProvider.Client pp) (PayReq.ReturnUrl r))
    (PayReq.NotifyUrl r).

(** The body map [Pay] fills. *)
Definition body (r : PayReq.t) : alipay.BodyMap :=
  <[ "total_amount" := priceFloat64ToString (PayReq.Price r) ]>
    (<[ "out_trade_no" := PayReq.PaymentName r ]>
       (<[ "subject" :=
             joinAttachString [PayReq.ProductName r;
                               PayReq.ProductDisplayName r;
                               PayReq.ProviderName r] ]> ∅)).

Definition Pay (pp : AlipayPaymentProvider.t) (r : PayReq.t)
  : Vendor W PayResp.t :=
  let client := client_after_Pay pp r in
  let bm := body r in
  let* payUrl := TradePagePay client bm in
  ret {| PayResp.PayUrl := payUrl;
         PayResp.OrderId := PayReq.PaymentName r;
         PayResp.AttachInfo := ∅ |}.

End Adapter.
End AlipayPay.

(* ===================================================================== *)
(** ** WeChat Pay: [Pay] (wechat.go)                                     *)
(* ===================================================================== *)

Module WechatPay.

Module Prepay.
Record t : Type := { PrepayId : string }.
End Prepay.

Module PrepayRsp.
Record t : Type := {
  Code : Z;
  Error : string;
  Response : option Prepay.t;
}.
End PrepayRsp.

Module Native.
Record t : Type := { CodeUrl : string }.
End Native.

Module NativeRsp.
Record t : Type := {
  Code : Z;
  Error : string;
  Response : option Native.t;
}.
End NativeRsp.

Module JSAPIPayParams.
Record t : Type := {
  AppId : string;
  TimeStamp : string;
  NonceStr : string;
  Package : string;
  SignType : string;
  PaySign : string;
}.
End JSAPIPayParams.

Abbreviation BodyMap := (gopay.BodyMap Empty_set).

(** The calls of go-pay's client that [Pay] makes. The receiver
    [pp.Client] is handed over as it is, nil included. *)
Class SDK (W : Type) `{!wechat.SDK W} : Type := {
  (** [c.V3TransactionJsapi(ctx, bm)] *)
  V3TransactionJsapi :
    option wechat.ClientV3 -> BodyMap -> Vendor W PrepayRsp.t;
  (** [c.PaySignOfJSAPI(appid, prepayid)] *)
  PaySignOfJSAPI :
    option wechat.ClientV3 -> string -> string -> Vendor W JSAPIPayParams.t;
  (** [c.V3TransactionNative(ctx, bm)] *)
  V3TransactionNative :
    option wechat.ClientV3 -> BodyMap -> Vendor W NativeRsp.t;
}.

Section Adapter.
Context {W : Type} `{!wechat.SDK W} `{!SDK W}.

(** The body map as it is before the payment environment is looked at. *)
Definition body (p : platform) (pp : WechatPaymentProvider.t) (r : PayReq.t)
  : BodyMap :=
  let desc := joinAttachString [PayReq.ProductDisplayName r;
                                PayReq.ProductName r;
                                PayReq.ProviderName r] in
  <[ "amount" :=
       gopay.VBodyMap
         (<[ "currency" := gopay.VString (PayReq.Currency r) ]>
            (<[ "total" :=
                  gopay.VInt64 (priceFloat64ToInt64 p (PayReq.Price r)) ]> ∅)) ]>
    (<[ "out_trade_no" := gopay.VString (PayReq.PaymentName r) ]>
       (<[ "notify_url" := gopay.VString (PayReq.NotifyUrl r) ]>
          (<[ "description" := gopay.VString (PayReq.ProductDisplayName r) ]>
             (<[ "appid" := gopay.VString (WechatPaymentProvider.AppId pp) ]>
                (<[ "attach" := gopay.VString desc ]> ∅))))).

Definition Pay (p : platform) (pp : WechatPaymentProvider.t) (r : PayReq.t)
  : Vendor W PayResp.t :=
  let bm := body p pp r in
  if String.eqb (PayReq.PaymentEnv r) PaymentEnvWechatBrowser then
    if String.eqb (PayReq.PayerId r) "" then
      fail "failed to get the payer's openid, please retry login"
    else
      let bm :=
        <[ "payer" :=
             gopay.VBodyMap
               (<[ "openid" := gopay.VString (PayReq.PayerId r) ]> ∅) ]> bm in
      let* jsapiRsp := V3TransactionJsapi (WechatPaymentProvider.Client pp) bm in
      if negb (PrepayRsp.Code jsapiRsp =? wechat.Success) then
        fail (PrepayRsp.Error jsapiRsp)
      else
        let* prepay := lift (deref (PrepayRsp.Response jsapiRsp)) in
        let* params :=
          PaySignOfJSAPI (WechatPaymentProvider.Client pp)
            (WechatPaymentProvider.AppId pp) (Prepay.PrepayId prepay) in
        ret {| PayResp.PayUrl := "";
               PayResp.OrderId := PayReq.PaymentName r;
               PayResp.AttachInfo :=
                 <[ "paySign" := JSAPIPayParams.PaySign params ]>
                   (<[ "signType" := "RSA" ]>
                      (<[ "package" := JSAPIPayParams.Package params ]>
                         (<[ "nonceStr" := JSAPIPayParams.NonceStr params ]>
                            (<[ "timeStamp" :=
                                  JSAPIPayParams.TimeStamp params ]>
                               (<[ "appId" :=
                                     JSAPIPayParams.AppId params ]> ∅))))) |}
  else
    let* nativeRsp :=
      V3TransactionNative (WechatPaymentProvider.Client pp) bm in
    if negb (NativeRsp.Code nativeRsp =? wechat.Success) then
      fail (NativeRsp.Error nativeRsp)
    else
      let* native := lift (deref (NativeRsp.Response nativeRsp)) in
      ret {| PayResp.PayUrl := Native.CodeUrl native;
             PayResp.OrderId := PayReq.PaymentName r;
             PayResp.AttachInfo := ∅ |}.

End Adapter.
End WechatPay.

(* ===================================================================== *)
(** ** Stripe: [Pay] (stripe.go)                                         *)
(* ===================================================================== *)

Module StripePay.

Module ProductDefaultPriceDataParams.
Record t : Type := { UnitAmount : Z; Currency : string }.
End ProductDefaultPriceDataParams.

Module ProductParams.
Record t : Type := {
  Name : string;
  Description : string;
  DefaultPriceData : ProductDefaultPriceDataParams.t;
}.
End ProductParams.

Module PriceParams.
Record t : Type := {
  Currency : string;
  UnitAmount : Z;
  Product : string;
}.
End PriceParams.

Module CheckoutSessionLineItemParams.
Record t : Type := { Price : string; Quantity : Z }.
End CheckoutSessionLineItemParams.

Module CheckoutSessionParams.
Record t : Type := {
  LineItems : list CheckoutSessionLineItemParams.t;
  Mode : string;
  SuccessURL : string;
  CancelURL : string;
  ClientReferenceID : string;
  ExpiresAt : Z;
  Metadata : gmap string string;
}.

(** [params.AddMetadata(key, value)] *)
Definition AddMetadata (params : t) (key value : string) : t := {|
  LineItems := LineItems params; Mode := Mode params;
  SuccessURL := SuccessURL params; CancelURL := CancelURL params;
  ClientReferenceID := ClientReferenceID params;
  ExpiresAt := ExpiresAt params;
  Metadata := <[ key := value ]> (Metadata params);
|}.
End CheckoutSessionParams.

(** What [Pay] reads of the objects the vendor creates. *)
Module Created.
Record Product : Type := { ProductID : string }.
Record Price : Type := { PriceID : string }.
Record Session : Type := { URL : string; SessionID : string }.
End Created.

(** [stripe.CheckoutSessionModePayment] *)
Definition CheckoutSessionModePayment : string := "payment".

Class SDK (W : Type) : Type := {
  (** [stripeProduct.New(params)] *)
  product_New : ProductParams.t -> Vendor W Created.Product;
  (** [stripePrice.New(params)] *)
  price_New : PriceParams.t -> Vendor W Created.Price;
  (** [stripeCheckout.New(params)] *)
  checkout_session_New : CheckoutSessionParams.t -> Vendor W Created.Session;
}.

Section Adapter.
Context {W : Type} `{!Clock W} `{!SDK W}.

Definition description (r : PayReq.t) : string :=
  joinAttachString [PayReq.ProductName r; PayReq.ProductDisplayName r;
                    PayReq.ProviderName r].

Definition productParams (p : platform) (r : PayReq.t) : ProductParams.t :=
  {| ProductParams.Name := PayReq.ProductDisplayName r;
     ProductParams.Description := description r;
     ProductParams.DefaultPriceData :=
       {| ProductDefaultPriceDataParams.UnitAmount :=
            priceFloat64ToInt64 p (PayReq.Price r);
          ProductDefaultPriceDataParams.Currency := PayReq.Currency r |} |}.

Definition priceParams (p : platform) (r : PayReq.t) (productID : string)
  : PriceParams.t :=
  {| PriceParams.Currency := PayReq.Currency r;
     PriceParams.UnitAmount := priceFloat64ToInt64 p (PayReq.Price r);
     PriceParams.Product := productID |}.

Definition checkoutParams (r : PayReq.t) (priceID : string) (now : time.Time)
  : CheckoutSessionParams.t :=
  CheckoutSessionParams.AddMetadata
    {| CheckoutSessionParams.LineItems :=
         [{| CheckoutSessionLineItemParams.Price := priceID;
             CheckoutSessionLineItemParams.Quantity := 1 |}];
       CheckoutSessionParams.Mode := CheckoutSessionModePayment;
       CheckoutSessionParams.SuccessURL := PayReq.ReturnUrl r;
       CheckoutSessionParams.CancelURL := PayReq.ReturnUrl r;
       CheckoutSessionParams.ClientReferenceID := PayReq.PaymentName r;
       CheckoutSessionParams.ExpiresAt :=
         time.Unix (time.Add now (30 * time.Minute));
       CheckoutSessionParams.Metadata := ∅ |}
    "product_description" (description r).

Definition Pay (p : platform) (pp : StripePaymentProvider.t) (r : PayReq.t)
  : Vendor W PayResp.t :=
  let* sProduct := product_New (productParams p r) in
  let* sPrice := price_New (priceParams p r (Created.ProductID sProduct)) in
  let* now := time_Now in
  let* sCheckout :=
    checkout_session_New (checkoutParams r (Created.PriceID sPrice) now) in
  ret {| PayResp.PayUrl := Created.URL sCheckout;
         PayResp.OrderId := Created.SessionID sCheckout;
         PayResp.AttachInfo := ∅ |}.

End Adapter.
End StripePay.

(* ===================================================================== *)
(** ** PayPal: [Pay] (paypal.go)                                         *)
(* ===================================================================== *)

Module PaypalPay.

(** [paypal.PurchaseUnit] as [Pay] fills it. *)
Module PurchaseUnit.
Record t : Type := {
  ReferenceId : string;
  Amount : paypal.Amount;
  Description : string;
}.
End PurchaseUnit.

Module Link.
Record t : Type := { Href : string }.
End Link.

(** What [Pay] reads of the order the vendor creates: [Links] is a
    slice of pointers. *)
Module CreatedOrder.
Record t : Type := {
  Id : string;
  Links : list (option Link.t);
}.
End CreatedOrder.

Module CreateOrderRsp.
Record t : Type := {
  Code : Z;
  Error : string;
  Response : option CreatedOrder.t;
}.
End CreateOrderRsp.

Abbreviation BodyMap := (gopay.BodyMap (list PurchaseUnit.t)).

Class SDK (W : Type) `{!paypal.SDK W} : Type := {
  (** [c.CreateOrder(ctx, bm)] *)
  CreateOrder : paypal.Client -> BodyMap -> Vendor W CreateOrderRsp.t;
}.

Section Adapter.
Context {W : Type} `{!GoFmt} `{!GoRuntime} `{!Clock W} `{!Rand}.
Context `{!paypal.SDK W} `{!SDK W}.

Definition purchase_unit (r : PayReq.t) (referenceId : string)
  : PurchaseUnit.t :=
  {| PurchaseUnit.ReferenceId := referenceId;
     PurchaseUnit.Amount :=
       {| paypal.CurrencyCode := PayReq.Currency r;
          paypal.Value := priceFloat64ToString (PayReq.Price r) |};
     PurchaseUnit.Description :=
       joinAttachString [PayReq.ProductDisplayName r; PayReq.ProductName r;
                         PayReq.ProviderName r] |}.

Definition body (r : PayReq.t) (referenceId : string) : BodyMap :=
  <[ "application_context" :=
       gopay.VBodyMap
         (<[ "cancel_url" := gopay.VString (PayReq.ReturnUrl r) ]>
            (<[ "return_url" := gopay.VString (PayReq.ReturnUrl r) ]>
               (<[ "locale" := gopay.VString "en-PT" ]>
                  (<[ "brand_name" := gopay.VString "Casdoor" ]> ∅)))) ]>
    (<[ "purchase_units" := gopay.VOther [purchase_unit r referenceId] ]>
       (<[ "intent" := gopay.VString "CAPTURE" ]> ∅)).

(** [s[1]] on a slice. *)
Definition index1 {A : Type} (s : list A) : outcome A :=
  match s with
  | _ :: a :: _ => Val a
  | _ => Panic "index out of range [1]"
  end.

Definition Pay (pp : PaypalPaymentProvider.t) (r : PayReq.t)
  : Vendor W PayResp.t :=
  let* referenceId := GetRandomString 16 in
  let bm := body r referenceId in
  let* ppRsp := CreateOrder (PaypalPaymentProvider.Client pp) bm in
  if negb (CreateOrderRsp.Code ppRsp =? paypal.Success) then
    fail (CreateOrderRsp.Error ppRsp)
  else
    let* order := lift (deref (CreateOrderRsp.Response ppRsp)) in
    let* link := lift (index1 (CreatedOrder.Links order)) in
    let* approve := lift (deref link) in
    ret {| PayResp.PayUrl := Link.Href approve;
           PayResp.OrderId := CreatedOrder.Id order;
           PayResp.AttachInfo := ∅ |}.

End Adapter.
End PaypalPay.

(* ===================================================================== *)
(** ** HTTP, as the two hand-written clients use it                      *)
(* ===================================================================== *)

Module http.

(** [*http.Request], as far as the package builds it. The header is
    keyed by the canonical form of the names. *)
Record Request : Type := {
  Method : string;
  URL : string;
  Body : option string;
  Header : gmap string string;
}.

End http.

(** The server is part of the world. Closing a response body is left
    out. *)
Class HTTP (W : Type) : Type := {
  Response : Type;
  (** The error of [http.NewRequest(method, url, body)], which depends on
      the method and the URL only. *)
  http_NewRequest_error : string -> string -> option error;
  (** [textproto.CanonicalMIMEHeaderKey(name)] *)
  CanonicalMIMEHeaderKey : string -> string;
  (** [client.Do(req)] on a client with the given [Timeout] *)
  client_Do : Z -> http.Request -> Vendor W Response;
  (** [io.ReadAll(resp.Body)] *)
  io_ReadAll : Response -> Vendor W string;
}.

(** [req.Header.Set(name, value)] *)
Definition Header_Set `{HTTP} (req : http.Request) (name value : string)
  : http.Request :=
  {| http.Method := http.Method req; http.URL := http.URL req;
     http.Body := http.Body req;
     http.Header := <[ CanonicalMIMEHeaderKey name := value ]> (http.Header req) |}.

(** [req, err := http.NewRequest(method, url, body)] *)
Definition http_NewRequest `{HTTP} (method url : string) (body : option string)
  : error + http.Request :=
  match http_NewRequest_error method url with
  | Some err => inl err
  | None => inr {| http.Method := method; http.URL := url;
                   http.Body := body; http.Header := ∅ |}
  end.

(* ===================================================================== *)
(** ** GC: [doPost], [Pay] and [GetInvoice] (gc.go)                      *)
(* ===================================================================== *)

Module GcPayReqInfo.
Record t : Type := {
  OrderDate : string;
  OrderNo : string;
  Amount : string;
  Xmpch : string;
  Body : string;
  ReturnUrl : string;
  NotifyUrl : string;
  PayerId : string;
  PayerName : string;
  Remark1 : string;
  Remark2 : string;
}.
End GcPayReqInfo.

Module GcPayRespInfo.
Record t : Type := {
  Jylsh : string;
  Amount : string;
  PayerId : string;
  PayerName : string;
  PayUrl : string;
}.
End GcPayRespInfo.

Module GcResponseBody.
Record t : Type := {
  Op : string;
  Xmpch : string;
  Version : string;
  ReturnCode : string;
  ReturnMsg : string;
  Data : string;
  NotifyTime : string;
  Sign : string;
}.
End GcResponseBody.

Module GcInvoiceReqInfo.
Record t : Type := {
  BusNo : string;
  PayerName : string;
  IdNum : string;
  PayerType : string;
  InvoiceTitle : string;
  Tin : string;
  Phone : string;
  Email : string;
}.
End GcInvoiceReqInfo.

Module GcInvoiceRespInfo.
Record t : Type := {
  BusNo : string;
  State : string;
  EbillCode : string;
  EbillNo : string;
  CheckCode : string;
  Url : string;
  Content : string;
}.
End GcInvoiceRespInfo.

(** What the GC client takes from casdoor's [util] and from the Go
    library. *)
Class GcLib (W : Type) : Type := {
  (** [util.GenerateSimpleTimeId()], which reads the clock *)
  GenerateSimpleTimeId : Vendor W string;
  (** [util.GetMd5Hash(s)] *)
  GetMd5Hash : string -> string;
  (** [strings.ToUpper(s)] *)
  strings_ToUpper : string -> string;
  (** [base64.StdEncoding.EncodeToString(b)] *)
  base64_EncodeToString : string -> string;
  (** [json.Unmarshal(b, &GcResponseBody{})] *)
  json_Unmarshal_GcResponseBody : string -> error + GcResponseBody.t;
  (** [json.Unmarshal(b, &GcPayRespInfo{})] *)
  json_Unmarshal_GcPayRespInfo : string -> error + GcPayRespInfo.t;
  (** [json.Unmarshal(b, &GcInvoiceRespInfo{})] *)
  json_Unmarshal_GcInvoiceRespInfo : string -> error + GcInvoiceRespInfo.t;
}.

Module GcClient.
Section Adapter.
Context {W : Type} `{!GoLib} `{!GoFmt} `{!HTTP W} `{!GcLib W}.

(** [json.Marshal] of the three structs the client sends: all their
    fields are strings, written under their tags. *)
Definition Marshal_GcPayReqInfo (i : GcPayReqInfo.t) : string :=
  Json.object [("orderdate", GcPayReqInfo.OrderDate i);
               ("orderno", GcPayReqInfo.OrderNo i);
               ("amount", GcPayReqInfo.Amount i);
               ("xmpch", GcPayReqInfo.Xmpch i);
               ("body", GcPayReqInfo.Body i);
               ("return_url", GcPayReqInfo.ReturnUrl i);
               ("notify_url", GcPayReqInfo.NotifyUrl i);
               ("payerid", GcPayReqInfo.PayerId i);
               ("payername", GcPayReqInfo.PayerName i);
               ("remark1", GcPayReqInfo.Remark1 i);
               ("remark2", GcPayReqInfo.Remark2 i)].

Definition Marshal_GcInvoiceReqInfo (i : GcInvoiceReqInfo.t) : string :=
  Json.object [("busno", GcInvoiceReqInfo.BusNo i);
               ("payername", GcInvoiceReqInfo.PayerName i);
               ("idnum", GcInvoiceReqInfo.IdNum i);
               ("payertype", GcInvoiceReqInfo.PayerType i);
               ("invoicetitle", GcInvoiceReqInfo.InvoiceTitle i);
               ("tin", GcInvoiceReqInfo.Tin i);
               ("phone", GcInvoiceReqInfo.Phone i);
               ("email", GcInvoiceReqInfo.Email i)].

Definition Marshal_GcRequestBody (b : GcRequestBody.t) : string :=
  Json.object [("op", GcRequestBody.Op b);
               ("xmpch", GcRequestBody.Xmpch b);
               ("version", GcRequestBody.Version b);
               ("data", GcRequestBody.Data b);
               ("requesttime", GcRequestBody.RequestTime b);
               ("sign", GcRequestBody.Sign b)].

Definition doPost (pp : GcPaymentProvider.t) (postBytes : string)
  : Vendor W string :=
  let contentType := "text/plain;charset=UTF-8" in
  let* req :=
    lift (of_pair (http_NewRequest "POST" (GcPaymentProvider.Host pp)
                     (Some postBytes))) in
  let req := Header_Set req "Content-Type" contentType in
  let* resp := client_Do 0 req in
  io_ReadAll resp.

(** The string that is hashed into the signature. *)
Definition sign_params (pp : GcPaymentProvider.t) (body : GcRequestBody.t)
  : string :=
  "data=" +:+ GcRequestBody.Data body
  +:+ "&op=" +:+ GcRequestBody.Op body
  +:+ "&requesttime=" +:+ GcRequestBody.RequestTime body
  +:+ "&version=" +:+ GcRequestBody.Version body
  +:+ "&xmpch=" +:+ GcRequestBody.Xmpch body
  +:+ GcPaymentProvider.SecretKey pp.

(** The part [Pay] and [GetInvoice] share: the request with the
    operation [op] and the payload [b] is time-stamped, signed and
    posted, and the payload of a ["SUCCESS"] answer is decoded from
    base64. *)
Definition exchange (pp : GcPaymentProvider.t) (op b : string)
  : Vendor W string :=
  let* requestTime := GenerateSimpleTimeId in
  let body := {| GcRequestBody.Op := op;
                 GcRequestBody.Xmpch := GcPaymentProvider.Xmpch pp;
                 GcRequestBody.Version := "1.4";
                 GcRequestBody.Data := base64_EncodeToString b;
                 GcRequestBody.RequestTime := requestTime;
                 GcRequestBody.Sign := "" |} in
  let params := sign_params pp body in
  let body := {| GcRequestBody.Op := GcRequestBody.Op body;
                 GcRequestBody.Xmpch := GcRequestBody.Xmpch body;
                 GcRequestBody.Version := GcRequestBody.Version body;
                 GcRequestBody.Data := GcRequestBody.Data body;
                 GcRequestBody.RequestTime := GcRequestBody.RequestTime body;
                 GcRequestBody.Sign := strings_ToUpper (GetMd5Hash params) |} in
  let bodyBytes := Marshal_GcRequestBody body in
  let* respBytes := doPost pp bodyBytes in
  let* respBody := lift (of_pair (json_Unmarshal_GcResponseBody respBytes)) in
  if negb (String.eqb (GcResponseBody.ReturnCode respBody) "SUCCESS") then
    fail (GcResponseBody.ReturnCode respBody +:+ ": "
          +:+ GcResponseBody.ReturnMsg respBody)
  else
    lift (of_pair (base64_DecodeString (GcResponseBody.Data respBody))).

Definition Pay (pp : GcPaymentProvider.t) (r : PayReq.t)
  : Vendor W PayResp.t :=
  let* orderDate := GenerateSimpleTimeId in
  let payReqInfo := {| GcPayReqInfo.OrderDate := orderDate;
                       GcPayReqInfo.OrderNo := PayReq.PaymentName r;
                       GcPayReqInfo.Amount := getPriceString (PayReq.Price r);
                       GcPayReqInfo.Xmpch := GcPaymentProvider.Xmpch pp;
                       GcPayReqInfo.Body := PayReq.ProductDisplayName r;
                       GcPayReqInfo.ReturnUrl := PayReq.ReturnUrl r;
                       GcPayReqInfo.NotifyUrl := PayReq.NotifyUrl r;
                       GcPayReqInfo.PayerId := "";
                       GcPayReqInfo.PayerName := "";
                       GcPayReqInfo.Remark1 := PayReq.PayerName r;
                       GcPayReqInfo.Remark2 := PayReq.ProductName r |} in
  let b := Marshal_GcPayReqInfo payReqInfo in
  let* payRespInfoBytes := exchange pp "OrderCreate" b in
  let* payRespInfo :=
    lift (of_pair (json_Unmarshal_GcPayRespInfo payRespInfoBytes)) in
  ret {| PayResp.PayUrl := GcPayRespInfo.PayUrl payRespInfo;
         PayResp.OrderId := "";
         PayResp.AttachInfo := ∅ |}.

Definition GetInvoice (pp : GcPaymentProvider.t)
    (paymentName personName personIdCard personEmail personPhone : string)
    (invoiceType invoiceTitle invoiceTaxId : string) : Vendor W string :=
  let payerType :=
    if String.eqb invoiceType "Organization" then "1" else "0" in
  let invoiceReqInfo := {| GcInvoiceReqInfo.BusNo := paymentName;
                           GcInvoiceReqInfo.PayerName := personName;
                           GcInvoiceReqInfo.IdNum := personIdCard;
                           GcInvoiceReqInfo.PayerType := payerType;
                           GcInvoiceReqInfo.InvoiceTitle := invoiceTitle;
                           GcInvoiceReqInfo.Tin := invoiceTaxId;
                           GcInvoiceReqInfo.Phone := personPhone;
                           GcInvoiceReqInfo.Email := personEmail |} in
  let b := Marshal_GcInvoiceReqInfo invoiceReqInfo in
  let* invoiceRespInfoBytes := exchange pp "InvoiceEBillByOrder" b in
  let* invoiceRespInfo :=
    lift (of_pair (json_Unmarshal_GcInvoiceRespInfo invoiceRespInfoBytes)) in
  if String.eqb (GcInvoiceRespInfo.State invoiceRespInfo) "0" then
    fail "申请成功，开票中"
  else if String.eqb (GcInvoiceRespInfo.Url invoiceRespInfo) "" then
    fail "invoice URL is empty"
  else ret (GcInvoiceRespInfo.Url invoiceRespInfo).

End Adapter.
End GcClient.

(* ===================================================================== *)
(** ** Airwallex: the hand-written client (airwallex.go)                 *)
(* ===================================================================== *)

Module AirWallexIntentResp.
Record t : Type := {
  Id : string;
  ClientSecret : string;
  MerchantOrderId : string;
}.
End AirWallexIntentResp.

Module AirwallexIntent.
Record t : Type := {
  Amount : string;   (* [json.Number] *)
  Currency : string;
  Id : string;
  Status : string;
  Descriptor : string;
  MerchantOrderId : string;
  LatestPaymentAttempt_Status : string;
  Metadata : gmap string any;
}.
End AirwallexIntent.

(** The entry [c.tokenCache] points to: an [AirWallexTokenInfo] with its
    unexported field [parsedExpiresAt]. *)
Module CachedToken.
Record t : Type := {
  info : AirWallexTokenInfo.t;
  parsedExpiresAt : time.Time;
}.
End CachedToken.

(** What the client takes from the Go library. *)
Class AirwallexLib (W : Type) `{!HTTP W} : Type := {
  (** [json.NewDecoder(resp.Body).Decode(&AirWallexTokenInfo{})] *)
  Decode_AirWallexTokenInfo : Response -> Vendor W AirWallexTokenInfo.t;
  (** [json.NewDecoder(resp.Body).Decode(&map[string]interface{}{})] *)
  Decode_object : Response -> Vendor W (gmap string json);
  (** [b, _ := json.Marshal(v)] *)
  json_Marshal : json -> string;
  (** [json.Marshal(item)] followed by [json.Unmarshal(b, &intent)] on a
      zero [AirwallexIntent], the errors of both dropped *)
  remarshal_AirwallexIntent : json -> AirwallexIntent.t;
  (** [time.Parse(time.RFC3339, s)] *)
  time_Parse_RFC3339 : string -> error + time.Time;
  (** The first 32 runes of [s] with the NUL bytes removed, as
      [strings.ReplaceAll(string([]rune(s)[:32]), NUL, empty)] gives them:
      whether the slice expression panics on fewer than 32 runes depends
      on the capacity the conversion gives the slice *)
  descriptor_of : string -> outcome string;
  (** [fmt.Sprintf("%v", f)] on a [float64] *)
  fmt_verb_v_float64 : float -> string;
  (** [url.QueryEscape(s)] *)
  url_QueryEscape : string -> string;
}.

Module AirwallexHTTP.
Section Client.
Context {W : Type} `{!Clock W} `{!HTTP W} `{!AirwallexLib W}.

(** What a call on the client [c] can change: the token [c.tokenCache]
    points to (nil at first), and the world. The field
    [AirwallexClient.tokenCache] is what the constructor writes; the
    running value is the first component here. The mutex is left out:
    one call runs at a time. *)
Definition State : Type := option CachedToken.t * W.

(** A step in the world. *)
Definition world {A : Type} (m : Vendor W A) : Vendor State A :=
  fun s => let '(o, w') := m (snd s) in (o, (fst s, w')).

(** [c.tokenCache] *)
Definition tokenCache : Vendor State (option CachedToken.t) :=
  fun s => (Val (fst s), s).

(** [c.tokenCache = &result] *)
Definition set_tokenCache (tok : CachedToken.t) : Vendor State unit :=
  fun s => (Val tt, (Some tok, snd s)).

(** [req, _ := http.NewRequest(...)] followed by a use of [req]: a nil
    [req] panics. *)
Definition NewRequest_unchecked (method url : string) (body : option string)
  : outcome http.Request :=
  match http_NewRequest method url body with
  | inr req => Val req
  | inl _ => Panic "invalid memory address or nil pointer dereference"
  end.

(** The condition [c.tokenCache != nil &&
    time.Now().Before(c.tokenCache.parsedExpiresAt)]: the clock is read
    only when there is a token. *)
Definition cached_token : Vendor State (option string) :=
  let* cache := tokenCache in
  match cache with
  | None => ret None
  | Some tok =>
      let* now := world time_Now in
      if time.Before now (CachedToken.parsedExpiresAt tok)
      then ret (Some (AirWallexTokenInfo.Token (CachedToken.info tok)))
      else ret None
  end.

Definition GetToken (c : AirwallexClient.t) : Vendor State string :=
  let* hit := cached_token in
  match hit with
  | Some token => ret token
  | None =>
      let* req :=
        lift (NewRequest_unchecked "POST"
                (AirwallexClient.APIEndpoint c +:+ "/authentication/login")
                (Some "{}")) in
      let req := Header_Set req "x-client-id" (AirwallexClient.ClientId c) in
      let req := Header_Set req "x-api-key" (AirwallexClient.APIKey c) in
      let* resp := world (client_Do (AirwallexClient.client_Timeout c) req) in
      let* result := world (Decode_AirWallexTokenInfo resp) in
      if String.eqb (AirWallexTokenInfo.Token result) "" then
        fail "invalid token response"
      else
        let expiresAt :=
          GoStrings.Replace1 (AirWallexTokenInfo.ExpiresAt result)
            "+0000" "+00:00" in
        let parsed :=
          match time_Parse_RFC3339 expiresAt with
          | inr t => t
          | inl _ => time.zero
          end in
        let* _ := set_tokenCache {| CachedToken.info := result;
                                    CachedToken.parsedExpiresAt := parsed |} in
        ret (AirWallexTokenInfo.Token result)
  end.

Definition authRequest (c : AirwallexClient.t) (method url : string)
    (body : json) : Vendor State (gmap string json) :=
  let* token := GetToken c in
  let b := json_Marshal body in
  let reqBody := if negb (String.eqb method "GET") then Some b else None in
  let* req := lift (NewRequest_unchecked method url reqBody) in
  let req := Header_Set req "Authorization" ("Bearer " +:+ token) in
  let req := Header_Set req "Content-Type" "application/json" in
  let* resp := world (client_Do (AirwallexClient.client_Timeout c) req) in
  world (Decode_object resp).

(** [m[key].(string)] *)
Definition string_at (m : gmap string json) (key : string) : outcome string :=
  match m !! key with
  | Some (JString s) => Val s
  | _ => Panic "interface conversion: interface {} is not string"
  end.

(** [m[key].([]interface{})] *)
Definition array_at (m : gmap string json) (key : string)
  : outcome (list json) :=
  match m !! key with
  | Some (JArray items) => Val items
  | _ => Panic "interface conversion: interface {} is not []interface {}"
  end.

(** The request [CreateIntent] sends; [descriptor] is the shortened
    description. *)
Definition intentReq (r : PayReq.t) (description descriptor : string) : json :=
  let orderId := PayReq.PaymentName r in
  JObject
    (<[ "customer" :=
          JObject
            (<[ "last_name" := JString (PayReq.PayerName r) ]>
               (<[ "first_name" := JString (PayReq.PayerName r) ]>
                  (<[ "email" := JString (PayReq.PayerEmail r) ]>
                     (<[ "merchant_customer_id" :=
                           JString (PayReq.PayerId r) ]> ∅)))) ]>
       (<[ "order" :=
             JObject
               (<[ "products" :=
                     JArray
                       [JObject
                          (<[ "image_url" := JString (PayReq.ProductImage r) ]>
                             (<[ "desc" :=
                                   JString (PayReq.ProductDescription r) ]>
                                (<[ "quantity" := JNumber 1 ]>
                                   (<[ "name" :=
                                         JString
                                           (PayReq.ProductDisplayName r) ]>
                                      ∅))))] ]> ∅) ]>
          (<[ "metadata" :=
                JObject (<[ "description" := JString description ]> ∅) ]>
             (<[ "descriptor" := JString descriptor ]>
                (<[ "request_id" := JString orderId ]>
                   (<[ "merchant_order_id" := JString orderId ]>
                      (<[ "amount" := JNumber (PayReq.Price r) ]>
                         (<[ "currency" := JString (PayReq.Currency r) ]>
                            ∅)))))))).

Definition CreateIntent (c : AirwallexClient.t) (r : PayReq.t)
  : Vendor State AirWallexIntentResp.t :=
  let description :=
    joinAttachString [PayReq.ProductName r; PayReq.ProductDisplayName r;
                      PayReq.ProviderName r] in
  let* descriptor := lift (descriptor_of description) in
  let intentUrl :=
    AirwallexClient.APIEndpoint c +:+ "/pa/payment_intents/create" in
  let* res :=
    attempt (authRequest c "POST" intentUrl
               (intentReq r description descriptor)) in
  match res with
  | inl err => fail ("failed to create payment intent: " +:+ err)
  | inr intentRes =>
      let* id := lift (string_at intentRes "id") in
      let* clientSecret := lift (string_at intentRes "client_secret") in
      let* merchantOrderId := lift (string_at intentRes "merchant_order_id") in
      ret {| AirWallexIntentResp.Id := id;
             AirWallexIntentResp.ClientSecret := clientSecret;
             AirWallexIntentResp.MerchantOrderId := merchantOrderId |}
  end.

Definition GetIntentByOrderId (c : AirwallexClient.t) (orderId : string)
  : Vendor State AirWallexIntentInfo.t :=
  let intentUrl :=
    AirwallexClient.APIEndpoint c
    +:+ "/pa/payment_intents/?merchant_order_id=" +:+ orderId in
  let* res := attempt (authRequest c "GET" intentUrl JNull) in
  match res with
  | inl err => fail ("failed to get payment intent: " +:+ err)
  | inr intentRes =>
      let* items := lift (array_at intentRes "items") in
      match items with
      | [] => fail ("no payment intent found for order id: " +:+ orderId)
      | item :: _ =>
          let intent := remarshal_AirwallexIntent item in
          ret {| AirWallexIntentInfo.Id := AirwallexIntent.Id intent;
                 AirWallexIntentInfo.Amount := AirwallexIntent.Amount intent;
                 AirWallexIntentInfo.Currency :=
                   AirwallexIntent.Currency intent;
                 AirWallexIntentInfo.Status := AirwallexIntent.Status intent;
                 AirWallexIntentInfo.Descriptor :=
                   AirwallexIntent.Descriptor intent;
                 AirWallexIntentInfo.MerchantOrderId :=
                   AirwallexIntent.MerchantOrderId intent;
                 AirWallexIntentInfo.PaymentStatus :=
                   AirwallexIntent.LatestPaymentAttempt_Status intent;
                 AirWallexIntentInfo.Metadata :=
                   AirwallexIntent.Metadata intent |}
      end
  end.

(** The raw string literal [["address"]] of the source, a JSON array. *)
Definition required_fields : string :=
  "[" +:+ String Json.dquote ("address" +:+ String Json.dquote "]").

Definition GetCheckoutUrl (c : AirwallexClient.t)
    (intent : AirWallexIntentResp.t) (r : PayReq.t) : Vendor State string :=
  ret (AirwallexClient.APICheckout c
       +:+ "intent_id=" +:+ AirWallexIntentResp.Id intent
       +:+ "&client_secret=" +:+ AirWallexIntentResp.ClientSecret intent
       +:+ "&mode=payment&currency=" +:+ PayReq.Currency r
       +:+ "&amount=" +:+ fmt_verb_v_float64 (PayReq.Price r)
       +:+ "&requiredBillingContactFields="
       +:+ url_QueryEscape required_fields
       +:+ "&successUrl=" +:+ PayReq.ReturnUrl r
       +:+ "&failUrl=" +:+ PayReq.ReturnUrl r
       +:+ "&logoUrl="
       +:+ "data:image/gif;base64,R0lGODlhAQABAAD/ACwAAAAAAQABAAACADs=").

(** The provider's [Pay]. *)
Definition Pay (pp : AirwallexPaymentProvider.t) (r : PayReq.t)
  : Vendor State PayResp.t :=
  let* intent := CreateIntent (AirwallexPaymentProvider.Client pp) r in
  let* payUrl := GetCheckoutUrl (AirwallexPaymentProvider.Client pp) intent r in
  ret {| PayResp.PayUrl := payUrl;
         PayResp.OrderId := AirWallexIntentResp.MerchantOrderId intent;
         PayResp.AttachInfo := ∅ |}.

(** The client as [Notify] uses it. *)
Definition api : AirwallexAPI State :=
  Build_AirwallexAPI State GetIntentByOrderId.

End Client.
End AirwallexHTTP.

(* ===================================================================== *)
(** * Notions used by the properties                                     *)
(* ===================================================================== *)

(** The normalised status of the result of a [Notify], when it has one. *)
Definition status_of (o : outcome NotifyResult.t) : option PaymentState :=
  match o with
  | Val r => Some (NotifyResult.PaymentStatus r)
  | _ => None
  end.

(** The report the specification asks for on a vendor status [raw] that
    the adapter does not know: a result (no hard failure) whose status
    is [Error] and whose message is not empty and contains [raw]. *)
Definition is_unmapped_report (o : outcome NotifyResult.t) (raw : string)
  : bool :=
  match o with
  | Val r =>
      String.eqb (NotifyResult.PaymentStatus r) PaymentStateError
      && Strings.Contains (NotifyResult.NotifyMessage r) raw
      && negb (String.eqb (NotifyResult.NotifyMessage r) "")
  | _ => false
  end.

(** The result every adapter that writes a message builds for a status
    it does not know. *)
Definition unexpected (message : string) : NotifyResult.t :=
  NotifyResult.setNotifyMessage
    (NotifyResult.setPaymentStatus NotifyResult.zero PaymentStateError)
    message.

(** A capture attempt after which PayPal's [Notify] goes on to read the
    order: it succeeded, or the order had been captured before. *)
Definition capture_passes (capture : paypal.Rsp) : bool :=
  (paypal.Code capture =? paypal.Success)
  || match PaypalPaymentProvider.first_detail capture with
     | Val errDetail =>
         String.eqb (paypal.Issue errDetail) "ORDER_ALREADY_CAPTURED"
     | _ => false
     end.




(** Where a real number [x + F / D], with [0 <= F < D], lies between the
    integers [x] and [x + 1]. *)
Definition loc_of_frac (F D : Z) : location :=
  if F =? 0 then loc_Exact else loc_Inexact (2 * F ?= D).

(** The record reached after [k] shifts of a binary64 rounding stands
    for the number [(mx + num / den) / 2 ^ k]. *)
Definition shr_inv (den num mx : Z) (k : nat) (mrs : shr_record) : Prop :=
  let F := den * (mx - shr_m mrs * 2 ^ Z.of_nat k) + num in
  0 <= shr_m mrs
  /\ 0 <= F < den * 2 ^ Z.of_nat k
  /\ loc_of_shr_record mrs = loc_of_frac F (den * 2 ^ Z.of_nat k).

(** The mantissa of the binary64 number 100, whose exponent is -46. *)
Definition hundred_m : positive := 7036874417766400.

(** The [float64] of a decimal amount with two fraction digits, given
    by its number [n] of cents: the binary64 nearest to [n / 100], ties
    to even, which is what a decimal literal or [strconv.ParseFloat]
    gives: [amount_of_cents 9999] is [99.99]. *)
Definition amount_of_cents (n : Z) : float :=
  SF2Prim (SFdiv prec emax (binary_normalize prec emax n 0 false)
                           (binary_normalize prec emax 100 0 false)).

(** ** Notions for the payment side *)

(** A form field that [m[key][0]] can read: the key is there, with at
    least one value. *)
Definition has_field (m : gmap string (list string)) (key : string) : bool :=
  match m !! key with
  | Some (_ :: _) => true
  | _ => false
  end.

(** The fields of a GC notification that [Notify] reads. *)
Definition gc_fields : list string :=
  ["op"; "xmpch"; "version"; "data"; "requesttime"; "sign"].

(** The three names of a result. *)
Definition names_of (r : NotifyResult.t) : string * string * string :=
  (NotifyResult.ProductName r, NotifyResult.ProductDisplayName r,
   NotifyResult.ProviderName r).

(** A call that panics, whatever the runtime's message. *)
Definition panics {A : Type} (o : outcome A) : Prop :=
  exists msg, o = Panic msg.

(** The request [GetToken] sends. *)
Definition login_request `{HTTP} (c : AirwallexClient.t) : http.Request :=
  Header_Set
    (Header_Set
       {| http.Method := "POST";
          http.URL := AirwallexClient.APIEndpoint c +:+ "/authentication/login";
          http.Body := Some "{}";
          http.Header := ∅ |}
       "x-client-id" (AirwallexClient.ClientId c))
    "x-api-key" (AirwallexClient.APIKey c).

(** The URL [GetIntentByOrderId] asks. *)
Definition intent_url (c : AirwallexClient.t) (orderId : string) : string :=
  AirwallexClient.APIEndpoint c
  +:+ "/pa/payment_intents/?merchant_order_id=" +:+ orderId.

(** The invoice request [GetInvoice] marshals. *)
Definition invoice_request (paymentName personName personIdCard : string)
    (personEmail personPhone invoiceType invoiceTitle invoiceTaxId : string)
  : GcInvoiceReqInfo.t :=
  {| GcInvoiceReqInfo.BusNo := paymentName;
     GcInvoiceReqInfo.PayerName := personName;
     GcInvoiceReqInfo.IdNum := personIdCard;
     GcInvoiceReqInfo.PayerType :=
       if String.eqb invoiceType "Organization" then "1" else "0";
     GcInvoiceReqInfo.InvoiceTitle := invoiceTitle;
     GcInvoiceReqInfo.Tin := invoiceTaxId;
     GcInvoiceReqInfo.Phone := personPhone;
     GcInvoiceReqInfo.Email := personEmail |}.

(** The payment request [Pay] marshals, and the signed envelope that
    [Pay] and [GetInvoice] post for the operation [op] and the payload
    [b]. *)
Definition pay_request `{GoFmt} (pp : GcPaymentProvider.t) (r : PayReq.t)
    (orderDate : string) : GcPayReqInfo.t :=
  {| GcPayReqInfo.OrderDate := orderDate;
     GcPayReqInfo.OrderNo := PayReq.PaymentName r;
     GcPayReqInfo.Amount := getPriceString (PayReq.Price r);
     GcPayReqInfo.Xmpch := GcPaymentProvider.Xmpch pp;
     GcPayReqInfo.Body := PayReq.ProductDisplayName r;
     GcPayReqInfo.ReturnUrl := PayReq.ReturnUrl r;
     GcPayReqInfo.NotifyUrl := PayReq.NotifyUrl r;
     GcPayReqInfo.PayerId := "";
     GcPayReqInfo.PayerName := "";
     GcPayReqInfo.Remark1 := PayReq.PayerName r;
     GcPayReqInfo.Remark2 := PayReq.ProductName r |}.

Definition signed_body {W : Type} `{!GcLib W} (pp : GcPaymentProvider.t)
    (op b requestTime : string) : GcRequestBody.t :=
  let unsigned := {| GcRequestBody.Op := op;
                     GcRequestBody.Xmpch := GcPaymentProvider.Xmpch pp;
                     GcRequestBody.Version := "1.4";
                     GcRequestBody.Data := base64_EncodeToString b;
                     GcRequestBody.RequestTime := requestTime;
                     GcRequestBody.Sign := "" |} in
  {| GcRequestBody.Op := op;
     GcRequestBody.Xmpch := GcPaymentProvider.Xmpch pp;
     GcRequestBody.Version := "1.4";
     GcRequestBody.Data := base64_EncodeToString b;
     GcRequestBody.RequestTime := requestTime;
     GcRequestBody.Sign :=
       strings_ToUpper (GetMd5Hash (GcClient.sign_params pp unsigned)) |}.

(* ===================================================================== *)
(** * Test doubles                                                       *)
(* ===================================================================== *)

(** Scripted vendors and table-driven stand-ins for the library
    decoders, on which the general statements below are instantiated.
    The state of a scripted vendor is the answer it gives. *)
Module Mock.

Definition ParseFloat (s : string) : error + float :=
  if String.eqb s "99.99" then inr 99.99%float
  else if String.eqb s "10.00" then inr 10%float
  else inl "strconv.ParseFloat: invalid syntax".

Definition trade_not_exist : string :=
  Json.object [("code", "40004"); ("msg", "Business Failed");
               ("sub_code", "ACQ.TRADE_NOT_EXIST");
               ("sub_msg", "trade does not exist")].

Definition system_error : string :=
  Json.object [("code", "20000"); ("msg", "Service Currently Unavailable");
               ("sub_code", "aop.unknow-error");
               ("sub_msg", "system busy")].

Definition Unmarshal_ErrorResponse (s : string)
  : error + alipay.ErrorResponse :=
  if String.eqb s trade_not_exist then
    inr {| alipay.Code := "40004"; alipay.Msg := "Business Failed";
           alipay.SubCode := "ACQ.TRADE_NOT_EXIST";
           alipay.SubMsg := "trade does not exist" |}
  else if String.eqb s system_error then
    inr {| alipay.Code := "20000";
           alipay.Msg := "Service Currently Unavailable";
           alipay.SubCode := "aop.unknow-error";
           alipay.SubMsg := "system busy" |}
  else inl "invalid character looking for beginning of value".

(** A GC notification whose [data] field is the given token. *)
Definition gc_body (data : string) : string :=
  "op=OrderPay&xmpch=1001&version=1.4&data=" +:+ data
  +:+ "&requesttime=20240101120000&sign=ABCDEF".

Definition gc_form (data : string) : gmap string (list string) :=
  list_to_map [("op", ["OrderPay"]); ("xmpch", ["1001"]);
               ("version", ["1.4"]); ("data", [data]);
               ("requesttime", ["20240101120000"]); ("sign", ["ABCDEF"])].

Definition ParseQuery (s : string) : error + gmap string (list string) :=
  if String.eqb s (gc_body "cGFpZA==") then inr (gc_form "cGFpZA==")
  else if String.eqb s (gc_body "b2Rk") then inr (gc_form "b2Rk")
  else inl "invalid URL escape".

Definition DecodeString (s : string) : error + string :=
  if String.eqb s "cGFpZA==" then inr "paid"
  else if String.eqb s "b2Rk" then inr "odd"
  else inl "illegal base64 data at input byte 0".

Definition gc_info (state : string) : GcNotifyRespInfo.t :=
  {| GcNotifyRespInfo.Xmpch := "1001";
     GcNotifyRespInfo.OrderDate := "20240101";
     GcNotifyRespInfo.OrderNo := "order_1";
     GcNotifyRespInfo.Amount := 10%float;
     GcNotifyRespInfo.Jylsh := "J1";
     GcNotifyRespInfo.TradeNo := "T1";
     GcNotifyRespInfo.PayMethod := "1";
     GcNotifyRespInfo.OrderState := state;
     GcNotifyRespInfo.ReturnType := "1";
     GcNotifyRespInfo.PayerId := "alice";
     GcNotifyRespInfo.PayerName := "Alice" |}.

Definition Unmarshal_GcNotifyRespInfo (s : string)
  : error + GcNotifyRespInfo.t :=
  if String.eqb s "paid" then inr (gc_info "1")
  else if String.eqb s "odd" then inr (gc_info "FOO_BAR")
  else inl "unexpected end of JSON input".

#[global] Instance lib : GoLib := {|
  strconv_ParseFloat := ParseFloat;
  fmt_Sprintf0 := fun format => format;
  json_Unmarshal_ErrorResponse := Unmarshal_ErrorResponse;
  json_Unmarshal_GcNotifyRespInfo := Unmarshal_GcNotifyRespInfo;
  url_ParseQuery := ParseQuery;
  base64_DecodeString := DecodeString;
|}.

(** Alipay: the state is the answer to the trade query. *)
Definition alipay_world : Type := outcome alipay.TradeQueryResponse.

#[global] Instance alipay_sdk : alipay.SDK alipay_world := {|
  alipay.Client := unit;
  alipay.NewClient := fun appid privateKey isProd =>
    if String.eqb appid "" || String.eqb privateKey ""
    then inl "missing alipay init parameter" else inr tt;
  alipay.SetCertSnByContent := fun c appCert rootCert publicCert => inr c;
  alipay.TradeQuery := fun c bm w => (w, w);
|}.

Definition alipay_data (status : string) : alipay.TradeQueryData :=
  {| alipay.TradeStatus := status;
     alipay.Subject := "A book|book|alipay";
     alipay.TotalAmount := "99.99" |}.

Definition alipay_rsp (status : string) : alipay.TradeQueryResponse :=
  {| alipay.Response := Some (alipay_data status) |}.

Definition alipay_trade (status : string) : alipay_world :=
  Val (alipay_rsp status).

(** WeChat: the state is the answer to the order query. *)
Definition wechat_world : Type := outcome wechat.QueryOrderRsp.

#[global] Instance wechat_sdk : wechat.SDK wechat_world := {|
  wechat.ClientV3 := unit;
  wechat.NewClientV3 := fun mchid serialNo apiV3Key privateKey => inr tt;
  wechat.GetAndSelectNewestCert := fun c w => (Val ("cert", "serial"), w);
  wechat.SetPlatformCert := fun c cert serialNo => c;
  wechat.V3TransactionQueryOrder := fun c kind orderNo w => (w, w);
|}.

Definition wechat_order (state : string) : wechat.QueryOrder :=
  {| wechat.TradeState := state;
     wechat.Attach := "A book|book|wechat";
     wechat.OutTradeNo_ := "order_1";
     wechat.Amount_ := Some {| wechat.Total := 9999 |} |}.

Definition wechat_rsp (state : string) : wechat.QueryOrderRsp :=
  {| wechat.Code := wechat.Success; wechat.Error := "";
     wechat.Response := Some (wechat_order state) |}.

Definition wechat_trade (state : string) : wechat_world :=
  Val (wechat_rsp state).

Definition wechat_pp : WechatPaymentProvider.t :=
  {| WechatPaymentProvider.Client := Some tt;
     WechatPaymentProvider.AppId := "wx1" |}.

(** Stripe: the state is the session and the intent it refers to. *)
Definition stripe_world : Type := stripe.CheckoutSession * stripe.PaymentIntent.

#[global] Instance stripe_sdk : stripe.SDK stripe_world := {|
  stripe.checkout_session_Get := fun id w => (Val (fst w), w);
  stripe.paymentintent_Get := fun id w => (Val (snd w), w);
|}.

Definition stripe_state (status paymentStatus : string) (amount : Z)
  : stripe_world :=
  let intent := {| stripe.ID := "pi_1"; stripe.Amount := amount;
                   stripe.Currency := "usd" |} in
  ({| stripe.Status := status;
      stripe.PaymentStatus := paymentStatus;
      stripe.PaymentIntent_ := Some intent;
      stripe.Metadata := {[ "product_description" := "book|A book|stripe" ]};
      stripe.ClientReferenceID := "order_1" |},
   intent).

Definition stripe_pp : StripePaymentProvider.t :=
  {| StripePaymentProvider.PublishableKey := "pk_test";
     StripePaymentProvider.SecretKey := "sk_test";
     StripePaymentProvider.isProd := true |}.

(** PayPal: an order that the buyer has or has not approved and that
    has or has not been captured; a capture of an approved order moves
    it to the status [after_capture]. *)
Record paypal_world : Type := {
  approved : bool;
  captured : bool;
  after_capture : string;
}.

Definition paypal_failure (issue description : string) : paypal.Rsp :=
  {| paypal.Code := 422; paypal.Error := description;
     paypal.ErrorResponse_ :=
       Some {| paypal.Details :=
                 [{| paypal.Issue := issue;
                     paypal.Description := description |}] |};
     paypal.Response := None |}.

Definition paypal_order (id status : string) : paypal.Rsp :=
  {| paypal.Code := paypal.Success; paypal.Error := "";
     paypal.ErrorResponse_ := None;
     paypal.Response :=
       Some {| paypal.Id := id; paypal.Status := status;
               paypal.PurchaseUnits :=
                 [{| paypal.Amount_ :=
                       Some {| paypal.CurrencyCode := "USD";
                               paypal.Value := "99.99" |};
                     paypal.Description_ := "A book|book|paypal" |}] |} |}.

Definition paypal_status (w : paypal_world) : string :=
  if captured w then after_capture w
  else if approved w then "APPROVED" else "CREATED".

#[global] Instance paypal_sdk : paypal.SDK paypal_world := {|
  paypal.Client := unit;
  paypal.NewClient := fun clientid secret isProd =>
    if String.eqb clientid "" || String.eqb secret ""
    then inl "missing paypal init parameter" else inr tt;
  paypal.OrderCapture := fun c id w =>
    if captured w then
      (Val (paypal_failure "ORDER_ALREADY_CAPTURED"
              "Order already captured."), w)
    else if approved w then
      let w' := {| approved := true; captured := true;
                   after_capture := after_capture w |} in
      (Val (paypal_order id (paypal_status w')), w')
    else
      (Val (paypal_failure "ORDER_NOT_APPROVED"
              "Payer has not yet approved the Order for payment."), w);
  paypal.OrderDetail_ := fun c id w =>
    (Val (paypal_order id (paypal_status w)), w);
|}.

Definition paypal_pp : PaypalPaymentProvider.t :=
  {| PaypalPaymentProvider.Client := tt |}.

(** Airwallex: the state is the answer to the intent query. *)
Definition airwallex_world : Type := outcome AirWallexIntentInfo.t.

#[global] Instance airwallex_api : AirwallexAPI airwallex_world := {|
  GetIntentByOrderId := fun c orderId w => (w, w);
|}.

Definition airwallex_info (status paymentStatus : string)
  : AirWallexIntentInfo.t :=
  {| AirWallexIntentInfo.Amount := "99.99";
     AirWallexIntentInfo.Currency := "USD";
     AirWallexIntentInfo.Id := "int_1";
     AirWallexIntentInfo.Status := status;
     AirWallexIntentInfo.Descriptor := "book";
     AirWallexIntentInfo.MerchantOrderId := "order_1";
     AirWallexIntentInfo.PaymentStatus := paymentStatus;
     AirWallexIntentInfo.Metadata :=
       {[ "description" := AnyString "book|A book|airwallex" ]} |}.

Definition airwallex_intent (status paymentStatus : string)
  : airwallex_world :=
  Val (airwallex_info status paymentStatus).

Definition airwallex_pp : AirwallexPaymentProvider.t :=
  {| AirwallexPaymentProvider.Client :=
       {| AirwallexClient.ClientId := "id"; AirwallexClient.APIKey := "key";
          AirwallexClient.APIEndpoint := "https://api.airwallex.com/api/v1";
          AirwallexClient.APICheckout := "";
          AirwallexClient.client_Timeout := 15000000000;
          AirwallexClient.tokenCache := None |} |}.

Definition alipay_pp : AlipayPaymentProvider.t :=
  {| AlipayPaymentProvider.Client := tt |}.

Definition gc_pp : GcPaymentProvider.t :=
  {| GcPaymentProvider.Xmpch := "1001";
     GcPaymentProvider.SecretKey := "secret";
     GcPaymentProvider.Host := "https://gc.example" |}.

End Mock.

(** More test doubles, for the payment side. *)
Module Doubles.

(** Two decimals, on the prices of the examples. *)
Definition FormatFloat_f2 (f : float) : string :=
  if PrimFloat.eqb f 99.99 then "99.99"
  else if PrimFloat.eqb f 100 then "100.00"
  else if PrimFloat.eqb f 10.5 then "10.50"
  else "0.00".

Definition fmt : GoFmt := {|
  strconv_FormatFloat_f2 := FormatFloat_f2;
  fmt_Sprintf_2f := FormatFloat_f2;
|}.


Definition rand : Rand := {|
  Source := Z;
  rand_New := fun seed => seed;
  Intn := fun r n => (r mod n, r * 25214903917 + 11);
|}.

(** The allocation limit of linux/amd64. *)
Definition runtime : GoRuntime := {| maxAlloc := 2 ^ 48 |}.

(** A request for a book. *)
Definition request (provider payer env : string) : PayReq.t :=
  {| PayReq.ProviderName := provider; PayReq.ProductName := "book";
     PayReq.PayerName := "Alice"; PayReq.PayerId := payer;
     PayReq.PayerEmail := "alice@example.com";
     PayReq.PaymentName := "order_1";
     PayReq.ProductDisplayName := "A book";
     PayReq.ProductDescription := "A good book";
     PayReq.ProductImage := "https://shop/book.png";
     PayReq.Price := 99.99%float; PayReq.Currency := "USD";
     PayReq.ReturnUrl := "https://shop/return";
     PayReq.NotifyUrl := "https://shop/notify";
     PayReq.PaymentEnv := env |}.

(** GC notifications that carry the payload of a paid order under a
    signature that is not the merchant's, and under none. *)
Definition gc_forged_body : string :=
  "op=Refund&xmpch=9999&version=0&data=cGFpZA==&requesttime=0&sign=FORGED".

Definition gc_forged_form : gmap string (list string) :=
  list_to_map [("op", ["Refund"]); ("xmpch", ["9999"]); ("version", ["0"]);
               ("data", ["cGFpZA=="]); ("requesttime", ["0"]);
               ("sign", ["FORGED"])].

Definition gc_unsigned_body : string :=
  "op=OrderPay&xmpch=1001&version=1.4&data=cGFpZA==&requesttime=20240101120000".

Definition gc_unsigned_form : gmap string (list string) :=
  list_to_map [("op", ["OrderPay"]); ("xmpch", ["1001"]);
               ("version", ["1.4"]); ("data", ["cGFpZA=="]);
               ("requesttime", ["20240101120000"])].

Definition ParseQuery (s : string) : error + gmap string (list string) :=
  if String.eqb s gc_forged_body then inr gc_forged_form
  else if String.eqb s gc_unsigned_body then inr gc_unsigned_form
  else Mock.ParseQuery s.

Definition lib : GoLib := {|
  strconv_ParseFloat := Mock.ParseFloat;
  fmt_Sprintf0 := fun format => format;
  json_Unmarshal_ErrorResponse := Mock.Unmarshal_ErrorResponse;
  json_Unmarshal_GcNotifyRespInfo := Mock.Unmarshal_GcNotifyRespInfo;
  url_ParseQuery := ParseQuery;
  base64_DecodeString := Mock.DecodeString;
|}.

(** PayPal by script: the state is the answer to the capture and the
    answer to the query. *)
Definition paypal_script : Type := paypal.Rsp * paypal.Rsp.

Definition paypal_scripted : paypal.SDK paypal_script := {|
  paypal.Client := unit;
  paypal.NewClient := fun clientid secret isProd => inr tt;
  paypal.OrderCapture := fun c id w => (Val (fst w), w);
  paypal.OrderDetail_ := fun c id w => (Val (snd w), w);
|}.

Definition paypal_scripted_pp : @PaypalPaymentProvider.t _ paypal_scripted :=
  @PaypalPaymentProvider.Build_t _ paypal_scripted tt.

(** A refusal that carries no detail, as a failed authentication is. *)
Definition paypal_unauthorized : paypal.Rsp :=
  {| paypal.Code := 401; paypal.Error := "invalid_client";
     paypal.ErrorResponse_ := Some {| paypal.Details := [] |};
     paypal.Response := None |}.

(** A completed order whose purchase unit has the given description. *)
Definition paypal_completed (description : string) : paypal.Rsp :=
  {| paypal.Code := paypal.Success; paypal.Error := "";
     paypal.ErrorResponse_ := None;
     paypal.Response :=
       Some {| paypal.Id := "o1"; paypal.Status := "COMPLETED";
               paypal.PurchaseUnits :=
                 [{| paypal.Amount_ :=
                       Some {| paypal.CurrencyCode := "USD";
                               paypal.Value := "99.99" |};
                     paypal.Description_ := description |}] |} |}.

(** Stripe: a vendor that keeps what [Pay] creates, the session being
    paid at once. *)
Definition stripe_clock : Clock Mock.stripe_world := {|
  time_Now := fun w => (Val 1700000000000000000, w);
|}.

Definition stripe_pay_sdk : StripePay.SDK Mock.stripe_world := {|
  StripePay.product_New := fun params w =>
    (Val {| StripePay.Created.ProductID := "prod_1" |}, w);
  StripePay.price_New := fun params w =>
    (Val {| StripePay.Created.PriceID := "price_1" |},
     (fst w, {| stripe.ID := "pi_1";
                stripe.Amount := StripePay.PriceParams.UnitAmount params;
                stripe.Currency := "usd" |}));
  StripePay.checkout_session_New := fun params w =>
    (Val {| StripePay.Created.URL := "https://checkout.stripe.com/c/pay/cs_1";
            StripePay.Created.SessionID := "cs_1" |},
     ({| stripe.Status := "complete";
         stripe.PaymentStatus := "paid";
         stripe.PaymentIntent_ := Some (snd w);
         stripe.Metadata := StripePay.CheckoutSessionParams.Metadata params;
         stripe.ClientReferenceID :=
           StripePay.CheckoutSessionParams.ClientReferenceID params |},
      snd w));
|}.

(** A session that is paid and has no metadata. *)
Definition stripe_bare : Mock.stripe_world :=
  let intent := {| stripe.ID := "pi_1"; stripe.Amount := 9999;
                   stripe.Currency := "usd" |} in
  ({| stripe.Status := "complete"; stripe.PaymentStatus := "paid";
      stripe.PaymentIntent_ := Some intent; stripe.Metadata := ∅;
      stripe.ClientReferenceID := "order_1" |}, intent).

(** Alipay: a vendor that keeps the trade [Pay] opens, paid at once. *)
Definition alipay_pay_sdk : @AlipayPay.SDK Mock.alipay_world Mock.alipay_sdk := {|
  AlipayPay.SetReturnUrl := fun c url => c;
  AlipayPay.SetNotifyUrl := fun c url => c;
  AlipayPay.TradePagePay := fun c bm w =>
    (Val "https://openapi.alipay.com/gateway.do?out_trade_no=order_1",
     Val {| alipay.Response :=
              Some {| alipay.TradeStatus := "TRADE_SUCCESS";
                      alipay.Subject := default "" (bm !! "subject");
                      alipay.TotalAmount :=
                        default "" (bm !! "total_amount") |} |});
|}.

(** WeChat: a vendor that keeps the order [Pay] opens, paid at once. *)
Definition string_of (v : option (gopay.value Empty_set)) : string :=
  match v with
  | Some (gopay.VString s) => s
  | _ => ""
  end.

Definition total_of (v : option (gopay.value Empty_set)) : Z :=
  match v with
  | Some (gopay.VBodyMap am) =>
      match am !! "total" with
      | Some (gopay.VInt64 n) => n
      | _ => 0
      end
  | _ => 0
  end.

Definition wechat_pay_sdk : @WechatPay.SDK Mock.wechat_world Mock.wechat_sdk := {|
  WechatPay.V3TransactionJsapi := fun c bm w =>
    (Val {| WechatPay.PrepayRsp.Code := wechat.Success;
            WechatPay.PrepayRsp.Error := "";
            WechatPay.PrepayRsp.Response :=
              Some {| WechatPay.Prepay.PrepayId := "wx201410272009395522" |} |},
     w);
  WechatPay.PaySignOfJSAPI := fun c appid prepayid w =>
    (Val {| WechatPay.JSAPIPayParams.AppId := appid;
            WechatPay.JSAPIPayParams.TimeStamp := "1700000000";
            WechatPay.JSAPIPayParams.NonceStr := "nonce";
            WechatPay.JSAPIPayParams.Package := "prepay_id=" +:+ prepayid;
            WechatPay.JSAPIPayParams.SignType := "RSA";
            WechatPay.JSAPIPayParams.PaySign := "sign" |}, w);
  WechatPay.V3TransactionNative := fun c bm w =>
    (Val {| WechatPay.NativeRsp.Code := wechat.Success;
            WechatPay.NativeRsp.Error := "";
            WechatPay.NativeRsp.Response :=
              Some {| WechatPay.Native.CodeUrl :=
                        "weixin://wxpay/bizpayurl?pr=1" |} |},
     Val {| wechat.Code := wechat.Success; wechat.Error := "";
            wechat.Response :=
              Some {| wechat.TradeState := "SUCCESS";
                      wechat.Attach := string_of (bm !! "attach");
                      wechat.OutTradeNo_ := string_of (bm !! "out_trade_no");
                      wechat.Amount_ :=
                        Some {| wechat.Total :=
                                  total_of (bm !! "amount") |} |} |});
|}.

(** PayPal's order creation: the state is the clock and the links the
    vendor answers with. *)
Definition paypal_pay_world : Type := Z * list (option PaypalPay.Link.t).

Definition paypal_pay_clock : Clock paypal_pay_world := {|
  time_Now := fun w => (Val (fst w), (fst w + 1, snd w));
|}.

Definition paypal_pay_base : paypal.SDK paypal_pay_world := {|
  paypal.Client := unit;
  paypal.NewClient := fun clientid secret isProd => inr tt;
  paypal.OrderCapture := fun c id w => (Err "not scripted", w);
  paypal.OrderDetail_ := fun c id w => (Err "not scripted", w);
|}.

Definition paypal_pay_sdk : @PaypalPay.SDK paypal_pay_world paypal_pay_base := {|
  PaypalPay.CreateOrder := fun c bm w =>
    (Val {| PaypalPay.CreateOrderRsp.Code := paypal.Success;
            PaypalPay.CreateOrderRsp.Error := "";
            PaypalPay.CreateOrderRsp.Response :=
              Some {| PaypalPay.CreatedOrder.Id := "9BR68863NE220374S";
                      PaypalPay.CreatedOrder.Links := snd w |} |}, w);
|}.

Definition paypal_pay_pp : @PaypalPaymentProvider.t _ paypal_pay_base :=
  @PaypalPaymentProvider.Build_t _ paypal_pay_base tt.

(** The reference id drawn at the clock reading of the state. *)
Definition paypal_reference (w : paypal_pay_world) : string :=
  match fst (@GetRandomString paypal_pay_world runtime paypal_pay_clock rand
               16 w) with
  | Val s => s
  | _ => ""
  end.

Definition paypal_links : list (option PaypalPay.Link.t) :=
  [Some {| PaypalPay.Link.Href :=
             "https://api.sandbox.paypal.com/v2/checkout/orders/9BR68863NE220374S" |};
   Some {| PaypalPay.Link.Href :=
             "https://www.sandbox.paypal.com/checkoutnow?token=9BR68863NE220374S" |}].

(** Airwallex's server: it answers while the clock, which jumps at
    every reading, is below 10. The login answers by the API key; the
    other requests answer by their URL. *)
Definition air_clock : Clock Z := {|
  time_Now := fun w => (Val w, w + 100);
|}.

Definition air_http : HTTP Z := {|
  Response := http.Request;
  http_NewRequest_error := fun method url =>
    if String.eqb url "" then Some "empty url" else None;
  CanonicalMIMEHeaderKey := fun name => name;
  client_Do := fun timeout req w =>
    if w <? 10 then (Val req, w) else (Err "connection refused", w);
  io_ReadAll := fun (resp : http.Request) (w : Z) => (Val (http.URL resp), w);
|}.

Definition air_token (resp : http.Request) : AirWallexTokenInfo.t :=
  match http.Header resp !! "x-api-key" with
  | Some "key" =>
      {| AirWallexTokenInfo.Token := "tok_1";
         AirWallexTokenInfo.ExpiresAt := "2024-01-01T00:00:00+0000" |}
  | Some "legacy" =>
      {| AirWallexTokenInfo.Token := "tok_2";
         AirWallexTokenInfo.ExpiresAt := "soon" |}
  | _ =>
      {| AirWallexTokenInfo.Token := "";
         AirWallexTokenInfo.ExpiresAt := "" |}
  end.

Definition air_created : gmap string json :=
  <[ "merchant_order_id" := JString "order_1" ]>
    (<[ "client_secret" := JString "secret_1" ]>
       (<[ "id" := JString "int_1" ]> ∅)).

Definition air_error_body : gmap string json :=
  <[ "message" := JString "Access denied" ]>
    (<[ "code" := JString "unauthorized" ]> ∅).

Definition air_lib : @AirwallexLib Z air_http :=
  @Build_AirwallexLib Z air_http
    (fun (resp : http.Request) (w : Z) => (Val (air_token resp), w))
    (fun (resp : http.Request) (w : Z) =>
       (Val (if String.eqb (http.Method resp) "POST" then air_created
             else air_error_body), w))
    (fun v => "{}")
    (fun item =>
       {| AirwallexIntent.Amount := "99.99"; AirwallexIntent.Currency := "USD";
          AirwallexIntent.Id := "int_1";
          AirwallexIntent.Status := "SUCCEEDED";
          AirwallexIntent.Descriptor := "book";
          AirwallexIntent.MerchantOrderId := "order_1";
          AirwallexIntent.LatestPaymentAttempt_Status := "PAID";
          AirwallexIntent.Metadata := ∅ |})
    (fun s =>
       if String.eqb s "2024-01-01T00:00:00+00:00"
       then inr 1704067200000000000
       else inl "parsing time: cannot parse")
    (fun s => Val s)
    FormatFloat_f2
    (fun s => "%5B%22address%22%5D").

Definition air_client (apiKey : string) : AirwallexClient.t :=
  {| AirwallexClient.ClientId := "id"; AirwallexClient.APIKey := apiKey;
     AirwallexClient.APIEndpoint := "https://api.airwallex.com/api/v1";
     AirwallexClient.APICheckout :=
       "https://checkout.airwallex.com/#/standalone/checkout?";
     AirwallexClient.client_Timeout := 15000000000;
     AirwallexClient.tokenCache := None |}.

(** GC's server: the state is the body it answers with, whatever it is
    sent. The envelope of the answer ["refused"] has the return code
    ["FAIL"]; every other answer is the payload of a ["SUCCESS"]
    envelope, in base64. *)
Definition gc_http : HTTP string := {|
  Response := string;
  http_NewRequest_error := fun method url => None;
  CanonicalMIMEHeaderKey := fun name => name;
  client_Do := fun timeout req w => (Val w, w);
  io_ReadAll := fun (resp : string) (w : string) => (Val resp, w);
|}.

Definition gc_answer (code msg data : string) : GcResponseBody.t :=
  {| GcResponseBody.Op := ""; GcResponseBody.Xmpch := "1001";
     GcResponseBody.Version := "1.4";
     GcResponseBody.ReturnCode := code; GcResponseBody.ReturnMsg := msg;
     GcResponseBody.Data := data;
     GcResponseBody.NotifyTime := "20240101120000";
     GcResponseBody.Sign := "" |}.

Definition gc_client_lib : GcLib string := {|
  GenerateSimpleTimeId := fun w => (Val "20240101120000", w);
  GetMd5Hash := fun s => "0cc175b9c0f1b6a831c399e269772661";
  strings_ToUpper := fun s => "0CC175B9C0F1B6A831C399E269772661";
  base64_EncodeToString := fun s => s;
  json_Unmarshal_GcResponseBody := fun s =>
    if String.eqb s "refused" then inr (gc_answer "FAIL" "sign error" "")
    else inr (gc_answer "SUCCESS" "" s);
  json_Unmarshal_GcPayRespInfo := fun s =>
    inr {| GcPayRespInfo.Jylsh := "J1"; GcPayRespInfo.Amount := "99.99";
           GcPayRespInfo.PayerId := ""; GcPayRespInfo.PayerName := "";
           GcPayRespInfo.PayUrl := "https://gc.example/pay/J1" |};
  json_Unmarshal_GcInvoiceRespInfo := fun s =>
    inr {| GcInvoiceRespInfo.BusNo := "order_1";
           GcInvoiceRespInfo.State := if String.eqb s "paid" then "1" else "0";
           GcInvoiceRespInfo.EbillCode := ""; GcInvoiceRespInfo.EbillNo := "";
           GcInvoiceRespInfo.CheckCode := "";
           GcInvoiceRespInfo.Url :=
             if String.eqb s "paid" then "https://gc.example/invoice/1"
             else "";
           GcInvoiceRespInfo.Content := "" |};
|}.

(** A paid trade and a succeeded intent whose amounts are not numbers. *)
Definition alipay_bad_amount : Mock.alipay_world :=
  Val {| alipay.Response :=
           Some {| alipay.TradeStatus := "TRADE_SUCCESS";
                   alipay.Subject := "A book|book|alipay";
                   alipay.TotalAmount := "ninety" |} |}.

Definition airwallex_bad_amount : Mock.airwallex_world :=
  Val {| AirWallexIntentInfo.Amount := "ninety";
         AirWallexIntentInfo.Currency := "USD";
         AirWallexIntentInfo.Id := "int_1";
         AirWallexIntentInfo.Status := "SUCCEEDED";
         AirWallexIntentInfo.Descriptor := "book";
         AirWallexIntentInfo.MerchantOrderId := "order_1";
         AirWallexIntentInfo.PaymentStatus := "PAID";
         AirWallexIntentInfo.Metadata := ∅ |}.

(** The token the server gives to the key ["key"]. *)
Definition air_cached : CachedToken.t :=
  {| CachedToken.info :=
       {| AirWallexTokenInfo.Token := "tok_1";
          AirWallexTokenInfo.ExpiresAt := "2024-01-01T00:00:00+0000" |};
     CachedToken.parsedExpiresAt := 1704067200000000000 |}.

End Doubles.

(* ===================================================================== *)
(** * Properties                                                         *)
(* ===================================================================== *)

(** ** Splitting and joining *)

Lemma Split_not_nil (s : string) (sep : ascii) : Strings.Split s sep <> [].
Proof.
  destruct s as [|c rest]; simpl; [discriminate|].
  destruct (Ascii.eqb c sep); [discriminate|].
  destruct (Strings.Split rest sep); discriminate.
Qed.

Lemma Split_without_sep (s : string) (sep : ascii) :
  Strings.ContainsByte s sep = false -> Strings.Split s sep = [s].
Proof.
  induction s as [|c rest IH]; simpl; intros Hno; [reflexivity|].
  apply orb_false_elim in Hno as [Hc Hrest].
  rewrite Hc, (IH Hrest). reflexivity.
Qed.

Lemma Split_at_first_sep (tok rest : string) (sep : ascii) :
  Strings.ContainsByte tok sep = false ->
  Strings.Split (tok +:+ String sep rest) sep = tok :: Strings.Split rest sep.
Proof.
  induction tok as [|c tok IH]; simpl; intros Hno.
  - rewrite Ascii.eqb_refl. reflexivity.
  - apply orb_false_elim in Hno as [Hc Htok].
    rewrite Hc, (IH Htok). reflexivity.
Qed.

Lemma Split_Join (tokens : list string) (sep : ascii) :
  tokens <> [] ->
  Forall (fun tok => Strings.ContainsByte tok sep = false) tokens ->
  Strings.Split (Strings.Join tokens (String sep "")) sep = tokens.
Proof.
  intros Hne Hall. induction Hall as [|tok rest Htok Hrest IH]; [congruence|].
  destruct rest as [|tok' rest'].
  - simpl. apply Split_without_sep. exact Htok.
  - change (Strings.Join (tok :: tok' :: rest') (String sep ""))
      with (tok +:+ String sep (Strings.Join (tok' :: rest') (String sep ""))).
    rewrite Split_at_first_sep by exact Htok.
    rewrite IH by discriminate. reflexivity.
Qed.

(** *** C4 *)

(** C4. Attachment round trip: for strings [a], [b], [c] without the
    separator ["|"], [parseAttachString (joinAttachString [a; b; c])] is
    [(a, b, c)] with a nil error; and on every string [s] whose split on
    ["|"] does not have exactly 3 fields, [parseAttachString] returns
    three empty strings and a non-nil error, which reports the number of
    fields found. *)
Theorem parseAttachString_joinAttachString (a b c s : string) :
  Strings.ContainsByte a "|" = false ->
  Strings.ContainsByte b "|" = false ->
  Strings.ContainsByte c "|" = false ->
  length (Strings.Split s "|") <> 3%nat ->
  parseAttachString (joinAttachString [a; b; c]) = (a, b, c, None)
  /\ parseAttachString s =
       ("", "", "",
        Some ("parseAttachString() error: len(tokens) expected 3, got: "
              +:+ Fmt.verb_d (length (Strings.Split s "|")))).
Proof.
  intros Ha Hb Hc Hs. split.
  - unfold parseAttachString, joinAttachString.
    rewrite (Split_Join [a; b; c] "|"); [reflexivity|discriminate|].
    repeat constructor; assumption.
  - unfold parseAttachString.
    destruct (Strings.Split s "|") as [|t0 [|t1 [|t2 [|t3 ts]]]];
      try reflexivity.
    exfalso. apply Hs. reflexivity.
Qed.

Lemma parseAttachString_joinAttachString_witness :
  parseAttachString (joinAttachString ["book"; "A book"; "stripe"])
    = ("book", "A book", "stripe", None)
  /\ parseAttachString "book|stripe" =
       ("", "", "",
        Some "parseAttachString() error: len(tokens) expected 3, got: 2").
Proof.
  apply (parseAttachString_joinAttachString "book" "A book" "stripe"
           "book|stripe");
    first [reflexivity | vm_compute; lia].
Defined.

(** *** C10 *)

(** C10. [BalancePaymentProvider.Pay] panics whenever the request's
    [PayerId] does not split on ["/"] into exactly two tokens; for a
    [PayerId] of the form [owner/name] it returns, with a nil error, the
    response whose [PayUrl] is the request's [ReturnUrl] and whose
    [OrderId] is [owner + "/" + PaymentName]. *)
Theorem Balance_Pay_owner (pp : BalancePaymentProvider.t)
    (bad good : PayReq.t) (owner name : string) :
  length (Strings.Split (PayReq.PayerId bad) "/") <> 2%nat ->
  Strings.ContainsByte owner "/" = false ->
  Strings.ContainsByte name "/" = false ->
  PayReq.PayerId good = owner +:+ "/" +:+ name ->
  BalancePaymentProvider.Pay pp bad =
    Panic ("GetOwnerAndNameFromId() error, wrong token count for ID: "
           +:+ PayReq.PayerId bad)
  /\ BalancePaymentProvider.Pay pp good =
       Val {| PayResp.PayUrl := PayReq.ReturnUrl good;
              PayResp.OrderId := owner +:+ "/" +:+ PayReq.PaymentName good;
              PayResp.AttachInfo := ∅ |}.
Proof.
  intros Hbad Howner Hname Hgood. split.
  - unfold BalancePaymentProvider.Pay, GetOwnerAndNameFromId.
    destruct (Strings.Split (PayReq.PayerId bad) "/") as [|t0 [|t1 [|t2 ts]]];
      try reflexivity.
    exfalso. apply Hbad. reflexivity.
  - unfold BalancePaymentProvider.Pay, GetOwnerAndNameFromId.
    rewrite Hgood.
    change (owner +:+ "/" +:+ name)
      with (Strings.Join [owner; name] (String "/" "")).
    rewrite Split_Join; [reflexivity|discriminate|].
    repeat constructor; assumption.
Qed.

Lemma Balance_Pay_owner_witness :
  let req (payer : string) :=
    {| PayReq.ProviderName := "balance"; PayReq.ProductName := "book";
       PayReq.PayerName := "Alice"; PayReq.PayerId := payer;
       PayReq.PayerEmail := ""; PayReq.PaymentName := "order_1";
       PayReq.ProductDisplayName := "A book"; PayReq.ProductDescription := "";
       PayReq.ProductImage := ""; PayReq.Price := 10%float;
       PayReq.Currency := "USD"; PayReq.ReturnUrl := "https://shop/return";
       PayReq.NotifyUrl := ""; PayReq.PaymentEnv := "" |} in
  BalancePaymentProvider.Pay BalancePaymentProvider.Build_t (req "alice") =
    Panic "GetOwnerAndNameFromId() error, wrong token count for ID: alice"
  /\ BalancePaymentProvider.Pay BalancePaymentProvider.Build_t
       (req "built-in/alice") =
       Val {| PayResp.PayUrl := "https://shop/return";
              PayResp.OrderId := "built-in/order_1";
              PayResp.AttachInfo := ∅ |}.
Proof.
  intro req.
  apply (Balance_Pay_owner BalancePaymentProvider.Build_t
           (req "alice") (req "built-in/alice") "built-in" "alice");
    first [reflexivity | vm_compute; lia].
Defined.

(** ** Running vendor code *)

Lemma bind_Val {W A B : Type} (m : Vendor W A) (k : A -> Vendor W B)
    (w w' : W) (a : A) :
  m w = (Val a, w') -> bind m k w = k a w'.
Proof. intros Hm. unfold bind. rewrite Hm. reflexivity. Qed.

Lemma bind_Err {W A B : Type} (m : Vendor W A) (k : A -> Vendor W B)
    (w w' : W) (e : error) :
  m w = (Err e, w') -> bind m k w = (Err e, w').
Proof. intros Hm. unfold bind. rewrite Hm. reflexivity. Qed.

Lemma bind_Panic {W A B : Type} (m : Vendor W A) (k : A -> Vendor W B)
    (w w' : W) (p : string) :
  m w = (Panic p, w') -> bind m k w = (Panic p, w').
Proof. intros Hm. unfold bind. rewrite Hm. reflexivity. Qed.

Lemma bind_lift_Val {W A B : Type} (a : A) (k : A -> Vendor W B) (w : W) :
  bind (lift (Val a)) k w = k a w.
Proof. reflexivity. Qed.

Lemma one_of_false_not_In (s : string) (cases : list string) :
  one_of s cases = false <-> ~ In s cases.
Proof.
  unfold one_of. induction cases as [|c cases IH]; simpl.
  - tauto.
  - rewrite orb_false_iff, IH, String.eqb_neq. intuition congruence.
Qed.

Lemma one_of_true_In (s : string) (cases : list string) :
  one_of s cases = true <-> In s cases.
Proof.
  unfold one_of. rewrite existsb_exists. split.
  - intros [c [Hin Heq]]. apply String.eqb_eq in Heq. subst. exact Hin.
  - intros Hin. exists s. split; [exact Hin|apply String.eqb_refl].
Qed.

(** Rewrites the string tests of a [switch] with what is known about the
    scrutinee. *)
Ltac switch_on_strings :=
  repeat match goal with
  | H : ?s = ?c |- context [String.eqb ?s ?c] =>
      rewrite (proj2 (String.eqb_eq s c) H)
  | H : ?s <> ?c |- context [String.eqb ?s ?c] =>
      rewrite (proj2 (String.eqb_neq s c) H)
  | H : ~ In ?s ?cs |- context [one_of ?s ?cs] =>
      rewrite (proj2 (one_of_false_not_In s cs) H)
  | H : In ?s ?cs |- context [one_of ?s ?cs] =>
      rewrite (proj2 (one_of_true_In s cs) H)
  end.

(** *** C9 *)

Section AlipayProperties.
Context {W : Type} `{!GoLib} `{!alipay.SDK W}.

(** C9. When Alipay's trade query fails with an error whose text
    parses to a [SubCode] of ["ACQ.TRADE_NOT_EXIST"], [Notify] does not
    surface the error: it returns the result with status [Canceled]
    and a nil error. Every other query error, among them one whose
    text is not parseable, is returned to the caller with no result. *)
Theorem Alipay_Notify_query_error (pp : AlipayPaymentProvider.t)
    (body orderId : string)
    (w1 w1' : W) (gone : error) (errRsp : alipay.ErrorResponse)
    (w2 w2' : W) (other : error) :
  alipay.TradeQuery (AlipayPaymentProvider.Client pp)
    (<[ "out_trade_no" := orderId ]> ∅) w1 = (Err gone, w1') ->
  json_Unmarshal_ErrorResponse gone = inr errRsp ->
  alipay.SubCode errRsp = "ACQ.TRADE_NOT_EXIST" ->
  alipay.TradeQuery (AlipayPaymentProvider.Client pp)
    (<[ "out_trade_no" := orderId ]> ∅) w2 = (Err other, w2') ->
  (forall r, json_Unmarshal_ErrorResponse other = inr r ->
             alipay.SubCode r <> "ACQ.TRADE_NOT_EXIST") ->
  AlipayPaymentProvider.Notify pp body orderId w1 =
    (Val (NotifyResult.setPaymentStatus NotifyResult.zero
            PaymentStateCanceled), w1')
  /\ AlipayPaymentProvider.Notify pp body orderId w2 = (Err other, w2').
Proof.
  intros Hq1 Hparse Hsub Hq2 Hother. split.
  - unfold AlipayPaymentProvider.Notify, bind, attempt.
    rewrite Hq1, Hparse. switch_on_strings. reflexivity.
  - unfold AlipayPaymentProvider.Notify, bind, attempt.
    rewrite Hq2.
    destruct (json_Unmarshal_ErrorResponse other) as [e|r] eqn:Hr;
      [reflexivity|].
    specialize (Hother r eq_refl). switch_on_strings. reflexivity.
Qed.
End AlipayProperties.

Lemma Alipay_Notify_query_error_witness :
  AlipayPaymentProvider.Notify Mock.alipay_pp "" "order_1"
    (Err Mock.trade_not_exist) =
    (Val (NotifyResult.setPaymentStatus NotifyResult.zero PaymentStateCanceled),
     Err Mock.trade_not_exist)
  /\ AlipayPaymentProvider.Notify Mock.alipay_pp "" "order_1"
       (Err "dial tcp: i/o timeout") =
       (Err "dial tcp: i/o timeout", Err "dial tcp: i/o timeout").
Proof.
  apply (Alipay_Notify_query_error Mock.alipay_pp "" "order_1"
           (Err Mock.trade_not_exist) (Err Mock.trade_not_exist)
           Mock.trade_not_exist
           {| alipay.Code := "40004"; alipay.Msg := "Business Failed";
              alipay.SubCode := "ACQ.TRADE_NOT_EXIST";
              alipay.SubMsg := "trade does not exist" |}
           (Err "dial tcp: i/o timeout") (Err "dial tcp: i/o timeout")
           "dial tcp: i/o timeout");
    try reflexivity.
  intros r Hr. vm_compute in Hr. discriminate Hr.
Defined.

(** ** The amount codec on one amount *)



(** *** C2 *)

Section StripeProperties.
Context {W : Type} `{!stripe.SDK W}.

End StripeProperties.


(** ** Messages that carry the vendor's word *)

Lemma HasPrefix_refl (s : string) : Strings.HasPrefix s s = true.
Proof.
  induction s as [|c s IH]; simpl; [reflexivity|].
  rewrite Ascii.eqb_refl. exact IH.
Qed.

Lemma Contains_refl (s : string) : Strings.Contains s s = true.
Proof. destruct s; simpl; [reflexivity|]. now rewrite Ascii.eqb_refl, HasPrefix_refl. Qed.

Lemma Contains_suffix (prefix s : string) :
  Strings.Contains (prefix +:+ s) s = true.
Proof.
  induction prefix as [|c prefix IH].
  - apply Contains_refl.
  - change (String c prefix +:+ s) with (String c (prefix +:+ s)).
    cbn [Strings.Contains]. rewrite IH. apply orb_true_r.
Qed.

Lemma unexpected_is_unmapped_report (c : ascii) (prefix raw : string) :
  is_unmapped_report (Val (unexpected (String c prefix +:+ raw))) raw = true.
Proof.
  unfold is_unmapped_report, unexpected.
  cbn [NotifyResult.setNotifyMessage NotifyResult.setPaymentStatus
       NotifyResult.PaymentStatus NotifyResult.NotifyMessage].
  rewrite Contains_suffix, String.eqb_refl. reflexivity.
Qed.

(** Splits [~ In s [a; b; ...]] into [s <> a], [s <> b], ... *)
Ltac split_not_In :=
  repeat match goal with
  | H : ~ In _ (_ :: _) |- _ => apply not_in_cons in H as [? H]
  | H : ~ In _ [] |- _ => clear H
  end.


(** ** Stripe's mapping *)

Section StripeMapping.
Context {W : Type} `{!stripe.SDK W}.

Lemma Stripe_unmapped_session (pp : StripePaymentProvider.t)
    (body orderId : string) (w w' : W) (s : stripe.CheckoutSession) :
  stripe.checkout_session_Get orderId w = (Val s, w') ->
  ~ In (stripe.Status s) ["open"; "complete"; "expired"] ->
  StripePaymentProvider.Notify pp body orderId w =
    (Val (unexpected ("unexpected stripe checkout status: "
                      +:+ stripe.Status s)), w').
Proof.
  intros Hs Hst. split_not_In.
  unfold StripePaymentProvider.Notify. rewrite (bind_Val _ _ _ _ _ Hs).
  switch_on_strings. reflexivity.
Qed.

Lemma Stripe_unmapped_payment (pp : StripePaymentProvider.t)
    (body orderId : string) (w w' : W) (s : stripe.CheckoutSession) :
  stripe.checkout_session_Get orderId w = (Val s, w') ->
  stripe.Status s = "complete" ->
  ~ In (stripe.PaymentStatus s) ["paid"; "unpaid"] ->
  StripePaymentProvider.Notify pp body orderId w =
    (Val (unexpected ("unexpected stripe checkout payment status: "
                      +:+ stripe.PaymentStatus s)), w').
Proof.
  intros Hs Hst Hpst. split_not_In.
  unfold StripePaymentProvider.Notify. rewrite (bind_Val _ _ _ _ _ Hs), Hst.
  switch_on_strings. reflexivity.
Qed.

End StripeMapping.

(** ** Airwallex's mapping *)

Section AirwallexMapping.
Context {W : Type} `{!GoLib} `{!AirwallexAPI W}.

Lemma Airwallex_unmapped_intent (pp : AirwallexPaymentProvider.t)
    (body orderId : string) (w w' : W) (intent : AirWallexIntentInfo.t) :
  GetIntentByOrderId (AirwallexPaymentProvider.Client pp) orderId w
    = (Val intent, w') ->
  ~ In (AirWallexIntentInfo.Status intent)
       ["PENDING"; "REQUIRES_PAYMENT_METHOD"; "REQUIRES_CUSTOMER_ACTION";
        "REQUIRES_CAPTURE"; "CANCELLED"; "EXPIRED"; "SUCCEEDED"] ->
  AirwallexPaymentProvider.Notify pp body orderId w =
    (Val (unexpected ("unexpected airwallex checkout status: "
                      +:+ AirWallexIntentInfo.Status intent)), w').
Proof.
  intros Hi Hst.
  assert (Hfour : ~ In (AirWallexIntentInfo.Status intent)
                       ["PENDING"; "REQUIRES_PAYMENT_METHOD";
                        "REQUIRES_CUSTOMER_ACTION"; "REQUIRES_CAPTURE"])
    by (intros Hin; apply Hst; simpl in *; tauto).
  split_not_In.
  unfold AirwallexPaymentProvider.Notify. rewrite (bind_Val _ _ _ _ _ Hi).
  repeat match goal with
         | H : _ <> _ |- _ => apply String.eqb_neq in H
         end.
  unfold one_of. cbn [existsb].
  repeat match goal with
         | H : String.eqb _ _ = false |- _ => rewrite H; clear H
         end.
  reflexivity.
Qed.

Lemma Airwallex_unmapped_attempt (pp : AirwallexPaymentProvider.t)
    (body orderId : string) (w w' : W) (intent : AirWallexIntentInfo.t) :
  GetIntentByOrderId (AirwallexPaymentProvider.Client pp) orderId w
    = (Val intent, w') ->
  AirWallexIntentInfo.Status intent = "SUCCEEDED" ->
  AirWallexIntentInfo.PaymentStatus intent <> "" ->
  ~ In (AirWallexIntentInfo.PaymentStatus intent)
       ["CANCELLED"; "EXPIRED"; "RECEIVED"; "AUTHENTICATION_REDIRECTED";
        "AUTHORIZED"; "CAPTURE_REQUESTED"; "PAID"; "SETTLED"] ->
  AirwallexPaymentProvider.Notify pp body orderId w =
    (Val (unexpected ("unexpected airwallex checkout payment status: "
                      +:+ AirWallexIntentInfo.PaymentStatus intent)), w').
Proof.
  intros Hi Hst Hne Hpst. split_not_In.
  unfold AirwallexPaymentProvider.Notify.
  rewrite (bind_Val _ _ _ _ _ Hi), Hst.
  repeat match goal with
         | H : _ <> _ |- _ => apply String.eqb_neq in H
         end.
  unfold one_of. cbn [existsb String.eqb Ascii.eqb Bool.eqb orb].
  repeat match goal with
         | H : String.eqb _ _ = false |- _ => rewrite H; clear H
         end.
  reflexivity.
Qed.



End AirwallexMapping.

(** ** Alipay's mapping *)

Section AlipayMapping.
Context {W : Type} `{!GoLib} `{!alipay.SDK W}.

Lemma Alipay_unmapped_trade (pp : AlipayPaymentProvider.t)
    (body orderId : string) (w w' : W)
    (rsp : alipay.TradeQueryResponse) (d : alipay.TradeQueryData) :
  alipay.TradeQuery (AlipayPaymentProvider.Client pp)
    (<[ "out_trade_no" := orderId ]> ∅) w = (Val rsp, w') ->
  alipay.Response rsp = Some d ->
  ~ In (alipay.TradeStatus d)
       ["WAIT_BUYER_PAY"; "TRADE_CLOSED"; "TRADE_SUCCESS"] ->
  AlipayPaymentProvider.Notify pp body orderId w =
    (Val (unexpected ("unexpected alipay trade state: "
                      +:+ alipay.TradeStatus d)), w').
Proof.
  intros Hq Hd Hst. split_not_In.
  unfold AlipayPaymentProvider.Notify, bind, attempt. rewrite Hq, Hd.
  cbn [lift deref]. switch_on_strings. reflexivity.
Qed.

End AlipayMapping.

(** ** WeChat Pay's mapping *)

Section WechatMapping.
Context {W : Type} `{!wechat.SDK W}.

Lemma Wechat_unmapped_trade (pp : WechatPaymentProvider.t)
    (body orderId : string) (w w' : W) (client : wechat.ClientV3)
    (rsp : wechat.QueryOrderRsp) (q : wechat.QueryOrder) :
  WechatPaymentProvider.Client pp = Some client ->
  wechat.V3TransactionQueryOrder client wechat.OutTradeNo orderId w
    = (Val rsp, w') ->
  wechat.Code rsp = wechat.Success ->
  wechat.Response rsp = Some q ->
  ~ In (wechat.TradeState q) ["SUCCESS"; "CLOSED"; "NOTPAY"; "USERPAYING"] ->
  WechatPaymentProvider.Notify pp body orderId w =
    (Val (unexpected ("unexpected wechat trade state: "
                      +:+ wechat.TradeState q)), w').
Proof.
  intros Hc Hq Hcode Hrsp Hst.
  assert (Htwo : ~ In (wechat.TradeState q) ["NOTPAY"; "USERPAYING"])
    by (intros Hin; apply Hst; simpl in *; tauto).
  split_not_In.
  unfold WechatPaymentProvider.Notify. rewrite Hc.
  cbn [deref]. rewrite bind_lift_Val, (bind_Val _ _ _ _ _ Hq), Hcode, Hrsp.
  cbn [Z.eqb wechat.Success negb deref]. rewrite bind_lift_Val.
  repeat match goal with
         | H : _ <> _ |- _ => apply String.eqb_neq in H
         end.
  unfold one_of. cbn [existsb].
  repeat match goal with
         | H : String.eqb _ _ = false |- _ => rewrite H; clear H
         end.
  reflexivity.
Qed.



End WechatMapping.

(** ** PayPal's mapping *)

Section PaypalMapping.
Context {W : Type} `{!GoLib} `{!paypal.SDK W}.

Lemma Paypal_Notify_after_capture (pp : PaypalPaymentProvider.t)
    (body orderId : string) (w w1 : W) (capture : paypal.Rsp) :
  paypal.OrderCapture (PaypalPaymentProvider.Client pp) orderId w
    = (Val capture, w1) ->
  capture_passes capture = true ->
  PaypalPaymentProvider.Notify pp body orderId w =
    PaypalPaymentProvider.notify_detail pp orderId w1.
Proof.
  intros Hc Hpass. unfold PaypalPaymentProvider.Notify.
  rewrite (bind_Val _ _ _ _ _ Hc). unfold capture_passes in Hpass.
  destruct (paypal.Code capture =? paypal.Success); [reflexivity|].
  cbn [negb orb] in *.
  destruct (PaypalPaymentProvider.first_detail capture) as [d|e|p];
    try discriminate Hpass.
  rewrite bind_lift_Val, Hpass. reflexivity.
Qed.

Lemma Paypal_notify_detail_order (pp : PaypalPaymentProvider.t)
    (orderId : string) (w1 w2 : W) (detail : paypal.Rsp)
    (order : paypal.OrderDetail) (unit0 : paypal.PurchaseUnit)
    (units : list paypal.PurchaseUnit) (amount : paypal.Amount)
    (price : float) (productDisplayName productName providerName : string) :
  paypal.OrderDetail_ (PaypalPaymentProvider.Client pp) orderId w1
    = (Val detail, w2) ->
  paypal.Code detail = paypal.Success ->
  paypal.Response detail = Some order ->
  paypal.PurchaseUnits order = unit0 :: units ->
  paypal.Amount_ unit0 = Some amount ->
  strconv_ParseFloat (paypal.Value amount) = inr price ->
  parseAttachString (paypal.Description_ unit0)
    = (productDisplayName, productName, providerName, None) ->
  PaypalPaymentProvider.notify_detail pp orderId w1 =
    (Val {| NotifyResult.PaymentStatus :=
              if String.eqb (paypal.Status order) "COMPLETED"
              then PaymentStatePaid else PaymentStateError;
            NotifyResult.PaymentName := paypal.Id order;
            NotifyResult.ProductName := productName;
            NotifyResult.ProductDisplayName := productDisplayName;
            NotifyResult.ProviderName := providerName;
            NotifyResult.Price := price;
            NotifyResult.Currency := paypal.CurrencyCode amount;
            NotifyResult.OrderId := orderId;
            NotifyResult.NotifyMessage := "" |}, w2).
Proof.
  intros Hd Hcode Hrsp Hunits Hamount Hprice Hnames.
  unfold PaypalPaymentProvider.notify_detail.
  rewrite (bind_Val _ _ _ _ _ Hd), Hcode, Hrsp.
  cbn [Z.eqb paypal.Success negb deref]. rewrite bind_lift_Val, Hunits.
  cbn [index0]. rewrite bind_lift_Val, Hamount.
  cbn [deref]. rewrite bind_lift_Val, Hprice.
  cbn [of_pair]. rewrite bind_lift_Val, Hnames. reflexivity.
Qed.


End PaypalMapping.

(** ** GC's mapping *)

Section GcMapping.
Context {W : Type} `{!GoLib}.

Lemma Gc_other_state_fails (pp : GcPaymentProvider.t)
    (body orderId : string) (w w' : W) (info : GcNotifyRespInfo.t) :
  GcPaymentProvider.decode_body body w = (Val info, w') ->
  GcNotifyRespInfo.OrderState info <> "1" ->
  GcPaymentProvider.Notify pp body orderId w =
    (Err ("error order state: " +:+ GcNotifyRespInfo.OrderDate info), w').
Proof.
  intros Hd Hst. unfold GcPaymentProvider.Notify.
  rewrite (bind_Val _ _ _ _ _ Hd). switch_on_strings. reflexivity.
Qed.

End GcMapping.

(** *** C1 *)

Section UnmappedStatus.
Context {Ws Wx Wa Ww Wp Wg : Type} `{!GoLib}.
Context `{!stripe.SDK Ws} `{!AirwallexAPI Wx} `{!alipay.SDK Wa}.
Context `{!wechat.SDK Ww} `{!paypal.SDK Wp}.

(** C1, as the code has it. A vendor status that the adapter does not
    enumerate is reported as a result (no hard failure) with status
    [Error] and a non-empty message containing the vendor's string by the
    Stripe adapter (session status, and payment status of a complete
    session), the Airwallex adapter (intent status, and a non-empty
    payment-attempt status of a succeeded intent), the Alipay adapter and
    the WeChat adapter. The PayPal adapter gives every order status other
    than ["COMPLETED"] the status [Error], never [Created] or [Paid]. The
    GC adapter returns no result for an order state other than ["1"]: it
    returns a non-nil error. *)
Theorem Notify_unmapped_status :
  (forall (pp : StripePaymentProvider.t) body orderId (w w' : Ws) s,
     stripe.checkout_session_Get orderId w = (Val s, w') ->
     ~ In (stripe.Status s) ["open"; "complete"; "expired"] ->
     is_unmapped_report
       (fst (StripePaymentProvider.Notify pp body orderId w))
       (stripe.Status s) = true)
  /\ (forall (pp : StripePaymentProvider.t) body orderId (w w' : Ws) s,
        stripe.checkout_session_Get orderId w = (Val s, w') ->
        stripe.Status s = "complete" ->
        ~ In (stripe.PaymentStatus s) ["paid"; "unpaid"] ->
        is_unmapped_report
          (fst (StripePaymentProvider.Notify pp body orderId w))
          (stripe.PaymentStatus s) = true)
  /\ (forall (pp : AirwallexPaymentProvider.t) body orderId (w w' : Wx) intent,
        GetIntentByOrderId (AirwallexPaymentProvider.Client pp) orderId w
          = (Val intent, w') ->
        ~ In (AirWallexIntentInfo.Status intent)
             ["PENDING"; "REQUIRES_PAYMENT_METHOD";
              "REQUIRES_CUSTOMER_ACTION"; "REQUIRES_CAPTURE"; "CANCELLED";
              "EXPIRED"; "SUCCEEDED"] ->
        is_unmapped_report
          (fst (AirwallexPaymentProvider.Notify pp body orderId w))
          (AirWallexIntentInfo.Status intent) = true)
  /\ (forall (pp : AirwallexPaymentProvider.t) body orderId (w w' : Wx) intent,
        GetIntentByOrderId (AirwallexPaymentProvider.Client pp) orderId w
          = (Val intent, w') ->
        AirWallexIntentInfo.Status intent = "SUCCEEDED" ->
        AirWallexIntentInfo.PaymentStatus intent <> "" ->
        ~ In (AirWallexIntentInfo.PaymentStatus intent)
             ["CANCELLED"; "EXPIRED"; "RECEIVED"; "AUTHENTICATION_REDIRECTED";
              "AUTHORIZED"; "CAPTURE_REQUESTED"; "PAID"; "SETTLED"] ->
        is_unmapped_report
          (fst (AirwallexPaymentProvider.Notify pp body orderId w))
          (AirWallexIntentInfo.PaymentStatus intent) = true)
  /\ (forall (pp : AlipayPaymentProvider.t) body orderId (w w' : Wa) rsp d,
        alipay.TradeQuery (AlipayPaymentProvider.Client pp)
          (<[ "out_trade_no" := orderId ]> ∅) w = (Val rsp, w') ->
        alipay.Response rsp = Some d ->
        ~ In (alipay.TradeStatus d)
             ["WAIT_BUYER_PAY"; "TRADE_CLOSED"; "TRADE_SUCCESS"] ->
        is_unmapped_report
          (fst (AlipayPaymentProvider.Notify pp body orderId w))
          (alipay.TradeStatus d) = true)
  /\ (forall (pp : WechatPaymentProvider.t) body orderId (w w' : Ww)
             client rsp q,
        WechatPaymentProvider.Client pp = Some client ->
        wechat.V3TransactionQueryOrder client wechat.OutTradeNo orderId w
          = (Val rsp, w') ->
        wechat.Code rsp = wechat.Success ->
        wechat.Response rsp = Some q ->
        ~ In (wechat.TradeState q)
             ["SUCCESS"; "CLOSED"; "NOTPAY"; "USERPAYING"] ->
        is_unmapped_report
          (fst (WechatPaymentProvider.Notify pp body orderId w))
          (wechat.TradeState q) = true)
  /\ (forall (pp : PaypalPaymentProvider.t) body orderId (w w1 w2 : Wp)
             capture detail order unit0 units amount price
             productDisplayName productName providerName,
        paypal.OrderCapture (PaypalPaymentProvider.Client pp) orderId w
          = (Val capture, w1) ->
        capture_passes capture = true ->
        paypal.OrderDetail_ (PaypalPaymentProvider.Client pp) orderId w1
          = (Val detail, w2) ->
        paypal.Code detail = paypal.Success ->
        paypal.Response detail = Some order ->
        paypal.PurchaseUnits order = unit0 :: units ->
        paypal.Amount_ unit0 = Some amount ->
        strconv_ParseFloat (paypal.Value amount) = inr price ->
        parseAttachString (paypal.Description_ unit0)
          = (productDisplayName, productName, providerName, None) ->
        paypal.Status order <> "COMPLETED" ->
        status_of (fst (PaypalPaymentProvider.Notify pp body orderId w))
          = Some PaymentStateError)
  /\ (forall (pp : GcPaymentProvider.t) body orderId (w w' : Wg) info,
        GcPaymentProvider.decode_body body w = (Val info, w') ->
        GcNotifyRespInfo.OrderState info <> "1" ->
        exists e, GcPaymentProvider.Notify pp body orderId w = (Err e, w')).
Proof.
  repeat apply conj.
  - intros pp body orderId w w' s Hs Hst.
    rewrite (Stripe_unmapped_session pp body orderId w w' s Hs Hst).
    apply unexpected_is_unmapped_report.
  - intros pp body orderId w w' s Hs Hst Hpst.
    rewrite (Stripe_unmapped_payment pp body orderId w w' s Hs Hst Hpst).
    apply unexpected_is_unmapped_report.
  - intros pp body orderId w w' intent Hi Hst.
    rewrite (Airwallex_unmapped_intent pp body orderId w w' intent Hi Hst).
    apply unexpected_is_unmapped_report.
  - intros pp body orderId w w' intent Hi Hst Hne Hpst.
    rewrite (Airwallex_unmapped_attempt pp body orderId w w' intent
               Hi Hst Hne Hpst).
    apply unexpected_is_unmapped_report.
  - intros pp body orderId w w' rsp d Hq Hd Hst.
    rewrite (Alipay_unmapped_trade pp body orderId w w' rsp d Hq Hd Hst).
    apply unexpected_is_unmapped_report.
  - intros pp body orderId w w' client rsp q Hc Hq Hcode Hrsp Hst.
    rewrite (Wechat_unmapped_trade pp body orderId w w' client rsp q
               Hc Hq Hcode Hrsp Hst).
    apply unexpected_is_unmapped_report.
  - intros pp body orderId w w1 w2 capture detail order unit0 units amount
           price dn n pn Hc Hpass Hd Hcode Hrsp Hunits Hamount Hprice Hnames
           Hst.
    rewrite (Paypal_Notify_after_capture pp body orderId w w1 capture
               Hc Hpass).
    rewrite (Paypal_notify_detail_order pp orderId w1 w2 detail order unit0
               units amount price dn n pn
               Hd Hcode Hrsp Hunits Hamount Hprice Hnames).
    apply String.eqb_neq in Hst. rewrite Hst. reflexivity.
  - intros pp body orderId w w' info Hd Hst. eexists.
    apply (Gc_other_state_fails pp body orderId w w' info Hd Hst).
Qed.
End UnmappedStatus.

(** Proves [~ In s l] for a literal [s] and a literal list [l]. *)
Ltac not_listed :=
  let H := fresh in
  intros H; simpl in H;
  repeat (destruct H as [H|H]; [discriminate H|]); exact H.

Lemma Notify_unmapped_status_witness :
  is_unmapped_report
    (fst (StripePaymentProvider.Notify Mock.stripe_pp "" "cs_1"
            (Mock.stripe_state "FOO_BAR" "paid" 9999))) "FOO_BAR" = true
  /\ is_unmapped_report
       (fst (StripePaymentProvider.Notify Mock.stripe_pp "" "cs_1"
               (Mock.stripe_state "complete" "FOO_BAR" 9999))) "FOO_BAR" = true
  /\ is_unmapped_report
       (fst (AirwallexPaymentProvider.Notify Mock.airwallex_pp "" "order_1"
               (Mock.airwallex_intent "FOO_BAR" ""))) "FOO_BAR" = true
  /\ is_unmapped_report
       (fst (AirwallexPaymentProvider.Notify Mock.airwallex_pp "" "order_1"
               (Mock.airwallex_intent "SUCCEEDED" "FOO_BAR"))) "FOO_BAR" = true
  /\ is_unmapped_report
       (fst (AlipayPaymentProvider.Notify Mock.alipay_pp "" "order_1"
               (Mock.alipay_trade "FOO_BAR"))) "FOO_BAR" = true
  /\ is_unmapped_report
       (fst (WechatPaymentProvider.Notify Mock.wechat_pp "" "order_1"
               (Mock.wechat_trade "FOO_BAR"))) "FOO_BAR" = true
  /\ status_of
       (fst (PaypalPaymentProvider.Notify Mock.paypal_pp "" "o1"
               {| Mock.approved := true; Mock.captured := true;
                  Mock.after_capture := "FOO_BAR" |}))
       = Some PaymentStateError
  /\ exists e,
       GcPaymentProvider.Notify Mock.gc_pp (Mock.gc_body "b2Rk") "order_1" tt
         = (Err e, tt).
Proof.
  destruct (@Notify_unmapped_status
              Mock.stripe_world Mock.airwallex_world Mock.alipay_world
              Mock.wechat_world Mock.paypal_world unit Mock.lib
              Mock.stripe_sdk Mock.airwallex_api Mock.alipay_sdk
              Mock.wechat_sdk Mock.paypal_sdk)
    as (Hstripe & Hstripe' & Hairwallex & Hairwallex' & Halipay & Hwechat
        & Hpaypal & Hgc).
  repeat apply conj.
  - apply (Hstripe Mock.stripe_pp "" "cs_1"
             (Mock.stripe_state "FOO_BAR" "paid" 9999)
             (Mock.stripe_state "FOO_BAR" "paid" 9999)
             (fst (Mock.stripe_state "FOO_BAR" "paid" 9999)));
      [reflexivity|not_listed].
  - apply (Hstripe' Mock.stripe_pp "" "cs_1"
             (Mock.stripe_state "complete" "FOO_BAR" 9999)
             (Mock.stripe_state "complete" "FOO_BAR" 9999)
             (fst (Mock.stripe_state "complete" "FOO_BAR" 9999)));
      [reflexivity|reflexivity|not_listed].
  - apply (Hairwallex Mock.airwallex_pp "" "order_1"
             (Mock.airwallex_intent "FOO_BAR" "")
             (Mock.airwallex_intent "FOO_BAR" "")
             (Mock.airwallex_info "FOO_BAR" ""));
      [reflexivity|not_listed].
  - apply (Hairwallex' Mock.airwallex_pp "" "order_1"
             (Mock.airwallex_intent "SUCCEEDED" "FOO_BAR")
             (Mock.airwallex_intent "SUCCEEDED" "FOO_BAR")
             (Mock.airwallex_info "SUCCEEDED" "FOO_BAR"));
      [reflexivity|reflexivity|discriminate|not_listed].
  - apply (Halipay Mock.alipay_pp "" "order_1"
             (Mock.alipay_trade "FOO_BAR") (Mock.alipay_trade "FOO_BAR")
             (Mock.alipay_rsp "FOO_BAR") (Mock.alipay_data "FOO_BAR"));
      [reflexivity|reflexivity|not_listed].
  - apply (Hwechat Mock.wechat_pp "" "order_1"
             (Mock.wechat_trade "FOO_BAR") (Mock.wechat_trade "FOO_BAR") tt
             (Mock.wechat_rsp "FOO_BAR") (Mock.wechat_order "FOO_BAR"));
      [reflexivity|reflexivity|reflexivity|reflexivity|not_listed].
  - eapply (Hpaypal Mock.paypal_pp "" "o1"
              {| Mock.approved := true; Mock.captured := true;
                 Mock.after_capture := "FOO_BAR" |});
      [reflexivity|reflexivity|reflexivity|reflexivity|reflexivity
      |reflexivity|reflexivity|reflexivity|reflexivity|discriminate].
  - apply (Hgc Mock.gc_pp (Mock.gc_body "b2Rk") "order_1" tt tt
             (Mock.gc_info "FOO_BAR")); [reflexivity|discriminate].
Defined.

(** C1 as the specification states it fails on PayPal and on GC. When
    PayPal reports the order status ["FOO_BAR"], the result has status
    [Error] and an empty message, which does not contain ["FOO_BAR"].
    When a GC notification carries the order state ["FOO_BAR"], [Notify]
    returns no result and an error: a hard failure, whose text names the
    order's date. *)
Lemma Notify_unmapped_status_counterexample :
  (exists r,
     fst (PaypalPaymentProvider.Notify Mock.paypal_pp "" "o1"
            {| Mock.approved := true; Mock.captured := true;
               Mock.after_capture := "FOO_BAR" |}) = Val r
     /\ NotifyResult.PaymentStatus r = PaymentStateError
     /\ NotifyResult.NotifyMessage r = ""
     /\ Strings.Contains (NotifyResult.NotifyMessage r) "FOO_BAR" = false)
  /\ is_unmapped_report
       (fst (PaypalPaymentProvider.Notify Mock.paypal_pp "" "o1"
               {| Mock.approved := true; Mock.captured := true;
                  Mock.after_capture := "FOO_BAR" |})) "FOO_BAR" = false
  /\ GcNotifyRespInfo.OrderState (Mock.gc_info "FOO_BAR") = "FOO_BAR"
  /\ fst (GcPaymentProvider.Notify Mock.gc_pp (Mock.gc_body "b2Rk")
            "order_1" tt) = Err "error order state: 20240101"
  /\ is_unmapped_report
       (fst (GcPaymentProvider.Notify Mock.gc_pp (Mock.gc_body "b2Rk")
               "order_1" tt)) "FOO_BAR" = false.
Proof.
  repeat apply conj; try reflexivity.
  eexists. repeat apply conj; reflexivity.
Qed.

(** *** C3 *)

Section PaidOnlyWhenSettled.
Context {Ws Wx Wa Ww Wp Wg : Type} `{!GoLib}.
Context `{!stripe.SDK Ws} `{!AirwallexAPI Wx} `{!alipay.SDK Wa}.
Context `{!wechat.SDK Ww} `{!paypal.SDK Wp}.

End PaidOnlyWhenSettled.

(** The Balance and the Dummy adapters ask no vendor: their [Notify]
    answers [Paid] whatever it is given, and leaves every state as it
    is. *)
Lemma Notify_without_vendor {W : Type} (body orderId : string) (w : W) :
  BalancePaymentProvider.Notify BalancePaymentProvider.Build_t body orderId w
    = (Val (NotifyResult.setPaymentStatus NotifyResult.zero PaymentStatePaid),
       w)
  /\ DummyPaymentProvider.Notify DummyPaymentProvider.Build_t body orderId w
     = (Val (NotifyResult.setPaymentStatus NotifyResult.zero PaymentStatePaid),
        w).
Proof. split; reflexivity. Qed.


(** *** C6 *)

Section Constructors.
Context {Wa Ww Wp : Type}.
Context `{!alipay.SDK Wa} `{!wechat.SDK Ww} `{!paypal.SDK Wp}.

(** C6, as the code has it. The WeChat constructor called with any of
    its five credentials empty returns the zero-value instance and a nil
    error, without calling the vendor; on that instance [Notify] panics.
    The Alipay and the PayPal constructors fail exactly when the vendor
    SDK's own constructor (for Alipay also its certificate setter)
    rejects what it is given, and return that error. The Stripe and the
    Airwallex constructors check nothing: they always return an instance
    holding the credentials as given and a nil error. The GC constructor
    has no error result, the Balance and the Dummy constructors take no
    credentials. *)
Theorem Constructors_and_missing_credentials :
  (forall mchId apiV3Key appId serialNo privateKey (w : Ww),
     appId = "" \/ mchId = "" \/ serialNo = "" \/ apiV3Key = ""
     \/ privateKey = "" ->
     WechatPaymentProvider.NewWechatPaymentProvider
       mchId apiV3Key appId serialNo privateKey w
       = (Val WechatPaymentProvider.zero, w))
  /\ (forall body orderId (w : Ww),
        WechatPaymentProvider.Notify WechatPaymentProvider.zero body orderId w
          = (Panic "invalid memory address or nil pointer dereference", w))
  /\ (forall appId appCertificate appPrivateKey authorityPublicKey
             authorityRootPublicKey e,
        AlipayPaymentProvider.NewAlipayPaymentProvider
          appId appCertificate appPrivateKey authorityPublicKey
          authorityRootPublicKey = Err e
        <-> (alipay.NewClient appId appPrivateKey true = inl e
             \/ exists client,
                  alipay.NewClient appId appPrivateKey true = inr client
                  /\ alipay.SetCertSnByContent client appCertificate
                       authorityRootPublicKey authorityPublicKey = inl e))
  /\ (forall clientID secret e,
        PaypalPaymentProvider.NewPaypalPaymentProvider clientID secret = Err e
        <-> paypal.NewClient clientID secret true = inl e)
  /\ (forall publishableKey secretKey g,
        StripePaymentProvider.NewStripePaymentProvider
          publishableKey secretKey g
          = (Val {| StripePaymentProvider.PublishableKey := publishableKey;
                    StripePaymentProvider.SecretKey := secretKey;
                    StripePaymentProvider.isProd := true |},
             {| stripe.Key := secretKey |}))
  /\ (forall clientId apiKey,
        exists pp,
          AirwallexPaymentProvider.NewAirwallexPaymentProvider clientId apiKey
            = Val pp
          /\ AirwallexClient.ClientId (AirwallexPaymentProvider.Client pp)
             = clientId
          /\ AirwallexClient.APIKey (AirwallexPaymentProvider.Client pp)
             = apiKey)
  /\ (forall clientId clientSecret host,
        GcPaymentProvider.NewGcPaymentProvider clientId clientSecret host
          = {| GcPaymentProvider.Xmpch := clientId;
               GcPaymentProvider.SecretKey := clientSecret;
               GcPaymentProvider.Host := host |})
  /\ BalancePaymentProvider.NewBalancePaymentProvider
       = Val BalancePaymentProvider.Build_t
  /\ DummyPaymentProvider.NewDummyPaymentProvider
       = Val DummyPaymentProvider.Build_t.
Proof.
  repeat apply conj.
  - intros mchId apiV3Key appId serialNo privateKey w Hempty.
    unfold WechatPaymentProvider.NewWechatPaymentProvider.
    assert (Hif : WechatPaymentProvider.is_empty appId
                  || WechatPaymentProvider.is_empty mchId
                  || WechatPaymentProvider.is_empty serialNo
                  || WechatPaymentProvider.is_empty apiV3Key
                  || WechatPaymentProvider.is_empty privateKey = true).
    { unfold WechatPaymentProvider.is_empty.
      destruct Hempty as [->|[->|[->|[->| ->]]]]; cbn [String.eqb];
        rewrite ?orb_true_r; reflexivity. }
    rewrite Hif. reflexivity.
  - reflexivity.
  - intros appId appCertificate appPrivateKey authorityPublicKey
           authorityRootPublicKey e.
    unfold AlipayPaymentProvider.NewAlipayPaymentProvider.
    destruct (alipay.NewClient appId appPrivateKey true) as [e'|client].
    + split.
      * intros [= ->]. left. reflexivity.
      * intros [[= ->]|[client [Hc _]]]; [reflexivity|discriminate Hc].
    + destruct (alipay.SetCertSnByContent client appCertificate
                  authorityRootPublicKey authorityPublicKey)
        as [e'|client'] eqn:Hset.
      * split.
        -- intros [= ->]. right. exists client. split; [reflexivity|].
           exact Hset.
        -- intros [Hc|[c [[= <-] Hc]]]; [discriminate Hc|].
           rewrite Hset in Hc. injection Hc as ->. reflexivity.
      * split.
        -- intros Hc. discriminate Hc.
        -- intros [Hc|[c [[= <-] Hc]]]; [discriminate Hc|].
           rewrite Hset in Hc. discriminate Hc.
  - intros clientID secret e.
    unfold PaypalPaymentProvider.NewPaypalPaymentProvider.
    destruct (paypal.NewClient clientID secret true) as [e'|client].
    + split; intros [= ->]; reflexivity.
    + split; intros Hc; discriminate Hc.
  - reflexivity.
  - intros clientId apiKey. eexists. repeat split.
  - reflexivity.
  - reflexivity.
  - reflexivity.
Qed.
End Constructors.

Lemma Constructors_and_missing_credentials_witness :
  WechatPaymentProvider.NewWechatPaymentProvider
    "1900000001" "" "wx1" "5157F09E" "KEY" (Mock.wechat_trade "SUCCESS")
    = (Val WechatPaymentProvider.zero, Mock.wechat_trade "SUCCESS")
  /\ AlipayPaymentProvider.NewAlipayPaymentProvider "" "cert" "key" "pub" "root"
     = Err "missing alipay init parameter"
  /\ PaypalPaymentProvider.NewPaypalPaymentProvider "id" ""
     = Err "missing paypal init parameter".
Proof.
  destruct (@Constructors_and_missing_credentials
              Mock.alipay_world Mock.wechat_world Mock.paypal_world
              Mock.alipay_sdk Mock.wechat_sdk Mock.paypal_sdk)
    as (Hwechat & _ & Halipay & Hpaypal & _).
  repeat apply conj.
  - apply Hwechat. right. right. right. left. reflexivity.
  - apply Halipay. left. reflexivity.
  - apply Hpaypal. reflexivity.
Defined.

(** C6 as the specification states it fails on Stripe, Airwallex and GC:
    with every credential empty, the Stripe and the Airwallex
    constructors return an instance and a nil error, not an explicit
    error, and the GC constructor returns an instance. So WeChat is not
    the only constructor that accepts missing credentials. *)
Lemma Constructors_and_missing_credentials_counterexample :
  fst (StripePaymentProvider.NewStripePaymentProvider "" ""
         {| stripe.Key := "sk_old" |})
    = Val {| StripePaymentProvider.PublishableKey := "";
             StripePaymentProvider.SecretKey := "";
             StripePaymentProvider.isProd := true |}
  /\ (exists pp,
        AirwallexPaymentProvider.NewAirwallexPaymentProvider "" "" = Val pp
        /\ AirwallexClient.ClientId (AirwallexPaymentProvider.Client pp) = ""
        /\ AirwallexClient.APIKey (AirwallexPaymentProvider.Client pp) = "")
  /\ GcPaymentProvider.NewGcPaymentProvider "" "" ""
     = {| GcPaymentProvider.Xmpch := ""; GcPaymentProvider.SecretKey := "";
          GcPaymentProvider.Host := "" |}.
Proof.
  repeat apply conj; try reflexivity.
  eexists. repeat split.
Qed.

(** *** C7 *)

Section ResponseTokens.
Context {W : Type} `{!GoLib}.
Context `{!alipay.SDK W} `{!wechat.SDK W} `{!paypal.SDK W}.
Context `{!stripe.SDK W} `{!AirwallexAPI W}.

End ResponseTokens.


(** ** Notifications that only read *)









Section ReadOnlyAdapters.
Context {W : Type} `{!GoLib}.






End ReadOnlyAdapters.

(** ** PayPal: a notification that captures *)

Section PaypalTwice.
Context {W : Type} `{!GoLib} `{!paypal.SDK W}.


End PaypalTwice.

(** *** C8 *)

Section Idempotence.
Context {Ws Wx Wa Ww Wp Wg Wb Wd : Type} `{!GoLib}.
Context `{!stripe.SDK Ws} `{!AirwallexAPI Wx} `{!alipay.SDK Wa}.
Context `{!wechat.SDK Ww} `{!paypal.SDK Wp}.

End Idempotence.


(** ** Binary64 arithmetic, from its specification

    The operations of [PrimFloat] are specified by those of [SpecFloat];
    the lemmas below bound the rounding error of the latter, which the
    round trip of the amount codec rests on. *)

Lemma digits2_pos_size (p : positive) : digits2_pos p = Pos.size p.
Proof. induction p as [p IH|p IH|]; simpl; congruence. Qed.

Lemma digits2_pos_bounds (p : positive) :
  2 ^ (Z.pos (digits2_pos p) - 1) <= Z.pos p < 2 ^ Z.pos (digits2_pos p).
Proof.
  rewrite digits2_pos_size.
  pose proof (Pos.size_gt p) as Hgt. pose proof (Pos.size_le p) as Hle.
  apply Pos2Z.pos_lt_pos in Hgt. apply Pos2Z.pos_le_pos in Hle.
  rewrite Pos2Z.inj_pow in Hgt, Hle. change (Z.pos p~0) with (2 * Z.pos p) in Hle.
  replace (Z.pos (Pos.size p)) with (Z.pos (Pos.size p) - 1 + 1) in Hle at 1 by lia.
  rewrite Z.pow_add_r in Hle by lia. change (2 ^ 1) with 2 in Hle. lia.
Qed.

Lemma digits2_pos_unique (p : positive) (d : Z) :
  2 ^ (d - 1) <= Z.pos p < 2 ^ d -> 0 < d -> Z.pos (digits2_pos p) = d.
Proof.
  intros [Hlo Hhi] Hd. pose proof (digits2_pos_bounds p) as [Hlo' Hhi'].
  set (d' := Z.pos (digits2_pos p)) in *.
  destruct (Z.lt_trichotomy d' d) as [Hlt|[Heq|Hgt]]; [|exact Heq|].
  - assert (2 ^ d' <= 2 ^ (d - 1)) by (apply Z.pow_le_mono_r; lia). lia.
  - assert (2 ^ d <= 2 ^ (d' - 1)) by (apply Z.pow_le_mono_r; lia). lia.
Qed.

Lemma iter_pos_nat {A : Type} (f : A -> A) (p : positive) (x : A) :
  @SpecFloat.iter_pos A f p x = Nat.iter (Pos.to_nat p) f x.
Proof.
  revert x. induction p as [p IH|p IH|]; intros x; cbn [SpecFloat.iter_pos].
  - rewrite !IH, Pos2Nat.inj_xI.
    replace (S (2 * Pos.to_nat p))%nat with (Pos.to_nat p + (Pos.to_nat p + 1))%nat by lia.
    rewrite !Nat.iter_add. reflexivity.
  - rewrite !IH, Pos2Nat.inj_xO.
    replace (2 * Pos.to_nat p)%nat with (Pos.to_nat p + Pos.to_nat p)%nat by lia.
    rewrite Nat.iter_add. reflexivity.
  - reflexivity.
Qed.

Lemma shr_nat (mrs : shr_record) (e : Z) (k : nat) :
  shr mrs e (Z.of_nat k) = (Nat.iter k shr_1 mrs, e + Z.of_nat k).
Proof.
  destruct k as [|k].
  - simpl. now rewrite Z.add_0_r.
  - unfold shr. change (Z.of_nat (S k)) with (Z.pos (Pos.of_succ_nat k)).
    cbv iota beta. rewrite iter_pos_nat, SuccNat2Pos.id_succ. reflexivity.
Qed.

Lemma shr_1_nonneg (m : Z) (r s : bool) :
  0 <= m ->
  shr_1 (Build_shr_record m r s) = Build_shr_record (m / 2) (Z.odd m) (r || s).
Proof.
  intros Hm. rewrite <- Z.div2_div.
  destruct m as [|p|p]; [reflexivity| |lia].
  destruct p; reflexivity.
Qed.

Lemma shr_inv_0 (den num mx : Z) :
  0 <= mx -> 0 <= num < den ->
  shr_inv den num mx 0 (shr_record_of_loc mx (loc_of_frac num den)).
Proof.
  intros Hmx Hnum. unfold shr_inv. change (2 ^ Z.of_nat 0) with 1.
  assert (Hm : forall l, shr_m (shr_record_of_loc mx l) = mx)
    by (intros [|[]]; reflexivity).
  assert (Hl : forall l, loc_of_shr_record (shr_record_of_loc mx l) = l)
    by (intros [|[]]; reflexivity).
  rewrite Hm, Hl.
  replace (den * (mx - mx * 1) + num) with num by lia.
  rewrite Z.mul_1_r. repeat split; lia.
Qed.

Lemma shr_inv_step (den num mx : Z) (k : nat) (mrs : shr_record) :
  0 < den -> shr_inv den num mx k mrs -> shr_inv den num mx (S k) (shr_1 mrs).
Proof.
  intros Hden. destruct mrs as [M r s]. unfold shr_inv. cbn [shr_m].
  rewrite Nat2Z.inj_succ, Z.pow_succ_r by lia.
  set (T := 2 ^ Z.of_nat k). assert (HT : 0 < T) by (apply Z.pow_pos_nonneg; lia).
  intros (HM & HF & Hloc). rewrite shr_1_nonneg by exact HM. cbn [shr_m].
  pose proof (Z.div_mod M 2 ltac:(lia)) as Hdm.
  pose proof (Z.mod_pos_bound M 2 ltac:(lia)) as Hmod.
  assert (Hodd : Z.odd M = (M mod 2 =? 1)).
  { rewrite Zmod_odd. destruct (Z.odd M); reflexivity. }
  set (h := M / 2) in *. set (b := M mod 2) in *.
  set (F := den * (mx - M * T) + num) in *.
  assert (HF' : den * (mx - h * (2 * T)) + num = F + den * T * b)
    by (unfold F; rewrite Hdm; ring).
  rewrite HF'. split; [unfold h; apply Z.div_pos; lia|].
  assert (Hb : b = 0 \/ b = 1) by lia.
  unfold loc_of_frac in *. rewrite Hodd.
  destruct Hb as [Hb|Hb]; rewrite Hb in *; cbn [Z.eqb Pos.eqb];
    rewrite ?Z.mul_0_r, ?Z.mul_1_r, ?Z.add_0_r.
  - split; [nia|].
    destruct (F =? 0) eqn:HF0.
    + destruct r, s; cbn in Hloc; try discriminate Hloc. reflexivity.
    + assert (Hlt : (2 * F ?= 2 * (den * T)) = Lt) by (apply Z.compare_lt_iff; lia).
      replace (den * (2 * T)) with (2 * (den * T)) by ring. rewrite Hlt.
      destruct r, s; cbn in Hloc |- *; try discriminate Hloc; reflexivity.
  - split; [nia|].
    assert (HFne : (F + den * T =? 0) = false) by (apply Z.eqb_neq; nia).
    rewrite HFne. replace (den * (2 * T)) with (2 * (den * T)) by ring.
    destruct (F =? 0) eqn:HF0.
    + apply Z.eqb_eq in HF0.
      assert (Heq : (2 * (F + den * T) ?= 2 * (den * T)) = Eq)
        by (apply Z.compare_eq_iff; lia).
      rewrite Heq. destruct r, s; cbn in Hloc |- *; try discriminate Hloc; reflexivity.
    + apply Z.eqb_neq in HF0.
      assert (Hgt : (2 * (F + den * T) ?= 2 * (den * T)) = Gt)
        by (apply Z.compare_gt_iff; lia).
      rewrite Hgt. destruct r, s; cbn in Hloc |- *; try discriminate Hloc; reflexivity.
Qed.

Lemma shr_inv_iter (den num mx : Z) (k : nat) (mrs : shr_record) :
  0 < den -> shr_inv den num mx 0 mrs ->
  shr_inv den num mx k (Nat.iter k shr_1 mrs).
Proof.
  intros Hden H0. induction k as [|k IH]; [exact H0|].
  cbn [Nat.iter]. apply shr_inv_step; assumption.
Qed.

(** Rounding to nearest is off by at most half a unit. *)
Lemma round_nearest_even_bound (den num mx : Z) (k : nat) (mrs : shr_record) :
  0 < den -> shr_inv den num mx k mrs ->
  let m2 := round_nearest_even (shr_m mrs) (loc_of_shr_record mrs) in
  shr_m mrs <= m2 <= shr_m mrs + 1
  /\ - (den * 2 ^ Z.of_nat k)
     <= 2 * (den * mx + num - den * m2 * 2 ^ Z.of_nat k)
     <= den * 2 ^ Z.of_nat k.
Proof.
  intros Hden (HM & HF & Hloc). cbv zeta. rewrite Hloc.
  set (T := 2 ^ Z.of_nat k) in *. assert (HT : 0 < T) by (apply Z.pow_pos_nonneg; lia).
  set (M := shr_m mrs) in *.
  set (F := den * (mx - M * T) + num) in *.
  assert (Hval : forall m2, den * mx + num - den * m2 * T = F - den * T * (m2 - M))
    by (intros m2; unfold F; ring).
  unfold loc_of_frac. destruct (F =? 0) eqn:HF0; cbn [round_nearest_even].
  - apply Z.eqb_eq in HF0. rewrite Hval. split; [lia|nia].
  - destruct (Z.compare_spec (2 * F) (den * T)) as [Heq|Hlt|Hgt].
    + destruct (Z.even M); rewrite Hval; split; try lia; nia.
    + rewrite Hval. split; [lia|nia].
    + rewrite Hval. split; [lia|nia].
Qed.

Lemma fexp_normal (e : Z) : -1074 <= e - 53 -> fexp prec emax e = e - 53.
Proof. intros He. unfold fexp, emin, prec, emax. lia. Qed.

(** A mantissa of exactly 53 bits is kept as it is. *)
Lemma binary_round_aux_53 (s : bool) (m : positive) (e : Z) :
  2 ^ 52 <= Z.pos m < 2 ^ 53 -> -1074 <= e <= 971 ->
  binary_round_aux prec emax s (Z.pos m) e loc_Exact = S754_finite s m e.
Proof.
  intros Hm He.
  assert (Hd : Z.pos (digits2_pos m) = 53) by (apply digits2_pos_unique; lia).
  assert (Hsh : shr_fexp prec emax (Z.pos m) e loc_Exact
                = (Build_shr_record (Z.pos m) false false, e)).
  { unfold shr_fexp. cbn [Zdigits2]. rewrite Hd, fexp_normal by lia.
    replace (53 + e - 53 - e) with 0 by lia. reflexivity. }
  unfold binary_round_aux. rewrite Hsh. cbn [shr_m loc_of_shr_record round_nearest_even].
  rewrite Hsh. cbn [shr_m].
  replace (e <=? emax - prec) with true; [reflexivity|].
  symmetry. apply Z.leb_le. unfold emax, prec. lia.
Qed.

(** [binary_round_aux] on a mantissa [mx] of [53 + k] bits that stands
    for the number [mx + num / den]: the result has a mantissa of 53
    bits and is within half a unit of the last place kept. *)
Lemma binary_round_aux_spec (s : bool) (mx ex den num : Z) (k : nat) :
  0 < den -> 0 <= num < den ->
  2 ^ (52 + Z.of_nat k) <= mx < 2 ^ (53 + Z.of_nat k) ->
  -1074 <= ex + Z.of_nat k -> ex + Z.of_nat k + 1 <= 971 ->
  exists (mr : positive) (j : Z),
    binary_round_aux prec emax s mx ex (loc_of_frac num den)
      = S754_finite s mr (ex + j)
    /\ (j = Z.of_nat k \/ (j = Z.of_nat k + 1 /\ Z.pos mr = 2 ^ 52))
    /\ 2 ^ 52 <= Z.pos mr < 2 ^ 53
    /\ - (den * 2 ^ Z.of_nat k)
       <= 2 * (den * mx + num - den * Z.pos mr * 2 ^ j)
       <= den * 2 ^ Z.of_nat k.
Proof.
  intros Hden Hnum Hmx Hlo Hhi.
  assert (HT : 0 < 2 ^ Z.of_nat k) by (apply Z.pow_pos_nonneg; lia).
  rewrite !Z.pow_add_r in Hmx by lia.
  destruct mx as [|p|p]; [lia| |lia].
  assert (Hd : Z.pos (digits2_pos p) = 53 + Z.of_nat k).
  { apply digits2_pos_unique; [|lia].
    replace (53 + Z.of_nat k - 1) with (52 + Z.of_nat k) by lia.
    rewrite !Z.pow_add_r by lia. lia. }
  unfold binary_round_aux.
  assert (Hsh : shr_fexp prec emax (Z.pos p) ex (loc_of_frac num den)
                = (Nat.iter k shr_1
                     (shr_record_of_loc (Z.pos p) (loc_of_frac num den)),
                   ex + Z.of_nat k)).
  { unfold shr_fexp. cbn [Zdigits2]. rewrite Hd, fexp_normal by lia.
    replace (53 + Z.of_nat k + ex - 53 - ex) with (Z.of_nat k) by lia.
    apply shr_nat. }
  rewrite Hsh. clear Hsh.
  pose proof (shr_inv_iter den num (Z.pos p) k _ Hden
                (shr_inv_0 den num (Z.pos p) ltac:(lia) Hnum)) as Hinv.
  set (mrs := Nat.iter k shr_1 _) in *.
  pose proof (round_nearest_even_bound den num (Z.pos p) k mrs Hden Hinv)
    as [Hm2 Herr].
  destruct Hinv as (HM & HF & _).
  set (m2 := round_nearest_even (shr_m mrs) (loc_of_shr_record mrs)) in *.
  set (T := 2 ^ Z.of_nat k) in *.
  assert (HMlo : 2 ^ 52 <= shr_m mrs) by nia.
  assert (HMhi : shr_m mrs < 2 ^ 53) by nia.
  destruct (Z.eq_dec m2 (2 ^ 53)) as [Hcarry|Hnocarry].
  - exists (4503599627370496%positive), (Z.of_nat k + 1).
    rewrite Hcarry.
    assert (Hsh : shr_fexp prec emax (2 ^ 53) (ex + Z.of_nat k) loc_Exact
                  = (Build_shr_record (2 ^ 52) false false,
                     ex + Z.of_nat k + 1)).
    { unfold shr_fexp. change (Zdigits2 (2 ^ 53)) with 54.
      rewrite fexp_normal by lia.
      replace (54 + (ex + Z.of_nat k) - 53 - (ex + Z.of_nat k)) with 1 by lia.
      reflexivity. }
    rewrite Hsh. cbn [shr_m]. change (2 ^ 52) with (Z.pos 4503599627370496).
    replace (ex + Z.of_nat k + 1 <=? emax - prec) with true
      by (symmetry; apply Z.leb_le; unfold emax, prec; lia).
    split; [f_equal; lia|]. split; [right; split; reflexivity|].
    split; [lia|].
    rewrite Z.pow_add_r by lia. change (2 ^ 1) with 2.
    rewrite Hcarry in Herr. fold T.
    change (Z.pos 4503599627370496) with (2 ^ 52).
    replace (den * 2 ^ 52 * (T * 2)) with (den * 2 ^ 53 * T)
      by (change (2 ^ 53) with (2 ^ 52 * 2); ring).
    exact Herr.
  - assert (Hm2' : 2 ^ 52 <= m2 < 2 ^ 53) by lia.
    destruct m2 as [|q|q] eqn:Hq; [lia| |lia].
    exists q, (Z.of_nat k).
    pose proof (binary_round_aux_53 s q (ex + Z.of_nat k) Hm2' ltac:(lia))
      as Hkeep.
    unfold binary_round_aux in Hkeep.
    destruct (shr_fexp prec emax (Z.pos q) (ex + Z.of_nat k) loc_Exact)
      as [mrs' e'] eqn:Hfirst.
    assert (Hfirst' : (mrs', e') = (Build_shr_record (Z.pos q) false false,
                                    ex + Z.of_nat k)).
    { rewrite <- Hfirst. unfold shr_fexp. cbn [Zdigits2].
      rewrite (digits2_pos_unique q 53) by lia.
      rewrite fexp_normal by lia.
      replace (53 + (ex + Z.of_nat k) - 53 - (ex + Z.of_nat k)) with 0 by lia.
      reflexivity. }
    injection Hfirst' as -> ->.
    cbn [shr_m loc_of_shr_record round_nearest_even] in Hkeep.
    rewrite Hfirst in Hkeep. cbn [shr_m].
    split; [exact Hkeep|]. split; [left; reflexivity|]. split; [exact Hm2'|].
    exact Herr.
Qed.

Lemma valid_binary_53 (s : bool) (m : positive) (e : Z) :
  2 ^ 52 <= Z.pos m < 2 ^ 53 -> -1074 <= e <= 971 ->
  valid_binary (S754_finite s m e) = true.
Proof.
  intros Hm He. unfold SpecFloat.valid_binary, bounded, canonical_mantissa.
  rewrite (digits2_pos_unique m 53) by lia. rewrite fexp_normal by lia.
  apply andb_true_intro. split; [apply Z.eqb_eq; lia|].
  apply Z.leb_le. unfold emax, prec. lia.
Qed.

Lemma shl_align_spec (mx : positive) (ex ex' : Z) :
  ex' <= ex ->
  snd (shl_align mx ex ex') = ex'
  /\ Z.pos (fst (shl_align mx ex ex')) = Z.pos mx * 2 ^ (ex - ex').
Proof.
  intros Hle. unfold shl_align. destruct (ex' - ex) as [|d|d] eqn:Hd; [|lia|].
  - replace (ex - ex') with 0 by lia. cbn [fst snd]. lia.
  - cbn [fst snd]. split; [reflexivity|].
    replace (ex - ex') with (Z.pos d) by lia.
    change (Pos.iter xO mx d) with (shift_pos d mx).
    rewrite shift_pos_correct. change (Z.pow_pos 2 d) with (2 ^ Z.pos d). lia.
Qed.

(** The conversion of an integer of at most 53 bits is exact. *)
Lemma binary_normalize_exact (n d : Z) :
  1 <= d <= 53 -> 2 ^ (d - 1) <= n < 2 ^ d ->
  exists m : positive,
    binary_normalize prec emax n 0 false = S754_finite false m (d - 53)
    /\ Z.pos m = n * 2 ^ (53 - d)
    /\ 2 ^ 52 <= Z.pos m < 2 ^ 53.
Proof.
  intros Hd Hn.
  assert (Hpow : 0 < 2 ^ (d - 1)) by (apply Z.pow_pos_nonneg; lia).
  destruct n as [|p|p]; [lia| |lia].
  unfold binary_normalize, binary_round.
  rewrite (digits2_pos_unique p d) by lia.
  rewrite fexp_normal by lia.
  pose proof (shl_align_spec p 0 (d + 0 - 53) ltac:(lia)) as [He Hm].
  destruct (shl_align p 0 (d + 0 - 53)) as [mz ez]. cbn [fst snd] in He, Hm.
  subst ez. replace (0 - (d + 0 - 53)) with (53 - d) in Hm by lia.
  assert (Hrange : 2 ^ 52 <= Z.pos mz < 2 ^ 53).
  { rewrite Hm.
    assert (H52 : 2 ^ 52 = 2 ^ (d - 1) * 2 ^ (53 - d))
      by (rewrite <- Z.pow_add_r by lia; f_equal; lia).
    assert (H53 : 2 ^ 53 = 2 ^ d * 2 ^ (53 - d))
      by (rewrite <- Z.pow_add_r by lia; f_equal; lia).
    assert (0 < 2 ^ (53 - d)) by (apply Z.pow_pos_nonneg; lia).
    rewrite H52, H53. nia. }
  exists mz. rewrite binary_round_aux_53 by (try exact Hrange; lia).
  split; [f_equal; lia|]. split; [exact Hm|exact Hrange].
Qed.

Lemma Prim2SF_100 : Prim2SF 100%float = S754_finite false hundred_m (-46).
Proof. vm_compute. reflexivity. Qed.

(** Division by 100 of a number [mx * 2 ^ ex]: the quotient is within
    half a unit in the last place of the exact one. In units of
    [2 ^ (ex - 7)] the dividend is [128 * mx]. *)
Lemma SFdiv_100 (mx : positive) (ex : Z) :
  2 ^ 52 <= Z.pos mx < 2 ^ 53 -> -1000 <= ex <= 900 ->
  exists (mq : positive) (jq : Z),
    SFdiv prec emax (S754_finite false mx ex) (S754_finite false hundred_m (-46))
      = S754_finite false mq (ex - 7 + jq)
    /\ 0 <= jq <= 1
    /\ 2 ^ 52 <= Z.pos mq < 2 ^ 53
    /\ - 100 <= 128 * Z.pos mx - 100 * Z.pos mq * 2 ^ jq <= 100
    /\ (128 * Z.pos mx < 100 * 2 ^ 53 ->
        - 50 <= 128 * Z.pos mx - 100 * Z.pos mq * 2 ^ jq <= 50
        /\ (jq = 1 -> Z.pos mq = 2 ^ 52)).
Proof.
  intros Hmx Hex. unfold SFdiv, SFdiv_core_binary. cbn [Zdigits2].
  rewrite (digits2_pos_unique mx 53) by lia.
  change (Z.pos (digits2_pos hundred_m)) with 53.
  replace (53 + ex - (53 + -46)) with (ex + 46) by lia.
  rewrite fexp_normal by lia.
  replace (Z.min (ex + 46 - 53) (ex - -46)) with (ex - 7) by lia.
  replace (ex - -46 - (ex - 7)) with 53 by lia.
  cbv iota. rewrite Z.shiftl_mul_pow2 by lia.
  pose proof (Z_div_mod (Z.pos mx * 2 ^ 53) (Z.pos hundred_m) ltac:(lia))
    as Hdm.
  destruct (Z.div_eucl (Z.pos mx * 2 ^ 53) (Z.pos hundred_m)) as [q r].
  destruct Hdm as [Hq Hr].
  change (new_location (Z.pos hundred_m) r)
    with (loc_of_frac r (Z.pos hundred_m)).
  change (xorb false false) with false.
  change (Z.pos hundred_m) with (100 * 2 ^ 46) in *.
  destruct (Z_lt_le_dec q (2 ^ 53)) as [Hsmall|Hbig].
  - destruct (binary_round_aux_spec false q (ex - 7) (100 * 2 ^ 46) r 0
                ltac:(lia) Hr ltac:(cbn; lia) ltac:(cbn; lia) ltac:(cbn; lia))
      as (mq & j & Hres & Hj & Hmq & Herr).
    exists mq, j. split; [exact Hres|].
    cbn [Z.of_nat] in Hj, Herr. split; [lia|]. split; [exact Hmq|].
    destruct Hj as [->|[-> Hcarry]].
    + change (2 ^ 0) with 1 in *. split; [lia|]. intros _. lia.
    + change (2 ^ (0 + 1)) with 2 in *. change (2 ^ 0) with 1 in *.
      split; [lia|]. intros _. lia.
  - destruct (binary_round_aux_spec false q (ex - 7) (100 * 2 ^ 46) r 1
                ltac:(lia) Hr ltac:(cbn; lia) ltac:(cbn; lia) ltac:(cbn; lia))
      as (mq & j & Hres & Hj & Hmq & Herr).
    exists mq, j. split; [exact Hres|].
    change (Z.of_nat 1) with 1 in Hj, Herr.
    destruct Hj as [->|[-> Hcarry]].
    + change (2 ^ 1) with 2 in *. split; [lia|]. split; [exact Hmq|].
      split; [lia|]. intros Hlt. exfalso. lia.
    + exfalso. change (2 ^ (1 + 1)) with 4 in *. change (2 ^ 1) with 2 in *.
      lia.
Qed.

(** Multiplication by 100 of a number [mq * 2 ^ eq]: the product is
    within half a unit in the last place of the exact one. *)
Lemma SFmul_100 (mq : positive) (eq0 : Z) :
  2 ^ 52 <= Z.pos mq < 2 ^ 53 -> -1000 <= eq0 <= 900 ->
  exists (mr : positive) (jm : Z),
    SFmul prec emax (S754_finite false mq eq0) (S754_finite false hundred_m (-46))
      = S754_finite false mr (eq0 - 46 + jm)
    /\ 52 <= jm <= 54
    /\ 2 ^ 52 <= Z.pos mr < 2 ^ 53
    /\ - 2 ^ 53 <= 2 * (Z.pos mq * (100 * 2 ^ 46) - Z.pos mr * 2 ^ jm)
       <= 2 ^ 53
    /\ (Z.pos mq * 100 < 2 ^ 59 ->
        jm <= 53
        /\ - 2 ^ 52 <= 2 * (Z.pos mq * (100 * 2 ^ 46) - Z.pos mr * 2 ^ jm)
           <= 2 ^ 52).
Proof.
  intros Hmq Heq0. unfold SFmul. change (xorb false false) with false.
  rewrite Pos2Z.inj_mul. change (Z.pos hundred_m) with (100 * 2 ^ 46).
  change loc_Exact with (loc_of_frac 0 1).
  replace (eq0 + -46) with (eq0 - 46) by lia.
  set (P := Z.pos mq * (100 * 2 ^ 46)).
  assert (HP : 2 ^ 104 <= P < 2 ^ 106) by (unfold P; lia).
  destruct (Z_lt_le_dec P (2 ^ 105)) as [Hsmall|Hbig].
  - destruct (binary_round_aux_spec false P (eq0 - 46) 1 0 52
                ltac:(lia) ltac:(lia) ltac:(cbn; lia) ltac:(cbn; lia)
                ltac:(cbn; lia))
      as (mr & j & Hres & Hj & Hmr & Herr).
    exists mr, j. split; [exact Hres|].
    change (Z.of_nat 52) with 52 in Hj, Herr.
    destruct Hj as [->|[-> Hcarry]].
    + split; [lia|]. split; [exact Hmr|]. split; [lia|]. intros _. lia.
    + split; [lia|]. split; [exact Hmr|].
      change (52 + 1) with 53 in *. split; [lia|]. intros _. lia.
  - destruct (binary_round_aux_spec false P (eq0 - 46) 1 0 53
                ltac:(lia) ltac:(lia) ltac:(cbn; lia) ltac:(cbn; lia)
                ltac:(cbn; lia))
      as (mr & j & Hres & Hj & Hmr & Herr).
    exists mr, j. split; [exact Hres|].
    change (Z.of_nat 53) with 53 in Hj, Herr.
    destruct Hj as [->|[-> Hcarry]].
    + split; [lia|]. split; [exact Hmr|]. split; [lia|].
      intros Hlt. exfalso. unfold P in Hbig. lia.
    + split; [lia|]. split; [exact Hmr|].
      change (53 + 1) with 54 in *. split; [lia|].
      intros Hlt. exfalso. unfold P in Hbig. lia.
Qed.

(** ** The amount codec *)

Lemma Prim2SF_float64_of_int (n d : Z) :
  1 <= d <= 53 -> 2 ^ (d - 1) <= n < 2 ^ d ->
  exists m : positive,
    Prim2SF (float64_of_int n) = S754_finite false m (d - 53)
    /\ Z.pos m = n * 2 ^ (53 - d)
    /\ 2 ^ 52 <= Z.pos m < 2 ^ 53.
Proof.
  intros Hd Hn.
  destruct (binary_normalize_exact n d Hd Hn) as (m & Hnorm & Hm & Hrange).
  exists m. unfold float64_of_int. rewrite Hnorm.
  rewrite Prim2SF_SF2Prim by (apply valid_binary_53; lia).
  repeat split; assumption || lia.
Qed.

(** Converting an integer of at most 53 bits to [float64] and back
    changes nothing. *)
Lemma int64_of_float_float64_of_int (p : platform) (n d : Z) :
  1 <= d <= 53 -> 2 ^ (d - 1) <= n < 2 ^ d ->
  int64_of_float p (float64_of_int n) = n.
Proof.
  intros Hd Hn.
  destruct (Prim2SF_float64_of_int n d Hd Hn) as (m & Hsf & Hm & Hrange).
  unfold int64_of_float. rewrite Hsf. unfold trunc_finite.
  assert (Hpow : 0 < 2 ^ (53 - d)) by (apply Z.pow_pos_nonneg; lia).
  assert (Hn53 : n < 2 ^ 53).
  { assert (2 ^ d <= 2 ^ 53) by (apply Z.pow_le_mono_r; lia). lia. }
  assert (Hn0 : 0 <= n).
  { assert (0 < 2 ^ (d - 1)) by (apply Z.pow_pos_nonneg; lia). lia. }
  assert (Hval : (if 0 <=? d - 53 then Z.pos m * 2 ^ (d - 53)
                  else Z.pos m / 2 ^ (- (d - 53))) = n).
  { destruct (Z.leb_spec 0 (d - 53)) as [Hge|Hlt].
    - replace d with 53 in * by lia. change (2 ^ (53 - 53)) with 1 in *.
      cbn. lia.
    - replace (- (d - 53)) with (53 - d) by lia. rewrite Hm.
      apply Z.div_mul. lia. }
  rewrite Hval.
  replace ((int64_min <=? n) && (n <=? int64_max)) with true; [reflexivity|].
  symmetry. apply andb_true_intro. unfold int64_min, int64_max.
  split; apply Z.leb_le; lia.
Qed.

Lemma round_half_up_unique (mr S n : Z) :
  0 < S -> - S <= 2 * (mr - n * S) < S -> (2 * mr + S) / (2 * S) = n.
Proof.
  intros HS HE. symmetry.
  apply Z.div_unique with (r := 2 * (mr - n * S) + S); [left; lia|ring].
Qed.

(** Rounding and converting a float that lies within a half of the
    integer [n]. The float is [mr * 2 ^ (c - t)]; in units of [2 ^ - t]
    it is [mr * 2 ^ c], and [n] is [n * 2 ^ t]. *)
Lemma int64_of_Round_near (p : platform) (y : float) (mr : positive)
    (n d c : Z) :
  1 <= d <= 52 -> 2 ^ (d - 1) <= n < 2 ^ d -> 6 <= c <= 9 ->
  Prim2SF y = S754_finite false mr (c - (60 - d)) ->
  - 2 ^ (60 - d) < 2 * (Z.pos mr * 2 ^ c - n * 2 ^ (60 - d)) < 2 ^ (60 - d) ->
  int64_of_float p (Math.Round y) = n.
Proof.
  intros Hd Hn Hc Hy Hnear.
  set (t := 60 - d) in *.
  assert (Ht : 8 <= t <= 59) by (unfold t; lia).
  assert (Hn0 : 0 < n).
  { assert (0 < 2 ^ (d - 1)) by (apply Z.pow_pos_nonneg; lia). lia. }
  assert (Hn52 : n < 2 ^ 52).
  { assert (2 ^ d <= 2 ^ 52) by (apply Z.pow_le_mono_r; lia). lia. }
  unfold Math.Round. rewrite Hy.
  destruct (Z.leb_spec 0 (c - t)) as [Hge|Hlt].
  - unfold int64_of_float. rewrite Hy. unfold trunc_finite.
    replace (0 <=? c - t) with true by (symmetry; apply Z.leb_le; lia).
    assert (Hmr : Z.pos mr * 2 ^ (c - t) = n).
    { assert (Hpow : 2 ^ c = 2 ^ (c - t) * 2 ^ t).
      { rewrite <- Z.pow_add_r by lia. f_equal. lia. }
      assert (HT : 0 < 2 ^ t) by (apply Z.pow_pos_nonneg; lia).
      rewrite Hpow in Hnear. nia. }
    rewrite Hmr.
    replace ((int64_min <=? n) && (n <=? int64_max)) with true; [reflexivity|].
    symmetry. apply andb_true_intro. unfold int64_min, int64_max.
    split; apply Z.leb_le; lia.
  - set (S := 2 ^ (t - c)).
    assert (HS : 0 < S) by (apply Z.pow_pos_nonneg; lia).
    assert (HK : 0 < 2 ^ c) by (apply Z.pow_pos_nonneg; lia).
    assert (HST : 2 ^ t = S * 2 ^ c).
    { unfold S. rewrite <- Z.pow_add_r by lia. f_equal. lia. }
    replace (- (c - t)) with (t - c) by lia.
    replace (2 ^ (t - c + 1)) with (2 * S)
      by (unfold S; rewrite Z.pow_add_r by lia; change (2 ^ 1) with 2; ring).
    fold S.
    assert (Hq : (2 * Z.pos mr + S) / (2 * S) = n).
    { apply round_half_up_unique; [exact HS|].
      rewrite HST in Hnear. nia. }
    rewrite Hq.
    apply (int64_of_float_float64_of_int p n d); [lia|exact Hn].
Qed.

(** The amounts below [2 ^ 45], in cents: converting the cents to a
    major-unit amount and back gives the cents again. *)
Lemma priceFloat64ToInt64_priceInt64ToFloat64 (p : platform) (n : Z) :
  0 <= n < 100 * 2 ^ 45 ->
  priceFloat64ToInt64 p (priceInt64ToFloat64 n) = n.
Proof.
  intros Hn. destruct (Z.eq_dec n 0) as [->|Hn0].
  { destruct p; vm_compute; reflexivity. }
  set (d := Z.log2 n + 1).
  assert (Hnd : 2 ^ (d - 1) <= n < 2 ^ d).
  { unfold d. replace (Z.log2 n + 1 - 1) with (Z.log2 n) by lia.
    apply Z.log2_spec. lia. }
  assert (Hd : 1 <= d <= 52).
  { unfold d. pose proof (Z.log2_nonneg n).
    assert (Z.log2 n < 52) by (apply Z.log2_lt_pow2; lia). lia. }
  destruct (Prim2SF_float64_of_int n d ltac:(lia) Hnd)
    as (m0 & Hsf0 & Hm0 & Hr0).
  destruct (SFdiv_100 m0 (d - 53) Hr0 ltac:(lia))
    as (mq & jq & Hdiv & Hjq & Hrq & Herrq & Hfine).
  destruct (SFmul_100 mq (d - 53 - 7 + jq) Hrq ltac:(lia))
    as (mr & jm & Hmul & Hjm & Hrr & Herrm & Hfinem).
  unfold priceFloat64ToInt64, priceInt64ToFloat64.
  assert (Hy : Prim2SF (float64_of_int n / 100 * 100)%float
               = S754_finite false mr (jq + jm - 46 - (60 - d))).
  { rewrite mul_spec, div_spec, Hsf0, Prim2SF_100.
    unfold SF64mul, SF64div. rewrite Hdiv, Hmul. f_equal. lia. }
  apply (int64_of_Round_near p _ mr n d (jq + jm - 46) Hd Hnd);
    [lia|exact Hy|].
  assert (HN : n * 2 ^ (60 - d) = 128 * Z.pos m0).
  { rewrite Hm0. replace (60 - d) with (7 + (53 - d)) by lia.
    rewrite Z.pow_add_r by lia. change (2 ^ 7) with 128. ring. }
  rewrite HN.
  assert (Hq : jq = 0 \/ jq = 1) by lia.
  assert (Hm : jm = 52 \/ jm = 53 \/ jm = 54) by lia.
  destruct (Z_le_gt_dec d 51) as [Hd51|Hd52].
  - assert (HT : 2 ^ 9 <= 2 ^ (60 - d)) by (apply Z.pow_le_mono_r; lia).
    clear Hfine Hfinem.
    destruct Hq as [->| ->]; destruct Hm as [->|[->| ->]];
      cbn [Z.add Z.sub Z.opp Z.pos_sub Pos.add Pos.succ Z.succ_double
           Z.pred_double Z.double Pos.pred_double] in *;
      lia.
  - assert (HT : 2 ^ (60 - d) = 256)
      by (replace (60 - d) with 8 by lia; reflexivity).
    rewrite HT in *.
    assert (Hlt : 128 * Z.pos m0 < 100 * 2 ^ 53) by lia.
    destruct (Hfine Hlt) as [Herr50 Hcarry].
    destruct Hq as [->| ->].
    + clear Hfinem Hcarry.
      destruct Hm as [->|[->| ->]];
        cbn [Z.add Z.sub Z.opp Z.pos_sub Pos.add Pos.succ Z.succ_double
             Z.pred_double Z.double Pos.pred_double] in *;
        lia.
    + specialize (Hcarry eq_refl).
      destruct (Hfinem ltac:(lia)) as [Hjm53 Herr52].
      destruct Hm as [->|[->| ->]];
        cbn [Z.add Z.sub Z.opp Z.pos_sub Pos.add Pos.succ Z.succ_double
             Z.pred_double Z.double Pos.pred_double] in *;
        lia.
Qed.

(** The first amount that does not survive the round trip is
    35184372088832.02, two cents above [2 ^ 45]. *)
Lemma first_failure (p : platform) :
  priceFloat64ToInt64 p (priceInt64ToFloat64 (100 * 2 ^ 45 + 2))
    = 100 * 2 ^ 45 + 3.
Proof. destruct p; vm_compute; reflexivity. Qed.

(** A float that is not a NaN is [==] to itself. *)
Lemma eqb_refl_not_nan (x : float) :
  Prim2SF x <> S754_nan -> PrimFloat.eqb x x = true.
Proof.
  intros Hx. rewrite FloatAxioms.eqb_spec. unfold SFeqb, SFcompare.
  destruct (Prim2SF x) as [s|s| |s m e].
  - reflexivity.
  - destruct s; reflexivity.
  - contradiction.
  - destruct s; rewrite Z.compare_refl;
      change (Pos.compare_cont Eq m m) with (Pos.compare m m);
      rewrite Pos.compare_refl; reflexivity.
Qed.

(** The [float64] of an amount of [n] cents is the quotient that
    [priceInt64ToFloat64] computes. *)
Lemma amount_of_cents_priceInt64ToFloat64 (n : Z) :
  0 <= n < 2 ^ 53 -> amount_of_cents n = priceInt64ToFloat64 n.
Proof.
  intros Hn. unfold amount_of_cents, priceInt64ToFloat64.
  rewrite <- (SF2Prim_Prim2SF (float64_of_int n / 100)%float).
  rewrite div_spec. unfold SF64div.
  change (Prim2SF 100) with (binary_normalize prec emax 100 0 false).
  do 2 f_equal.
  unfold float64_of_int. symmetry. apply Prim2SF_SF2Prim.
  destruct (Z.eq_dec n 0) as [->|Hn0]; [reflexivity|].
  set (d := Z.log2 n + 1).
  assert (Hnd : 2 ^ (d - 1) <= n < 2 ^ d).
  { unfold d. replace (Z.log2 n + 1 - 1) with (Z.log2 n) by lia.
    apply Z.log2_spec. lia. }
  assert (Hd : 1 <= d <= 53).
  { unfold d. pose proof (Z.log2_nonneg n).
    assert (Z.log2 n < 53) by (apply Z.log2_lt_pow2; lia). lia. }
  destruct (binary_normalize_exact n d Hd Hnd) as (m & -> & _ & Hm).
  apply valid_binary_53; lia.
Qed.

Lemma priceInt64ToFloat64_not_nan (n : Z) :
  0 <= n < 2 ^ 53 -> Prim2SF (priceInt64ToFloat64 n) <> S754_nan.
Proof.
  intros Hn. destruct (Z.eq_dec n 0) as [->|Hn0].
  { vm_compute. discriminate. }
  set (d := Z.log2 n + 1).
  assert (Hnd : 2 ^ (d - 1) <= n < 2 ^ d).
  { unfold d. replace (Z.log2 n + 1 - 1) with (Z.log2 n) by lia.
    apply Z.log2_spec. lia. }
  assert (Hd : 1 <= d <= 53).
  { unfold d. pose proof (Z.log2_nonneg n).
    assert (Z.log2 n < 53) by (apply Z.log2_lt_pow2; lia). lia. }
  destruct (Prim2SF_float64_of_int n d Hd Hnd) as (m0 & Hsf0 & _ & Hr0).
  destruct (SFdiv_100 m0 (d - 53) Hr0 ltac:(lia)) as (mq & jq & Hdiv & _).
  unfold priceInt64ToFloat64.
  rewrite div_spec, Hsf0, Prim2SF_100. unfold SF64div. rewrite Hdiv.
  discriminate.
Qed.

(** *** C5 *)

(** C5, with the range it holds on. For every non-negative decimal
    amount with at most two fraction digits that is below [2 ^ 45]
    (35184372088832) major units, given by its number [n] of cents:
    [priceFloat64ToInt64] gives [n], and [priceInt64ToFloat64] of that
    gives the amount back, as the same float and for Go's [==]. *)
Theorem amount_round_trip (p : platform) (n : Z) :
  0 <= n < 100 * 2 ^ 45 ->
  priceFloat64ToInt64 p (amount_of_cents n) = n
  /\ priceInt64ToFloat64 (priceFloat64ToInt64 p (amount_of_cents n))
     = amount_of_cents n
  /\ PrimFloat.eqb
       (priceInt64ToFloat64 (priceFloat64ToInt64 p (amount_of_cents n)))
       (amount_of_cents n) = true.
Proof.
  intros Hn.
  rewrite amount_of_cents_priceInt64ToFloat64 by lia.
  rewrite priceFloat64ToInt64_priceInt64ToFloat64 by exact Hn.
  split; [reflexivity|]. split; [reflexivity|].
  apply eqb_refl_not_nan, priceInt64ToFloat64_not_nan. lia.
Qed.

(** The amount 99.99, which is 9999 cents. *)
Lemma amount_round_trip_witness :
  0 <= 9999 < 100 * 2 ^ 45
  /\ amount_of_cents 9999 = 99.99%float
  /\ priceFloat64ToInt64 amd64 (amount_of_cents 9999) = 9999
  /\ priceInt64ToFloat64 (priceFloat64ToInt64 amd64 (amount_of_cents 9999))
     = amount_of_cents 9999
  /\ PrimFloat.eqb
       (priceInt64ToFloat64 (priceFloat64ToInt64 amd64 (amount_of_cents 9999)))
       (amount_of_cents 9999) = true.
Proof.
  split; [lia|]. split; [vm_compute; reflexivity|].
  apply (amount_round_trip amd64 9999). lia.
Defined.

(** The amount 35184372088832.02, two cents above [2 ^ 45], does not
    survive the round trip. Its [float64] is [2 ^ 45 + 3 / 128]; a
    hundred times that, rounded to the [float64]s, which are a half
    apart there, is 3518437208883202.5; [math.Round] makes
    3518437208883203 of it, and 35184372088832.03 is another float. *)
Lemma amount_round_trip_counterexample :
  amount_of_cents 3518437208883202 = 35184372088832.02%float
  /\ Prim2SF 35184372088832.02%float
     = S754_finite false (2 ^ 52 + 3) (-7)
  /\ priceFloat64ToInt64 amd64 35184372088832.02%float = 3518437208883203
  /\ priceFloat64ToInt64 arm64 35184372088832.02%float = 3518437208883203
  /\ PrimFloat.eqb
       (priceInt64ToFloat64 (priceFloat64ToInt64 amd64 35184372088832.02%float))
       35184372088832.02%float = false
  /\ PrimFloat.eqb
       (priceInt64ToFloat64 (priceFloat64ToInt64 arm64 35184372088832.02%float))
       35184372088832.02%float = false.
Proof. repeat split; vm_compute; reflexivity. Qed.

(* ===================================================================== *)
(** * Properties of the rest of the package                              *)
(* ===================================================================== *)

(** ** More on the attachment string and on ids (util.go) *)

Lemma CountByte_0 (s : string) (c : ascii) :
  GoStrings.CountByte s c = 0%nat <-> Strings.ContainsByte s c = false.
Proof.
  induction s as [|d rest IH]; simpl; [tauto|].
  destruct (Ascii.eqb d c); simpl; [split; discriminate|exact IH].
Qed.

Lemma CountByte_app (s t : string) (c : ascii) :
  GoStrings.CountByte (s +:+ t) c = (GoStrings.CountByte s c + GoStrings.CountByte t c)%nat.
Proof.
  induction s as [|d rest IH]; simpl; [reflexivity|].
  destruct (Ascii.eqb d c); rewrite IH; reflexivity.
Qed.

Lemma Split_length (s : string) (sep : ascii) :
  length (Strings.Split s sep) = S (GoStrings.CountByte s sep).
Proof.
  induction s as [|c rest IH]; simpl; [reflexivity|].
  destruct (Ascii.eqb c sep); simpl; [rewrite IH; reflexivity|].
  destruct (Strings.Split rest sep) as [|tok toks]; simpl in *; lia.
Qed.

Lemma Join_cons_String (c : ascii) (tok sep : string) (toks : list string) :
  Strings.Join (String c tok :: toks) sep
  = String c (Strings.Join (tok :: toks) sep).
Proof. destruct toks; reflexivity. Qed.

Lemma Join_Split (s : string) (sep : ascii) :
  Strings.Join (Strings.Split s sep) (String sep "") = s.
Proof.
  induction s as [|c rest IH]; simpl; [reflexivity|].
  destruct (Ascii.eqb c sep) eqn:Hc.
  - apply Ascii.eqb_eq in Hc. subst c.
    pose proof (Split_not_nil rest sep) as Hne.
    destruct (Strings.Split rest sep) as [|tok toks]; [congruence|].
    change (Strings.Join ("" :: tok :: toks) (String sep ""))
      with (String sep (Strings.Join (tok :: toks) (String sep ""))).
    rewrite IH. reflexivity.
  - pose proof (Split_not_nil rest sep) as Hne.
    destruct (Strings.Split rest sep) as [|tok toks]; [congruence|].
    rewrite Join_cons_String, IH. reflexivity.
Qed.

Lemma Split_pieces (s : string) (sep : ascii) :
  Forall (fun tok => Strings.ContainsByte tok sep = false)
         (Strings.Split s sep).
Proof.
  induction s as [|c rest IH]; simpl.
  - repeat constructor.
  - destruct (Ascii.eqb c sep) eqn:Hc.
    + constructor; [reflexivity|exact IH].
    + destruct (Strings.Split rest sep) as [|tok toks].
      * repeat constructor. simpl. rewrite Hc. reflexivity.
      * inversion IH as [|? ? Htok Htoks]; subst.
        constructor; [|exact Htoks]. simpl. rewrite Hc, Htok. reflexivity.
Qed.

Lemma parseAttachString_wrong_count (s : string) :
  GoStrings.CountByte s "|" <> 2%nat ->
  parseAttachString s =
    ("", "", "",
     Some ("parseAttachString() error: len(tokens) expected 3, got: "
           +:+ Fmt.verb_d (S (GoStrings.CountByte s "|")))).
Proof.
  pose proof (Split_length s "|") as Hlen.
  unfold parseAttachString.
  destruct (Strings.Split s "|") as [|t0 [|t1 [|t2 [|t3 ts]]]];
    simpl in Hlen; simpl; intros Hc; try rewrite <- Hlen;
    try reflexivity; lia.
Qed.

(** X1. [parseAttachString] accepts exactly the strings with two ["|"].
    On every other string it returns three empty names and the error
    that tells the number of fields found, which is one more than the
    number of separators. *)
Theorem parseAttachString_two_separators (s : string) :
  (snd (parseAttachString s) = None <-> GoStrings.CountByte s "|" = 2%nat)
  /\ (GoStrings.CountByte s "|" <> 2%nat ->
      parseAttachString s =
        ("", "", "",
         Some ("parseAttachString() error: len(tokens) expected 3, got: "
               +:+ Fmt.verb_d (S (GoStrings.CountByte s "|"))))).
Proof.
  pose proof (Split_length s "|") as Hlen.
  unfold parseAttachString.
  destruct (Strings.Split s "|") as [|t0 [|t1 [|t2 [|t3 ts]]]];
    simpl in Hlen; simpl; (split; [split|]);
    try discriminate; try lia; intros; try rewrite <- Hlen;
    try reflexivity; try lia.
Qed.

(** X2. What [parseAttachString] accepts, [joinAttachString] gives
    back: when a string parses into three fields, joining the three
    fields is the string again, and none of the fields has a ["|"]. *)
Theorem joinAttachString_parseAttachString (s a b c : string) :
  parseAttachString s = (a, b, c, None) ->
  joinAttachString [a; b; c] = s
  /\ Strings.ContainsByte a "|" = false
  /\ Strings.ContainsByte b "|" = false
  /\ Strings.ContainsByte c "|" = false.
Proof.
  intros Hparse. unfold parseAttachString in Hparse.
  pose proof (Join_Split s "|") as Hjoin.
  pose proof (Split_pieces s "|") as Hpieces.
  destruct (Strings.Split s "|") as [|t0 [|t1 [|t2 [|t3 ts]]]];
    try discriminate Hparse.
  injection Hparse as -> -> ->.
  split; [exact Hjoin|].
  apply Forall_cons in Hpieces as [Ha Hrest].
  apply Forall_cons in Hrest as [Hb Hrest].
  apply Forall_cons in Hrest as [Hc _].
  auto.
Qed.

Lemma joinAttachString_parseAttachString_witness :
  joinAttachString ["book"; ""; "pay|pal"] = "book||pay|pal"
  /\ parseAttachString "A book|book|stripe" = ("A book", "book", "stripe", None)
  /\ joinAttachString ["A book"; "book"; "stripe"] = "A book|book|stripe"
  /\ Strings.ContainsByte "A book" "|" = false
  /\ Strings.ContainsByte "book" "|" = false
  /\ Strings.ContainsByte "stripe" "|" = false.
Proof.
  split; [reflexivity|]. split; [reflexivity|].
  apply (joinAttachString_parseAttachString "A book|book|stripe").
  reflexivity.
Defined.

(** X3. [GetOwnerAndNameFromId] returns the pair of an owner and a
    name exactly for the ids made of the owner, one ["/"] and the name,
    neither of which has a ["/"]. These are the ids with one ["/"]; an
    id with none or with more than one makes the call panic, with the
    message that ends in the id. *)
Theorem GetOwnerAndNameFromId_one_slash (id : string) :
  (forall owner name,
     GetOwnerAndNameFromId id = Val (owner, name) <->
     id = owner +:+ "/" +:+ name
     /\ Strings.ContainsByte owner "/" = false
     /\ Strings.ContainsByte name "/" = false)
  /\ (GoStrings.CountByte id "/" = 1%nat <->
      exists owner name, GetOwnerAndNameFromId id = Val (owner, name))
  /\ (GoStrings.CountByte id "/" <> 1%nat ->
      GetOwnerAndNameFromId id =
        Panic ("GetOwnerAndNameFromId() error, wrong token count for ID: "
               +:+ id)).
Proof.
  pose proof (Split_length id "/") as Hlen.
  pose proof (Join_Split id "/") as Hjoin.
  pose proof (Split_pieces id "/") as Hpieces.
  split; [|split].
  - intros owner name. split.
    + unfold GetOwnerAndNameFromId.
      destruct (Strings.Split id "/") as [|t0 [|t1 [|t2 ts]]];
        try discriminate.
      intros [= -> ->].
      split; [symmetry; exact Hjoin|].
      apply Forall_cons in Hpieces as [Ha Hrest].
      apply Forall_cons in Hrest as [Hb _].
      auto.
    + intros (-> & Ho & Hn). unfold GetOwnerAndNameFromId.
      change (owner +:+ "/" +:+ name)
        with (Strings.Join [owner; name] (String "/" "")).
      rewrite Split_Join; [reflexivity|discriminate|].
      repeat constructor; assumption.
  - unfold GetOwnerAndNameFromId.
    destruct (Strings.Split id "/") as [|t0 [|t1 [|t2 ts]]];
      simpl in Hlen; split;
      try (intros Hc; exfalso; lia);
      try (intros (o & n & Hc); discriminate Hc).
    + intros _. exists t0, t1. reflexivity.
    + intros _. lia.
  - intros Hc. unfold GetOwnerAndNameFromId.
    destruct (Strings.Split id "/") as [|t0 [|t1 [|t2 ts]]];
      simpl in Hlen; try reflexivity.
    exfalso. lia.
Qed.

(** X4. A ["|"] in one of the three names breaks the attachment:
    joined and parsed again, the names do not come back; the result is
    the error that counts three fields and one more for every ["|"] in
    the names. *)
Theorem joinAttachString_separator_in_token (a b c : string) :
  Strings.ContainsByte a "|" = true
  \/ Strings.ContainsByte b "|" = true
  \/ Strings.ContainsByte c "|" = true ->
  parseAttachString (joinAttachString [a; b; c]) =
    ("", "", "",
     Some ("parseAttachString() error: len(tokens) expected 3, got: "
           +:+ Fmt.verb_d (3 + GoStrings.CountByte a "|" + GoStrings.CountByte b "|"
                           + GoStrings.CountByte c "|"))).
Proof.
  intros Hsep.
  assert (Hcount : GoStrings.CountByte (joinAttachString [a; b; c]) "|"
                   = (2 + GoStrings.CountByte a "|" + GoStrings.CountByte b "|"
                      + GoStrings.CountByte c "|")%nat).
  { unfold joinAttachString. simpl Strings.Join.
    rewrite !CountByte_app. simpl. lia. }
  assert (Hpos : (GoStrings.CountByte a "|" + GoStrings.CountByte b "|" + GoStrings.CountByte c "|" <> 0)%nat).
  { intros H0.
    assert (Ha : GoStrings.CountByte a "|" = 0%nat) by lia.
    assert (Hb : GoStrings.CountByte b "|" = 0%nat) by lia.
    assert (Hc : GoStrings.CountByte c "|" = 0%nat) by lia.
    apply CountByte_0 in Ha, Hb, Hc.
    destruct Hsep as [H|[H|H]]; congruence. }
  rewrite parseAttachString_wrong_count by lia. rewrite Hcount. do 3 f_equal.
Qed.

Lemma joinAttachString_separator_in_token_witness :
  parseAttachString (joinAttachString ["book"; "A|B"; "stripe"]) =
    ("", "", "",
     Some "parseAttachString() error: len(tokens) expected 3, got: 4").
Proof.
  apply (joinAttachString_separator_in_token "book" "A|B" "stripe").
  right. left. reflexivity.
Defined.

(** ** Printing a price, drawing a random string (util.go) *)

Lemma TrimRight_snoc_other (s : string) (c d : ascii) :
  d <> c ->
  GoStrings.TrimRight (s +:+ String d "") c = s +:+ String d "".
Proof.
  intros Hd. induction s as [|x s IH]; simpl.
  - rewrite (proj2 (Ascii.eqb_neq d c) Hd). reflexivity.
  - rewrite IH. destruct s; reflexivity.
Qed.

Lemma TrimRight_snoc_same (s : string) (c : ascii) :
  GoStrings.TrimRight (s +:+ String c "") c = GoStrings.TrimRight s c.
Proof.
  induction s as [|x s IH]; simpl.
  - rewrite Ascii.eqb_refl. reflexivity.
  - rewrite IH. reflexivity.
Qed.

Lemma TrimRight_without (s : string) (c : ascii) :
  Strings.ContainsByte s c = false -> GoStrings.TrimRight s c = s.
Proof.
  induction s as [|x s IH]; simpl; intros Hno; [reflexivity|].
  apply orb_false_elim in Hno as [Hx Hs]. rewrite (IH Hs).
  destruct s; [rewrite Hx|]; reflexivity.
Qed.

Lemma string_app_assoc (a b c : string) :
  (a +:+ b) +:+ c = a +:+ (b +:+ c).
Proof.
  induction a as [|x a IH]; [reflexivity|].
  change (String x ((a +:+ b) +:+ c) = String x (a +:+ (b +:+ c))).
  f_equal. exact IH.
Qed.

Section PriceString.
Context `{!GoFmt}.

(** X5. [getPriceString] on a price that [%.2f] prints as an integer
    part [ip], a point and two digits [d1 d2]: the two fraction digits
    lose their trailing zeros, and the point goes when both are zero.
    The zeros of the integer part stay, since the first trim stops at
    the point: 100.00 gives 100, not 1. *)
Theorem getPriceString_trims (price : float) (ip : string) (d1 d2 : ascii) :
  fmt_Sprintf_2f price = ip +:+ "." +:+ String d1 (String d2 "") ->
  Strings.ContainsByte ip "." = false ->
  d1 <> "."%char -> d2 <> "."%char ->
  getPriceString price =
    if Ascii.eqb d2 "0" then
      if Ascii.eqb d1 "0" then ip else ip +:+ "." +:+ String d1 ""
    else ip +:+ "." +:+ String d1 (String d2 "").
Proof.
  intros Hfmt Hip Hd1 Hd2. unfold getPriceString. rewrite Hfmt.
  replace (ip +:+ "." +:+ String d1 (String d2 ""))
    with (((ip +:+ ".") +:+ String d1 "") +:+ String d2 "")
    by (rewrite !string_app_assoc; reflexivity).
  destruct (Ascii.eqb d2 "0") eqn:E2.
  - apply Ascii.eqb_eq in E2. subst d2. rewrite TrimRight_snoc_same.
    destruct (Ascii.eqb d1 "0") eqn:E1.
    + apply Ascii.eqb_eq in E1. subst d1. rewrite TrimRight_snoc_same.
      rewrite TrimRight_snoc_other by discriminate.
      rewrite TrimRight_snoc_same. apply TrimRight_without. exact Hip.
    + apply Ascii.eqb_neq in E1.
      rewrite TrimRight_snoc_other by exact E1.
      rewrite TrimRight_snoc_other by exact Hd1.
      rewrite !string_app_assoc. reflexivity.
  - apply Ascii.eqb_neq in E2.
    rewrite TrimRight_snoc_other by exact E2.
    rewrite TrimRight_snoc_other by exact Hd2.
    rewrite !string_app_assoc. reflexivity.
Qed.

End PriceString.

Lemma getPriceString_trims_witness :
  getPriceString (H := Doubles.fmt) 100 = "100"
  /\ getPriceString (H := Doubles.fmt) 10.5 = "10.5"
  /\ getPriceString (H := Doubles.fmt) 99.99 = "99.99".
Proof.
  split; [|split].
  - apply (getPriceString_trims (H := Doubles.fmt) 100 "100" "0" "0");
      first [reflexivity | discriminate].
  - apply (getPriceString_trims (H := Doubles.fmt) 10.5 "10" "5" "0");
      first [reflexivity | discriminate].
  - apply (getPriceString_trims (H := Doubles.fmt) 99.99 "99" "9" "9");
      first [reflexivity | discriminate].
Defined.


Section RandomString.
Context {W : Type} `{!GoRuntime} `{!Clock W} `{!Rand}.


End RandomString.


(** ** What [Notify] does at the edges of its input *)

Lemma form_value_has_field (m : gmap string (list string)) (key : string) :
  has_field m key = true ->
  exists v, GcPaymentProvider.form_value m key = Val v.
Proof.
  unfold has_field, GcPaymentProvider.form_value.
  destruct (m !! key) as [[|v vs]|]; try discriminate.
  intros _. exists v. reflexivity.
Qed.

Lemma form_value_no_field (m : gmap string (list string)) (key : string) :
  has_field m key = false ->
  GcPaymentProvider.form_value m key
  = Panic "index out of range [0] with length 0".
Proof.
  unfold has_field, GcPaymentProvider.form_value.
  destruct (m !! key) as [[|v vs]|]; try discriminate; reflexivity.
Qed.

Section GcEdges.
Context {W : Type} `{!GoLib}.

(** X7. GC's [Notify] reads nothing of a notification but its [data]
    field: the values of [op], [xmpch], [version], [requesttime] and
    [sign] only have to be there. Two notifications with the same [data]
    get the same answer, whatever their signatures, and whatever the
    merchant number and the secret key of the provider: the signature
    is not checked. *)
Theorem Gc_Notify_reads_data_only (pp pp' : GcPaymentProvider.t)
    (body body' orderId : string) (m m' : gmap string (list string))
    (w : W) :
  url_ParseQuery body = inr m ->
  url_ParseQuery body' = inr m' ->
  (forall key, In key gc_fields ->
               has_field m key = true /\ has_field m' key = true) ->
  GcPaymentProvider.form_value m "data"
  = GcPaymentProvider.form_value m' "data" ->
  GcPaymentProvider.Notify pp body orderId w
  = GcPaymentProvider.Notify pp' body' orderId w.
Proof.
  intros Hm Hm' Hfields Hdata.
  unfold GcPaymentProvider.Notify, GcPaymentProvider.decode_body.
  unfold bind at 1 2. unfold lift at 1 2. rewrite Hm, Hm'.
  cbn [of_pair].
  assert (Hval : forall key, In key gc_fields ->
            (exists v, GcPaymentProvider.form_value m key = Val v)
            /\ (exists v, GcPaymentProvider.form_value m' key = Val v)).
  { intros key Hin. destruct (Hfields key Hin) as [H1 H2].
    split; apply form_value_has_field; assumption. }
  destruct (Hval "op") as [[v1 E1] [v1' E1']]; [simpl; tauto|].
  destruct (Hval "xmpch") as [[v2 E2] [v2' E2']]; [simpl; tauto|].
  destruct (Hval "version") as [[v3 E3] [v3' E3']]; [simpl; tauto|].
  destruct (Hval "data") as [[v4 E4] [v4' E4']]; [simpl; tauto|].
  destruct (Hval "requesttime") as [[v5 E5] [v5' E5']]; [simpl; tauto|].
  destruct (Hval "sign") as [[v6 E6] [v6' E6']]; [simpl; tauto|].
  assert (v4 = v4') by congruence. subst v4'.
  unfold bind, lift.
  rewrite E1, E2, E3, E4, E5, E6, E1', E2', E3', E4', E5', E6'.
  reflexivity.
Qed.

(** X8. A GC notification that lacks one of the six fields makes
    [Notify] panic, the unused signature included: the fields are read
    by index with no check. The world is left as it is. *)
Theorem Gc_Notify_missing_field (pp : GcPaymentProvider.t)
    (body orderId : string) (m : gmap string (list string)) (key : string)
    (w : W) :
  url_ParseQuery body = inr m ->
  In key gc_fields ->
  has_field m key = false ->
  panics (fst (GcPaymentProvider.Notify pp body orderId w))
  /\ snd (GcPaymentProvider.Notify pp body orderId w) = w.
Proof.
  intros Hm Hin Hno.
  unfold GcPaymentProvider.Notify, GcPaymentProvider.decode_body.
  unfold bind at 1 2. unfold lift at 1 2. rewrite Hm. cbn [of_pair].
  unfold bind, lift.
  destruct (has_field m "op") eqn:F1;
    [destruct (form_value_has_field _ _ F1) as [v1 ->]
    |rewrite (form_value_no_field _ _ F1); split; [eexists|]; reflexivity].
  destruct (has_field m "xmpch") eqn:F2;
    [destruct (form_value_has_field _ _ F2) as [v2 ->]
    |rewrite (form_value_no_field _ _ F2); split; [eexists|]; reflexivity].
  destruct (has_field m "version") eqn:F3;
    [destruct (form_value_has_field _ _ F3) as [v3 ->]
    |rewrite (form_value_no_field _ _ F3); split; [eexists|]; reflexivity].
  destruct (has_field m "data") eqn:F4;
    [destruct (form_value_has_field _ _ F4) as [v4 ->]
    |rewrite (form_value_no_field _ _ F4); split; [eexists|]; reflexivity].
  destruct (has_field m "requesttime") eqn:F5;
    [destruct (form_value_has_field _ _ F5) as [v5 ->]
    |rewrite (form_value_no_field _ _ F5); split; [eexists|]; reflexivity].
  destruct (has_field m "sign") eqn:F6;
    [destruct (form_value_has_field _ _ F6) as [v6 ->]
    |rewrite (form_value_no_field _ _ F6); split; [eexists|]; reflexivity].
  exfalso. simpl in Hin.
  destruct Hin as [<-|[<-|[<-|[<-|[<-|[<-|[]]]]]]]; congruence.
Qed.

End GcEdges.

Lemma Gc_Notify_reads_data_only_witness :
  GcPaymentProvider.Notify (W := unit) (H := Doubles.lib) Mock.gc_pp
    (Mock.gc_body "cGFpZA==") "order_1" tt
  = GcPaymentProvider.Notify (W := unit) (H := Doubles.lib)
      {| GcPaymentProvider.Xmpch := "9999";
         GcPaymentProvider.SecretKey := "";
         GcPaymentProvider.Host := "" |}
      Doubles.gc_forged_body "order_1" tt.
Proof.
  apply (Gc_Notify_reads_data_only (W := unit) (H := Doubles.lib) _ _ _ _ _
           (Mock.gc_form "cGFpZA==") Doubles.gc_forged_form tt);
    try reflexivity.
  intros key Hin. unfold gc_fields in Hin. simpl in Hin.
  destruct Hin as [<-|[<-|[<-|[<-|[<-|[<-|[]]]]]]]; split; reflexivity.
Defined.

Lemma Gc_Notify_missing_field_witness :
  panics (fst (GcPaymentProvider.Notify (W := unit) (H := Doubles.lib)
                 Mock.gc_pp Doubles.gc_unsigned_body "order_1" tt))
  /\ snd (GcPaymentProvider.Notify (W := unit) (H := Doubles.lib)
            Mock.gc_pp Doubles.gc_unsigned_body "order_1" tt) = tt.
Proof.
  apply (Gc_Notify_missing_field (W := unit) (H := Doubles.lib) Mock.gc_pp
           _ _ Doubles.gc_unsigned_form "sign" tt);
    [reflexivity| |reflexivity].
  unfold gc_fields. simpl. tauto.
Defined.

Section PaypalEdges.
Context {W : Type} `{!GoLib} `{!paypal.SDK W}.

(** X9. What PayPal's [Notify] makes of a capture that the vendor
    refuses. It looks at the first detail of the error only. The issue
    ["ORDER_NOT_APPROVED"] gives the result [Canceled] with the vendor's
    description as message, and the order is not looked up; the issue
    ["ORDER_ALREADY_CAPTURED"] is passed over, and the order's details
    decide; every other issue is returned as an error whose text comes
    from the description. A refusal that carries no detail makes
    [Notify] panic. *)
Theorem Paypal_Notify_refused_capture (pp : PaypalPaymentProvider.t)
    (body orderId : string) (w w1 : W) (rsp : paypal.Rsp) :
  paypal.OrderCapture (PaypalPaymentProvider.Client pp) orderId w
    = (Val rsp, w1) ->
  paypal.Code rsp <> paypal.Success ->
  (forall er d ds,
     paypal.ErrorResponse_ rsp = Some er -> paypal.Details er = d :: ds ->
     (paypal.Issue d = "ORDER_NOT_APPROVED" ->
      PaypalPaymentProvider.Notify pp body orderId w =
        (Val (NotifyResult.setNotifyMessage
                (NotifyResult.setPaymentStatus NotifyResult.zero
                   PaymentStateCanceled)
                (paypal.Description d)), w1))
     /\ (paypal.Issue d = "ORDER_ALREADY_CAPTURED" ->
         PaypalPaymentProvider.Notify pp body orderId w =
           PaypalPaymentProvider.notify_detail pp orderId w1)
     /\ (paypal.Issue d <> "ORDER_NOT_APPROVED" ->
         paypal.Issue d <> "ORDER_ALREADY_CAPTURED" ->
         PaypalPaymentProvider.Notify pp body orderId w =
           (Err (fmt_Sprintf0 (paypal.Description d)), w1)))
  /\ (paypal.ErrorResponse_ rsp = None
      \/ (exists er, paypal.ErrorResponse_ rsp = Some er
                     /\ paypal.Details er = []) ->
      panics (fst (PaypalPaymentProvider.Notify pp body orderId w))
      /\ snd (PaypalPaymentProvider.Notify pp body orderId w) = w1).
Proof.
  intros Hc Hcode.
  assert (Hne : negb (paypal.Code rsp =? paypal.Success) = true).
  { apply negb_true_iff, Z.eqb_neq. exact Hcode. }
  unfold PaypalPaymentProvider.Notify.
  rewrite (bind_Val _ _ _ _ _ Hc), Hne.
  unfold PaypalPaymentProvider.first_detail.
  split.
  - intros er d ds Her Hds. rewrite Her. cbn [deref]. rewrite Hds.
    cbn [index0]. rewrite bind_lift_Val.
    repeat split.
    + intros Hi. rewrite Hi. reflexivity.
    + intros Hi. rewrite Hi. reflexivity.
    + intros Hn Ha. switch_on_strings. reflexivity.
  - intros [Hnone|[er [Her Hds]]].
    + rewrite Hnone. split; [eexists|]; reflexivity.
    + rewrite Her. cbn [deref]. rewrite Hds.
      split; [eexists|]; reflexivity.
Qed.

(** X10. PayPal's [Notify] is strict about the description of the
    first purchase unit: when it does not split into three fields the
    call fails with the parse error, although the order has been
    captured, and whatever the order's status is, ["COMPLETED"]
    included. *)
Theorem Paypal_Notify_malformed_description (pp : PaypalPaymentProvider.t)
    (body orderId : string) (w w1 w2 : W) (capture detail : paypal.Rsp)
    (order : paypal.OrderDetail) (unit0 : paypal.PurchaseUnit)
    (units : list paypal.PurchaseUnit) (amount : paypal.Amount)
    (price : float) :
  paypal.OrderCapture (PaypalPaymentProvider.Client pp) orderId w
    = (Val capture, w1) ->
  capture_passes capture = true ->
  paypal.OrderDetail_ (PaypalPaymentProvider.Client pp) orderId w1
    = (Val detail, w2) ->
  paypal.Code detail = paypal.Success ->
  paypal.Response detail = Some order ->
  paypal.PurchaseUnits order = unit0 :: units ->
  paypal.Amount_ unit0 = Some amount ->
  strconv_ParseFloat (paypal.Value amount) = inr price ->
  GoStrings.CountByte (paypal.Description_ unit0) "|" <> 2%nat ->
  PaypalPaymentProvider.Notify pp body orderId w =
    (Err ("parseAttachString() error: len(tokens) expected 3, got: "
          +:+ Fmt.verb_d
                (S (GoStrings.CountByte (paypal.Description_ unit0) "|"))),
     w2).
Proof.
  intros Hc Hpass Hd Hcode Hrsp Hunits Hamount Hprice Hcount.
  rewrite (Paypal_Notify_after_capture pp body orderId w w1 capture Hc Hpass).
  unfold PaypalPaymentProvider.notify_detail.
  rewrite (bind_Val _ _ _ _ _ Hd), Hcode, Hrsp.
  cbn [Z.eqb paypal.Success negb deref]. rewrite bind_lift_Val, Hunits.
  cbn [index0]. rewrite bind_lift_Val, Hamount.
  cbn [deref]. rewrite bind_lift_Val, Hprice.
  cbn [of_pair]. rewrite bind_lift_Val.
  rewrite (parseAttachString_wrong_count _ Hcount). reflexivity.
Qed.

End PaypalEdges.

Lemma Paypal_Notify_refused_capture_witness :
  panics (fst (PaypalPaymentProvider.Notify (H := Mock.lib)
                 (H0 := Doubles.paypal_scripted) Doubles.paypal_scripted_pp
                 "" "o1"
                 (Doubles.paypal_unauthorized, Doubles.paypal_unauthorized)))
  /\ PaypalPaymentProvider.Notify (H := Mock.lib)
       (H0 := Doubles.paypal_scripted) Doubles.paypal_scripted_pp "" "o1"
       (Mock.paypal_failure "ORDER_NOT_APPROVED" "Payer has not approved.",
        Doubles.paypal_unauthorized)
     = (Val (NotifyResult.setNotifyMessage
               (NotifyResult.setPaymentStatus NotifyResult.zero
                  PaymentStateCanceled) "Payer has not approved."),
        (Mock.paypal_failure "ORDER_NOT_APPROVED" "Payer has not approved.",
         Doubles.paypal_unauthorized)).
Proof.
  split.
  - destruct (@Paypal_Notify_refused_capture Doubles.paypal_script Mock.lib
                Doubles.paypal_scripted Doubles.paypal_scripted_pp "" "o1"
                (Doubles.paypal_unauthorized, Doubles.paypal_unauthorized)
                (Doubles.paypal_unauthorized, Doubles.paypal_unauthorized)
                Doubles.paypal_unauthorized eq_refl ltac:(discriminate))
      as [_ Hpanic].
    apply Hpanic. right. eexists. split; reflexivity.
  - destruct (@Paypal_Notify_refused_capture Doubles.paypal_script Mock.lib
                Doubles.paypal_scripted Doubles.paypal_scripted_pp "" "o1"
                (Mock.paypal_failure "ORDER_NOT_APPROVED"
                   "Payer has not approved.", Doubles.paypal_unauthorized)
                (Mock.paypal_failure "ORDER_NOT_APPROVED"
                   "Payer has not approved.", Doubles.paypal_unauthorized)
                (Mock.paypal_failure "ORDER_NOT_APPROVED"
                   "Payer has not approved.")
                eq_refl ltac:(discriminate))
      as [Hdetail _].
    destruct (Hdetail _ _ _ eq_refl eq_refl) as [Hna _].
    apply Hna. reflexivity.
Defined.

Lemma Paypal_Notify_malformed_description_witness :
  PaypalPaymentProvider.Notify (H := Mock.lib)
    (H0 := Doubles.paypal_scripted) Doubles.paypal_scripted_pp "" "o1"
    (Doubles.paypal_completed "A book", Doubles.paypal_completed "A book")
  = (Err "parseAttachString() error: len(tokens) expected 3, got: 1",
     (Doubles.paypal_completed "A book", Doubles.paypal_completed "A book")).
Proof.
  apply (@Paypal_Notify_malformed_description Doubles.paypal_script Mock.lib
           Doubles.paypal_scripted Doubles.paypal_scripted_pp "" "o1"
           (Doubles.paypal_completed "A book", Doubles.paypal_completed "A book")
           (Doubles.paypal_completed "A book", Doubles.paypal_completed "A book")
           (Doubles.paypal_completed "A book", Doubles.paypal_completed "A book")
           (Doubles.paypal_completed "A book")
           (Doubles.paypal_completed "A book")
           {| paypal.Id := "o1"; paypal.Status := "COMPLETED";
              paypal.PurchaseUnits :=
                [{| paypal.Amount_ :=
                      Some {| paypal.CurrencyCode := "USD";
                              paypal.Value := "99.99" |};
                    paypal.Description_ := "A book" |}] |}
           {| paypal.Amount_ :=
                Some {| paypal.CurrencyCode := "USD";
                        paypal.Value := "99.99" |};
              paypal.Description_ := "A book" |}
           []
           {| paypal.CurrencyCode := "USD"; paypal.Value := "99.99" |}
           99.99%float);
    first [reflexivity | discriminate].
Defined.

Section StripeEdges.
Context {W : Type} `{!stripe.SDK W}.

(** X11. Stripe's [Notify] is lenient about the product description: a
    session that is complete and paid is reported [Paid], with the
    amount and the currency of its payment intent, also when its
    metadata has no ["product_description"] or one that does not split
    into three fields; the three names of the result are then empty. *)
Theorem Stripe_Notify_paid_without_names (pp : StripePaymentProvider.t)
    (body orderId : string) (w w1 w2 : W)
    (session : stripe.CheckoutSession) (ref intent : stripe.PaymentIntent) :
  stripe.checkout_session_Get orderId w = (Val session, w1) ->
  stripe.Status session = "complete" ->
  stripe.PaymentStatus session = "paid" ->
  stripe.PaymentIntent_ session = Some ref ->
  stripe.paymentintent_Get (stripe.ID ref) w1 = (Val intent, w2) ->
  stripe.Metadata session !! "product_description" = None
  \/ (exists description,
        stripe.Metadata session !! "product_description" = Some description
        /\ GoStrings.CountByte description "|" <> 2%nat) ->
  StripePaymentProvider.Notify pp body orderId w =
    (Val {| NotifyResult.PaymentName := stripe.ClientReferenceID session;
            NotifyResult.PaymentStatus := PaymentStatePaid;
            NotifyResult.NotifyMessage := "";
            NotifyResult.ProductName := "";
            NotifyResult.ProductDisplayName := "";
            NotifyResult.ProviderName := "";
            NotifyResult.Price := priceInt64ToFloat64 (stripe.Amount intent);
            NotifyResult.Currency := stripe.Currency intent;
            NotifyResult.OrderId := orderId |}, w2).
Proof.
  intros Hs Hst Hpst Href Hi Hmeta.
  unfold StripePaymentProvider.Notify.
  rewrite (bind_Val _ _ _ _ _ Hs), Hst, Hpst, Href.
  cbn [String.eqb Ascii.eqb Bool.eqb deref]. rewrite bind_lift_Val.
  rewrite (bind_Val _ _ _ _ _ Hi).
  destruct Hmeta as [->|[description [-> Hcount]]]; [reflexivity|].
  rewrite (parseAttachString_wrong_count _ Hcount). reflexivity.
Qed.

End StripeEdges.

Lemma Stripe_Notify_paid_without_names_witness :
  StripePaymentProvider.Notify (H := Mock.stripe_sdk) Mock.stripe_pp ""
    "cs_1" Doubles.stripe_bare
  = (Val {| NotifyResult.PaymentName := "order_1";
            NotifyResult.PaymentStatus := PaymentStatePaid;
            NotifyResult.NotifyMessage := "";
            NotifyResult.ProductName := "";
            NotifyResult.ProductDisplayName := "";
            NotifyResult.ProviderName := "";
            NotifyResult.Price := priceInt64ToFloat64 9999;
            NotifyResult.Currency := "usd";
            NotifyResult.OrderId := "cs_1" |}, Doubles.stripe_bare).
Proof.
  apply (@Stripe_Notify_paid_without_names Mock.stripe_world Mock.stripe_sdk
           Mock.stripe_pp "" "cs_1" Doubles.stripe_bare Doubles.stripe_bare
           Doubles.stripe_bare (fst Doubles.stripe_bare)
           (snd Doubles.stripe_bare) (snd Doubles.stripe_bare));
    try reflexivity.
  left. reflexivity.
Defined.

Section AmountEdges.
Context {Wa Wx : Type} `{!GoLib} `{!alipay.SDK Wa} `{!AirwallexAPI Wx}.

(** X12. The amount of a paid trade is parsed with
    [priceStringToFloat64], which panics on a string that is not a
    number. So Alipay's [Notify] panics on a ["TRADE_SUCCESS"] trade
    whose [total_amount] does not parse, and Airwallex's [Notify]
    panics on a succeeded intent whose [amount] does not parse; the
    panic carries the parse error. *)
Theorem Notify_unparsable_amount_panics :
  (forall (pp : AlipayPaymentProvider.t) body orderId (w w1 : Wa)
          aliRsp rsp e,
     alipay.TradeQuery (AlipayPaymentProvider.Client pp)
       (<[ "out_trade_no" := orderId ]> ∅) w = (Val aliRsp, w1) ->
     alipay.Response aliRsp = Some rsp ->
     alipay.TradeStatus rsp = "TRADE_SUCCESS" ->
     strconv_ParseFloat (alipay.TotalAmount rsp) = inl e ->
     AlipayPaymentProvider.Notify pp body orderId w = (Panic e, w1))
  /\ (forall (pp : AirwallexPaymentProvider.t) body orderId (w w1 : Wx)
             intent e,
        GetIntentByOrderId (AirwallexPaymentProvider.Client pp) orderId w
          = (Val intent, w1) ->
        AirWallexIntentInfo.Status intent = "SUCCEEDED" ->
        In (AirWallexIntentInfo.PaymentStatus intent) [""; "PAID"; "SETTLED"] ->
        AirWallexIntentInfo.Metadata intent !! "description"
          <> Some AnyOther ->
        strconv_ParseFloat (AirWallexIntentInfo.Amount intent) = inl e ->
        AirwallexPaymentProvider.Notify pp body orderId w = (Panic e, w1)).
Proof.
  split.
  - intros pp body orderId w w1 aliRsp rsp e Hq Hrsp Hst Hamount.
    unfold AlipayPaymentProvider.Notify.
    unfold bind at 1. unfold attempt. rewrite Hq, Hrsp.
    cbn [deref]. rewrite bind_lift_Val, Hst.
    cbn [String.eqb Ascii.eqb Bool.eqb].
    destruct (parseAttachString (alipay.Subject rsp)) as [[[a b] c] err].
    unfold priceStringToFloat64. rewrite Hamount. reflexivity.
  - intros pp body orderId w w1 intent e Hq Hst Hpst Hmeta Hamount.
    unfold AirwallexPaymentProvider.Notify.
    rewrite (bind_Val _ _ _ _ _ Hq), Hst.
    cbn [one_of existsb String.eqb Ascii.eqb Bool.eqb orb].
    assert (Hpaid : AirwallexPaymentProvider.notify_paid intent w1
                    = (Panic e, w1)).
    { unfold AirwallexPaymentProvider.notify_paid.
      destruct (AirWallexIntentInfo.Metadata intent !! "description")
        as [[description|]|]; [| congruence |].
      - destruct (parseAttachString description) as [[[a b] c] err].
        unfold bind, ret, lift, priceStringToFloat64.
        rewrite Hamount. reflexivity.
      - unfold bind, ret, lift, priceStringToFloat64.
        rewrite Hamount. reflexivity. }
    simpl in Hpst. destruct Hpst as [<-|[<-|[<-|[]]]];
      cbn [one_of existsb String.eqb Ascii.eqb Bool.eqb orb negb];
      exact Hpaid.
Qed.

End AmountEdges.

Lemma Notify_unparsable_amount_panics_witness :
  AlipayPaymentProvider.Notify Mock.alipay_pp "" "order_1"
    Doubles.alipay_bad_amount
  = (Panic "strconv.ParseFloat: invalid syntax", Doubles.alipay_bad_amount)
  /\ AirwallexPaymentProvider.Notify Mock.airwallex_pp "" "order_1"
       Doubles.airwallex_bad_amount
     = (Panic "strconv.ParseFloat: invalid syntax",
        Doubles.airwallex_bad_amount).
Proof.
  destruct (@Notify_unparsable_amount_panics Mock.alipay_world
              Mock.airwallex_world Mock.lib Mock.alipay_sdk
              Mock.airwallex_api) as [Halipay Hairwallex].
  split.
  - apply (Halipay Mock.alipay_pp "" "order_1" Doubles.alipay_bad_amount
             Doubles.alipay_bad_amount
             {| alipay.Response :=
                  Some {| alipay.TradeStatus := "TRADE_SUCCESS";
                          alipay.Subject := "A book|book|alipay";
                          alipay.TotalAmount := "ninety" |} |}
             {| alipay.TradeStatus := "TRADE_SUCCESS";
                alipay.Subject := "A book|book|alipay";
                alipay.TotalAmount := "ninety" |});
      reflexivity.
  - apply (Hairwallex Mock.airwallex_pp "" "order_1"
             Doubles.airwallex_bad_amount Doubles.airwallex_bad_amount
             {| AirWallexIntentInfo.Amount := "ninety";
                AirWallexIntentInfo.Currency := "USD";
                AirWallexIntentInfo.Id := "int_1";
                AirWallexIntentInfo.Status := "SUCCEEDED";
                AirWallexIntentInfo.Descriptor := "book";
                AirWallexIntentInfo.MerchantOrderId := "order_1";
                AirWallexIntentInfo.PaymentStatus := "PAID";
                AirWallexIntentInfo.Metadata := ∅ |});
      first [reflexivity | discriminate | simpl; tauto].
Defined.

(** ** What [Pay] writes and [Notify] reads back *)

Lemma parseAttachString_join3 (a b c : string) :
  Strings.ContainsByte a "|" = false ->
  Strings.ContainsByte b "|" = false ->
  Strings.ContainsByte c "|" = false ->
  parseAttachString (joinAttachString [a; b; c]) = (a, b, c, None).
Proof.
  intros Ha Hb Hc. unfold parseAttachString, joinAttachString.
  rewrite (Split_Join [a; b; c] "|"); [reflexivity|discriminate|].
  repeat constructor; assumption.
Qed.

Section AlipayPayProperties.
Context {W : Type} `{!GoLib} `{!GoFmt} `{!alipay.SDK W} `{!AlipayPay.SDK W}.

(** X13. Alipay: [Pay] and then [Notify]. [Pay] sets the two URLs on
    the client, asks for the payment page with the body map it has
    filled, and answers with the page's URL and the payment name as
    order id. It writes the subject as product name, display name,
    provider name, and [Notify] reads it as display name, product name,
    provider name: for a paid trade that carries the subject [Pay]
    wrote, [Notify] returns the request's product name as the display
    name and the request's display name as the product name. Nor does
    the currency come back. *)
Theorem Alipay_Pay_Notify_names_swapped (pp : AlipayPaymentProvider.t)
    (r : PayReq.t) (body payUrl : string) (w0 w0' w w1 : W)
    (aliRsp : alipay.TradeQueryResponse) (rsp : alipay.TradeQueryData)
    (price : float) :
  Strings.ContainsByte (PayReq.ProductName r) "|" = false ->
  Strings.ContainsByte (PayReq.ProductDisplayName r) "|" = false ->
  Strings.ContainsByte (PayReq.ProviderName r) "|" = false ->
  AlipayPay.TradePagePay (AlipayPay.client_after_Pay pp r) (AlipayPay.body r)
    w0 = (Val payUrl, w0') ->
  alipay.TradeQuery (AlipayPay.client_after_Pay pp r)
    (<[ "out_trade_no" := PayReq.PaymentName r ]> ∅) w = (Val aliRsp, w1) ->
  alipay.Response aliRsp = Some rsp ->
  alipay.TradeStatus rsp = "TRADE_SUCCESS" ->
  AlipayPay.body r !! "subject" = Some (alipay.Subject rsp) ->
  strconv_ParseFloat (alipay.TotalAmount rsp) = inr price ->
  AlipayPay.Pay pp r w0 =
    (Val {| PayResp.PayUrl := payUrl;
            PayResp.OrderId := PayReq.PaymentName r;
            PayResp.AttachInfo := ∅ |}, w0')
  /\ AlipayPaymentProvider.Notify
       {| AlipayPaymentProvider.Client := AlipayPay.client_after_Pay pp r |}
       body (PayReq.PaymentName r) w =
       (Val {| NotifyResult.PaymentName := PayReq.PaymentName r;
               NotifyResult.PaymentStatus := PaymentStatePaid;
               NotifyResult.NotifyMessage := "";
               NotifyResult.ProductName := PayReq.ProductDisplayName r;
               NotifyResult.ProductDisplayName := PayReq.ProductName r;
               NotifyResult.ProviderName := PayReq.ProviderName r;
               NotifyResult.Price := price;
               NotifyResult.Currency := "";
               NotifyResult.OrderId := PayReq.PaymentName r |}, w1).
Proof.
  intros Ha Hb Hc Hpage Hq Hrsp Hst Hsubject Hprice. split.
  { unfold AlipayPay.Pay. rewrite (bind_Val _ _ _ _ _ Hpage). reflexivity. }
  unfold AlipayPay.body in Hsubject.
  rewrite lookup_insert_ne in Hsubject by discriminate.
  rewrite lookup_insert_ne in Hsubject by discriminate.
  rewrite lookup_insert_eq in Hsubject. injection Hsubject as Hsubject.
  unfold AlipayPaymentProvider.Notify.
  cbn [AlipayPaymentProvider.Client].
  unfold bind at 1. unfold attempt. rewrite Hq, Hrsp.
  cbn [deref]. rewrite bind_lift_Val, Hst.
  cbn [String.eqb Ascii.eqb Bool.eqb].
  rewrite <- Hsubject, (parseAttachString_join3 _ _ _ Ha Hb Hc).
  unfold priceStringToFloat64. rewrite Hprice. reflexivity.
Qed.

End AlipayPayProperties.

Lemma Alipay_Pay_Notify_names_swapped_witness :
  let r := Doubles.request "alipay" "" "" in
  let paid : Mock.alipay_world :=
    Val {| alipay.Response :=
             Some {| alipay.TradeStatus := "TRADE_SUCCESS";
                     alipay.Subject := "book|A book|alipay";
                     alipay.TotalAmount := "99.99" |} |} in
  @AlipayPay.Pay Mock.alipay_world Doubles.fmt Mock.alipay_sdk
    Doubles.alipay_pay_sdk Mock.alipay_pp r (Err "no trade yet")
  = (Val {| PayResp.PayUrl :=
              "https://openapi.alipay.com/gateway.do?out_trade_no=order_1";
            PayResp.OrderId := "order_1";
            PayResp.AttachInfo := ∅ |}, paid)
  /\ AlipayPaymentProvider.Notify (H := Mock.lib)
       {| AlipayPaymentProvider.Client :=
            @AlipayPay.client_after_Pay Mock.alipay_world Mock.alipay_sdk
              Doubles.alipay_pay_sdk Mock.alipay_pp r |}
       "" "order_1" paid
     = (Val {| NotifyResult.PaymentName := "order_1";
               NotifyResult.PaymentStatus := PaymentStatePaid;
               NotifyResult.NotifyMessage := "";
               NotifyResult.ProductName := "A book";
               NotifyResult.ProductDisplayName := "book";
               NotifyResult.ProviderName := "alipay";
               NotifyResult.Price := 99.99%float;
               NotifyResult.Currency := "";
               NotifyResult.OrderId := "order_1" |}, paid).
Proof.
  intros r paid.
  apply (@Alipay_Pay_Notify_names_swapped Mock.alipay_world Mock.lib
           Doubles.fmt Mock.alipay_sdk Doubles.alipay_pay_sdk
           Mock.alipay_pp r ""
           "https://openapi.alipay.com/gateway.do?out_trade_no=order_1"
           (Err "no trade yet") paid paid paid
           {| alipay.Response :=
                Some {| alipay.TradeStatus := "TRADE_SUCCESS";
                        alipay.Subject := "book|A book|alipay";
                        alipay.TotalAmount := "99.99" |} |}
           {| alipay.TradeStatus := "TRADE_SUCCESS";
              alipay.Subject := "book|A book|alipay";
              alipay.TotalAmount := "99.99" |}
           99.99%float);
    vm_compute; reflexivity.
Defined.

Section StripePayProperties.
Context {W : Type} `{!Clock W} `{!stripe.SDK W} `{!StripePay.SDK W}.

(** X14. Stripe: [Pay] and then [Notify]. [Pay] creates a product, a
    price for it and a checkout session that expires 30 minutes after
    the clock's reading, and answers with the session's URL and id. For
    a request whose three names have no ["|"] and whose price is a
    decimal amount of [n] cents below [2 ^ 45] major units: when that
    session is complete and paid, carries the metadata and the client
    reference [Pay] gave it, and its payment intent has the unit amount
    [Pay] gave the price, [Notify] returns the request's payment name,
    its three names in their places and its price. *)
Theorem Stripe_Pay_Notify_round_trip (p : platform)
    (pp : StripePaymentProvider.t) (r : PayReq.t) (n : Z) (body : string)
    (w0 wa wb wc wd : W) (sProduct : StripePay.Created.Product)
    (sPrice : StripePay.Created.Price) (now : time.Time)
    (sCheckout : StripePay.Created.Session)
    (w w1 w2 : W) (session : stripe.CheckoutSession)
    (ref intent : stripe.PaymentIntent) :
  Strings.ContainsByte (PayReq.ProductName r) "|" = false ->
  Strings.ContainsByte (PayReq.ProductDisplayName r) "|" = false ->
  Strings.ContainsByte (PayReq.ProviderName r) "|" = false ->
  0 <= n < 100 * 2 ^ 45 ->
  PayReq.Price r = amount_of_cents n ->
  StripePay.product_New (StripePay.productParams p r) w0
    = (Val sProduct, wa) ->
  StripePay.price_New
    (StripePay.priceParams p r (StripePay.Created.ProductID sProduct)) wa
    = (Val sPrice, wb) ->
  time_Now wb = (Val now, wc) ->
  StripePay.checkout_session_New
    (StripePay.checkoutParams r (StripePay.Created.PriceID sPrice) now) wc
    = (Val sCheckout, wd) ->
  stripe.checkout_session_Get (StripePay.Created.SessionID sCheckout) w
    = (Val session, w1) ->
  stripe.Status session = "complete" ->
  stripe.PaymentStatus session = "paid" ->
  stripe.PaymentIntent_ session = Some ref ->
  stripe.paymentintent_Get (stripe.ID ref) w1 = (Val intent, w2) ->
  stripe.Metadata session
  = StripePay.CheckoutSessionParams.Metadata
      (StripePay.checkoutParams r (StripePay.Created.PriceID sPrice) now) ->
  stripe.ClientReferenceID session
  = StripePay.CheckoutSessionParams.ClientReferenceID
      (StripePay.checkoutParams r (StripePay.Created.PriceID sPrice) now) ->
  stripe.Amount intent
  = StripePay.PriceParams.UnitAmount
      (StripePay.priceParams p r (StripePay.Created.ProductID sProduct)) ->
  StripePay.Pay p pp r w0 =
    (Val {| PayResp.PayUrl := StripePay.Created.URL sCheckout;
            PayResp.OrderId := StripePay.Created.SessionID sCheckout;
            PayResp.AttachInfo := ∅ |}, wd)
  /\ StripePay.CheckoutSessionParams.ExpiresAt
       (StripePay.checkoutParams r (StripePay.Created.PriceID sPrice) now)
     = time.Unix now + 30 * 60
  /\ StripePaymentProvider.Notify pp body
       (StripePay.Created.SessionID sCheckout) w =
       (Val {| NotifyResult.PaymentName := PayReq.PaymentName r;
               NotifyResult.PaymentStatus := PaymentStatePaid;
               NotifyResult.NotifyMessage := "";
               NotifyResult.ProductName := PayReq.ProductName r;
               NotifyResult.ProductDisplayName := PayReq.ProductDisplayName r;
               NotifyResult.ProviderName := PayReq.ProviderName r;
               NotifyResult.Price := PayReq.Price r;
               NotifyResult.Currency := stripe.Currency intent;
               NotifyResult.OrderId :=
                 StripePay.Created.SessionID sCheckout |}, w2).
Proof.
  intros Ha Hb Hc Hn Hprice Hproduct Hnewprice Hnow Hnew
         Hs Hst Hpst Href Hi Hmeta Hname Hamount.
  split; [|split].
  { unfold StripePay.Pay.
    rewrite (bind_Val _ _ _ _ _ Hproduct), (bind_Val _ _ _ _ _ Hnewprice).
    rewrite (bind_Val _ _ _ _ _ Hnow), (bind_Val _ _ _ _ _ Hnew).
    reflexivity. }
  { cbn [StripePay.checkoutParams StripePay.CheckoutSessionParams.AddMetadata
         StripePay.CheckoutSessionParams.ExpiresAt].
    unfold time.Unix, time.Add, time.Minute.
    replace (now + 30 * (60 * 1000000000))
      with (now + 30 * 60 * 1000000000) by lia.
    apply Z.div_add. lia. }
  unfold StripePaymentProvider.Notify.
  rewrite (bind_Val _ _ _ _ _ Hs), Hst, Hpst, Href.
  cbn [String.eqb Ascii.eqb Bool.eqb deref]. rewrite bind_lift_Val.
  rewrite (bind_Val _ _ _ _ _ Hi).
  rewrite Hmeta, Hname, Hamount.
  unfold StripePay.checkoutParams, StripePay.CheckoutSessionParams.AddMetadata.
  cbn [StripePay.CheckoutSessionParams.Metadata
       StripePay.CheckoutSessionParams.ClientReferenceID
       StripePay.PriceParams.UnitAmount StripePay.priceParams].
  rewrite lookup_insert_eq. unfold StripePay.description.
  rewrite (parseAttachString_join3 _ _ _ Ha Hb Hc).
  rewrite Hprice, (amount_of_cents_priceInt64ToFloat64 n) by lia.
  rewrite (priceFloat64ToInt64_priceInt64ToFloat64 p n Hn).
  reflexivity.
Qed.

End StripePayProperties.

Lemma Stripe_Pay_Notify_round_trip_witness :
  let r := Doubles.request "stripe" "" "" in
  let intent := {| stripe.ID := "pi_1"; stripe.Amount := 9999;
                   stripe.Currency := "usd" |} in
  let paid : Mock.stripe_world :=
    ({| stripe.Status := "complete"; stripe.PaymentStatus := "paid";
        stripe.PaymentIntent_ := Some intent;
        stripe.Metadata := {[ "product_description" := "book|A book|stripe" ]};
        stripe.ClientReferenceID := "order_1" |}, intent) in
  @StripePay.Pay Mock.stripe_world Doubles.stripe_clock
    Doubles.stripe_pay_sdk amd64 Mock.stripe_pp r (Mock.stripe_state "open" "unpaid" 0)
  = (Val {| PayResp.PayUrl := "https://checkout.stripe.com/c/pay/cs_1";
            PayResp.OrderId := "cs_1";
            PayResp.AttachInfo := ∅ |}, paid)
  /\ 1700001800 = time.Unix 1700000000000000000 + 30 * 60
  /\ StripePaymentProvider.Notify (H := Mock.stripe_sdk) Mock.stripe_pp ""
       "cs_1" paid
     = (Val {| NotifyResult.PaymentName := "order_1";
               NotifyResult.PaymentStatus := PaymentStatePaid;
               NotifyResult.NotifyMessage := "";
               NotifyResult.ProductName := "book";
               NotifyResult.ProductDisplayName := "A book";
               NotifyResult.ProviderName := "stripe";
               NotifyResult.Price := 99.99%float;
               NotifyResult.Currency := "usd";
               NotifyResult.OrderId := "cs_1" |}, paid).
Proof.
  intros r intent paid.
  apply (@Stripe_Pay_Notify_round_trip Mock.stripe_world
           Doubles.stripe_clock Mock.stripe_sdk Doubles.stripe_pay_sdk
           amd64 Mock.stripe_pp r 9999 ""
           (Mock.stripe_state "open" "unpaid" 0)
           (Mock.stripe_state "open" "unpaid" 0)
           (fst (Mock.stripe_state "open" "unpaid" 0), intent)
           (fst (Mock.stripe_state "open" "unpaid" 0), intent)
           paid
           {| StripePay.Created.ProductID := "prod_1" |}
           {| StripePay.Created.PriceID := "price_1" |}
           1700000000000000000
           {| StripePay.Created.URL := "https://checkout.stripe.com/c/pay/cs_1";
              StripePay.Created.SessionID := "cs_1" |}
           paid paid paid (fst paid) intent intent);
    first [lia | vm_compute; reflexivity].
Defined.

Section WechatPayProperties.
Context {W : Type} `{!wechat.SDK W} `{!WechatPay.SDK W}.

(** X15. WeChat: in the WeChat browser a request without a payer id is
    turned down before the vendor is asked, with an error and the world
    as it was; this holds for every provider, the one without a client
    included. *)
Theorem Wechat_Pay_without_openid (p : platform)
    (pp : WechatPaymentProvider.t) (r : PayReq.t) (w : W) :
  PayReq.PaymentEnv r = PaymentEnvWechatBrowser ->
  PayReq.PayerId r = "" ->
  WechatPay.Pay p pp r w =
    (Err "failed to get the payer's openid, please retry login", w).
Proof.
  intros Henv Hpayer. unfold WechatPay.Pay. rewrite Henv, Hpayer.
  reflexivity.
Qed.

(** X16. WeChat: [Pay] and then [Notify], outside the WeChat browser.
    [Pay] asks for a native transaction with the body map it has filled
    and answers with the code URL and the payment name as order id. For
    a request whose three names have no ["|"] and whose price is a
    decimal amount of [n] cents below [2 ^ 45] major units: when the
    order is in the state ["SUCCESS"] and carries the attachment, the
    trade number and the total [Pay] wrote into the body map, [Notify]
    returns the request's payment name, its three names in their places
    and its price. The currency of the request does not come back: the
    result's is empty. *)
Theorem Wechat_Pay_Notify_round_trip (p : platform)
    (pp : WechatPaymentProvider.t) (r : PayReq.t) (n : Z)
    (body : string) (w0 w0' w w1 : W) (nativeRsp : WechatPay.NativeRsp.t)
    (native : WechatPay.Native.t) (client : wechat.ClientV3)
    (rsp : wechat.QueryOrderRsp) (q : wechat.QueryOrder)
    (amount : wechat.Amount) (am : WechatPay.BodyMap) :
  Strings.ContainsByte (PayReq.ProductName r) "|" = false ->
  Strings.ContainsByte (PayReq.ProductDisplayName r) "|" = false ->
  Strings.ContainsByte (PayReq.ProviderName r) "|" = false ->
  0 <= n < 100 * 2 ^ 45 ->
  PayReq.Price r = amount_of_cents n ->
  PayReq.PaymentEnv r <> PaymentEnvWechatBrowser ->
  WechatPay.V3TransactionNative (WechatPaymentProvider.Client pp)
    (WechatPay.body p pp r) w0 = (Val nativeRsp, w0') ->
  WechatPay.NativeRsp.Code nativeRsp = wechat.Success ->
  WechatPay.NativeRsp.Response nativeRsp = Some native ->
  WechatPaymentProvider.Client pp = Some client ->
  wechat.V3TransactionQueryOrder client wechat.OutTradeNo
    (PayReq.PaymentName r) w = (Val rsp, w1) ->
  wechat.Code rsp = wechat.Success ->
  wechat.Response rsp = Some q ->
  wechat.TradeState q = "SUCCESS" ->
  wechat.Amount_ q = Some amount ->
  WechatPay.body p pp r !! "attach" = Some (gopay.VString (wechat.Attach q)) ->
  WechatPay.body p pp r !! "out_trade_no"
    = Some (gopay.VString (wechat.OutTradeNo_ q)) ->
  WechatPay.body p pp r !! "amount" = Some (gopay.VBodyMap am) ->
  am !! "total" = Some (gopay.VInt64 (wechat.Total amount)) ->
  WechatPay.Pay p pp r w0 =
    (Val {| PayResp.PayUrl := WechatPay.Native.CodeUrl native;
            PayResp.OrderId := PayReq.PaymentName r;
            PayResp.AttachInfo := ∅ |}, w0')
  /\ WechatPaymentProvider.Notify pp body (PayReq.PaymentName r) w =
       (Val {| NotifyResult.PaymentName := PayReq.PaymentName r;
               NotifyResult.PaymentStatus := PaymentStatePaid;
               NotifyResult.NotifyMessage := "";
               NotifyResult.ProductName := PayReq.ProductName r;
               NotifyResult.ProductDisplayName := PayReq.ProductDisplayName r;
               NotifyResult.ProviderName := PayReq.ProviderName r;
               NotifyResult.Price := PayReq.Price r;
               NotifyResult.Currency := "";
               NotifyResult.OrderId := PayReq.PaymentName r |}, w1).
Proof.
  intros Ha Hb Hc Hn Hprice Henv Hnative Hncode Hnrsp Hclient Hq Hcode Hrsp
         Hst Hamount Hattach Hno Ham Htotal.
  split.
  { unfold WechatPay.Pay.
    rewrite (proj2 (String.eqb_neq _ _) Henv).
    rewrite (bind_Val _ _ _ _ _ Hnative), Hncode, Hnrsp.
    cbn [Z.eqb wechat.Success negb deref]. rewrite bind_lift_Val.
    reflexivity. }
  unfold WechatPay.body in Hattach, Hno, Ham.
  cbv zeta in Hattach, Hno, Ham.
  rewrite lookup_insert_eq in Ham. injection Ham as <-.
  rewrite lookup_insert_ne in Htotal by discriminate.
  rewrite lookup_insert_eq in Htotal. injection Htotal as Htotal.
  rewrite lookup_insert_ne in Hno by discriminate.
  rewrite lookup_insert_eq in Hno. injection Hno as Hno.
  do 5 (rewrite lookup_insert_ne in Hattach by discriminate).
  rewrite lookup_insert_eq in Hattach. injection Hattach as Hattach.
  unfold WechatPaymentProvider.Notify.
  rewrite Hclient. cbn [deref]. rewrite bind_lift_Val.
  rewrite (bind_Val _ _ _ _ _ Hq), Hcode, Hrsp.
  cbn [Z.eqb wechat.Success negb deref]. rewrite bind_lift_Val, Hst.
  cbn [String.eqb Ascii.eqb Bool.eqb].
  rewrite <- Hattach, (parseAttachString_join3 _ _ _ Hb Ha Hc).
  rewrite Hamount. cbn [deref]. rewrite bind_lift_Val.
  rewrite <- Htotal, <- Hno, Hprice.
  rewrite (amount_of_cents_priceInt64ToFloat64 n) by lia.
  rewrite (priceFloat64ToInt64_priceInt64ToFloat64 p n Hn).
  reflexivity.
Qed.

End WechatPayProperties.

Lemma Wechat_Pay_without_openid_witness :
  @WechatPay.Pay Mock.wechat_world Mock.wechat_sdk Doubles.wechat_pay_sdk
    amd64 WechatPaymentProvider.zero
    (Doubles.request "wechat" "" "WechatBrowser") (Mock.wechat_trade "NOTPAY")
  = (Err "failed to get the payer's openid, please retry login",
     Mock.wechat_trade "NOTPAY").
Proof.
  apply (@Wechat_Pay_without_openid Mock.wechat_world Mock.wechat_sdk
           Doubles.wechat_pay_sdk amd64 WechatPaymentProvider.zero
           (Doubles.request "wechat" "" "WechatBrowser")
           (Mock.wechat_trade "NOTPAY"));
    reflexivity.
Defined.

Lemma Wechat_Pay_Notify_round_trip_witness :
  let r := Doubles.request "wechat" "" "" in
  let order := {| wechat.TradeState := "SUCCESS";
                  wechat.Attach := "A book|book|wechat";
                  wechat.OutTradeNo_ := "order_1";
                  wechat.Amount_ := Some {| wechat.Total := 9999 |} |} in
  let paid : Mock.wechat_world :=
    Val {| wechat.Code := wechat.Success; wechat.Error := "";
           wechat.Response := Some order |} in
  @WechatPay.Pay Mock.wechat_world Mock.wechat_sdk Doubles.wechat_pay_sdk
    amd64 Mock.wechat_pp r
    (Mock.wechat_trade "NOTPAY")
  = (Val {| PayResp.PayUrl := "weixin://wxpay/bizpayurl?pr=1";
            PayResp.OrderId := "order_1";
            PayResp.AttachInfo := ∅ |}, paid)
  /\ WechatPaymentProvider.Notify (H := Mock.wechat_sdk) Mock.wechat_pp ""
       "order_1" paid
     = (Val {| NotifyResult.PaymentName := "order_1";
               NotifyResult.PaymentStatus := PaymentStatePaid;
               NotifyResult.NotifyMessage := "";
               NotifyResult.ProductName := "book";
               NotifyResult.ProductDisplayName := "A book";
               NotifyResult.ProviderName := "wechat";
               NotifyResult.Price := 99.99%float;
               NotifyResult.Currency := "";
               NotifyResult.OrderId := "order_1" |}, paid).
Proof.
  intros r order paid.
  apply (@Wechat_Pay_Notify_round_trip Mock.wechat_world Mock.wechat_sdk
           Doubles.wechat_pay_sdk amd64 Mock.wechat_pp r 9999 ""
           (Mock.wechat_trade "NOTPAY") paid paid paid
           {| WechatPay.NativeRsp.Code := wechat.Success;
              WechatPay.NativeRsp.Error := "";
              WechatPay.NativeRsp.Response :=
                Some {| WechatPay.Native.CodeUrl :=
                          "weixin://wxpay/bizpayurl?pr=1" |} |}
           {| WechatPay.Native.CodeUrl := "weixin://wxpay/bizpayurl?pr=1" |}
           tt
           {| wechat.Code := wechat.Success; wechat.Error := "";
              wechat.Response := Some order |}
           order {| wechat.Total := 9999 |}
           (<[ "currency" := gopay.VString "USD" ]>
              (<[ "total" := gopay.VInt64 9999 ]> ∅)));
    first [lia | discriminate | vm_compute; reflexivity].
Defined.

Section PaypalPayProperties.
Context {W : Type} `{!GoLib} `{!GoFmt} `{!GoRuntime} `{!Clock W} `{!Rand}.
Context `{!paypal.SDK W} `{!PaypalPay.SDK W}.

(** X17. PayPal: [Pay] takes the payment URL from the second link of
    the created order, whatever that link is for. An order with fewer
    than two links, or whose second link is nil, makes [Pay] panic,
    although the order has been created. *)
Theorem Paypal_Pay_second_link (pp : PaypalPaymentProvider.t) (r : PayReq.t)
    (w w1 w2 : W) (referenceId : string) (rsp : PaypalPay.CreateOrderRsp.t)
    (order : PaypalPay.CreatedOrder.t) :
  GetRandomString 16 w = (Val referenceId, w1) ->
  PaypalPay.CreateOrder (PaypalPaymentProvider.Client pp)
    (PaypalPay.body r referenceId) w1 = (Val rsp, w2) ->
  PaypalPay.CreateOrderRsp.Code rsp = paypal.Success ->
  PaypalPay.CreateOrderRsp.Response rsp = Some order ->
  ((length (PaypalPay.CreatedOrder.Links order) < 2)%nat
   \/ nth_error (PaypalPay.CreatedOrder.Links order) 1 = Some None ->
   panics (fst (PaypalPay.Pay pp r w)) /\ snd (PaypalPay.Pay pp r w) = w2)
  /\ (forall link,
        nth_error (PaypalPay.CreatedOrder.Links order) 1 = Some (Some link) ->
        PaypalPay.Pay pp r w =
          (Val {| PayResp.PayUrl := PaypalPay.Link.Href link;
                  PayResp.OrderId := PaypalPay.CreatedOrder.Id order;
                  PayResp.AttachInfo := ∅ |}, w2)).
Proof.
  intros Href Hcreate Hcode Hrsp.
  unfold PaypalPay.Pay.
  rewrite (bind_Val _ _ _ _ _ Href), (bind_Val _ _ _ _ _ Hcreate).
  rewrite Hcode, Hrsp. cbn [Z.eqb paypal.Success negb deref].
  rewrite bind_lift_Val.
  destruct (PaypalPay.CreatedOrder.Links order) as [|l0 [|l1 rest]];
    cbn [PaypalPay.index1 length nth_error]; split;
    try (intros _; split; [eexists|]; reflexivity);
    try (intros link Hl; discriminate Hl).
  - intros [Hlen|Hnil]; [simpl in Hlen; lia|].
    injection Hnil as ->. split; [eexists|]; reflexivity.
  - intros link [= ->]. reflexivity.
Qed.

(** X18. PayPal: what [Pay] writes, [Notify] reads back. [Pay] writes
    the description of the purchase unit as display name, product name,
    provider name, and [Notify] reads it in that order. For a request
    whose three names have no ["|"], and an order that went through the
    capture and whose first purchase unit carries the description [Pay]
    wrote, [Notify] returns the request's three names in their
    places. *)
Theorem Paypal_Pay_Notify_names (pp : PaypalPaymentProvider.t) (r : PayReq.t)
    (body orderId referenceId : string) (w w1 w2 : W)
    (capture detail : paypal.Rsp) (order : paypal.OrderDetail)
    (unit0 : paypal.PurchaseUnit) (units : list paypal.PurchaseUnit)
    (amount : paypal.Amount) (price : float) :
  Strings.ContainsByte (PayReq.ProductName r) "|" = false ->
  Strings.ContainsByte (PayReq.ProductDisplayName r) "|" = false ->
  Strings.ContainsByte (PayReq.ProviderName r) "|" = false ->
  paypal.OrderCapture (PaypalPaymentProvider.Client pp) orderId w
    = (Val capture, w1) ->
  capture_passes capture = true ->
  paypal.OrderDetail_ (PaypalPaymentProvider.Client pp) orderId w1
    = (Val detail, w2) ->
  paypal.Code detail = paypal.Success ->
  paypal.Response detail = Some order ->
  paypal.PurchaseUnits order = unit0 :: units ->
  paypal.Amount_ unit0 = Some amount ->
  strconv_ParseFloat (paypal.Value amount) = inr price ->
  paypal.Description_ unit0
  = PaypalPay.PurchaseUnit.Description (PaypalPay.purchase_unit r referenceId) ->
  exists res,
    PaypalPaymentProvider.Notify pp body orderId w = (Val res, w2)
    /\ names_of res = (PayReq.ProductName r, PayReq.ProductDisplayName r,
                       PayReq.ProviderName r)
    /\ NotifyResult.Price res = price
    /\ NotifyResult.PaymentName res = paypal.Id order.
Proof.
  intros Ha Hb Hc Hcap Hpass Hd Hcode Hrsp Hunits Hamount Hprice Hdesc.
  rewrite (Paypal_Notify_after_capture pp body orderId w w1 capture Hcap Hpass).
  rewrite (Paypal_notify_detail_order pp orderId w1 w2 detail order unit0
             units amount price (PayReq.ProductDisplayName r)
             (PayReq.ProductName r) (PayReq.ProviderName r)
             Hd Hcode Hrsp Hunits Hamount Hprice).
  - eexists. split; [reflexivity|]. repeat split.
  - rewrite Hdesc. cbn [PaypalPay.purchase_unit PaypalPay.PurchaseUnit.Description].
    apply parseAttachString_join3; assumption.
Qed.

End PaypalPayProperties.

Lemma Paypal_Pay_second_link_witness :
  let r := Doubles.request "paypal" "" "" in
  panics (fst (@PaypalPay.Pay Doubles.paypal_pay_world Doubles.fmt
                 Doubles.runtime Doubles.paypal_pay_clock Doubles.rand
                 Doubles.paypal_pay_base Doubles.paypal_pay_sdk
                 Doubles.paypal_pay_pp r
                 (1700000000, [List.hd None Doubles.paypal_links])))
  /\ @PaypalPay.Pay Doubles.paypal_pay_world Doubles.fmt
       Doubles.runtime Doubles.paypal_pay_clock Doubles.rand Doubles.paypal_pay_base
       Doubles.paypal_pay_sdk
       Doubles.paypal_pay_pp r (1700000000, Doubles.paypal_links)
     = (Val {| PayResp.PayUrl :=
                 "https://www.sandbox.paypal.com/checkoutnow?token=9BR68863NE220374S";
               PayResp.OrderId := "9BR68863NE220374S";
               PayResp.AttachInfo := ∅ |},
        (1700000001, Doubles.paypal_links)).
Proof.
  intros r. split.
  - destruct (@Paypal_Pay_second_link Doubles.paypal_pay_world Doubles.fmt
                Doubles.runtime Doubles.paypal_pay_clock Doubles.rand Doubles.paypal_pay_base
                Doubles.paypal_pay_sdk Doubles.paypal_pay_pp r
                (1700000000, [List.hd None Doubles.paypal_links])
                (1700000001, [List.hd None Doubles.paypal_links])
                (1700000001, [List.hd None Doubles.paypal_links])
                (Doubles.paypal_reference
                   (1700000000, [List.hd None Doubles.paypal_links]))
                {| PaypalPay.CreateOrderRsp.Code := paypal.Success;
                   PaypalPay.CreateOrderRsp.Error := "";
                   PaypalPay.CreateOrderRsp.Response :=
                     Some {| PaypalPay.CreatedOrder.Id := "9BR68863NE220374S";
                             PaypalPay.CreatedOrder.Links :=
                               [List.hd None Doubles.paypal_links] |} |}
                {| PaypalPay.CreatedOrder.Id := "9BR68863NE220374S";
                   PaypalPay.CreatedOrder.Links :=
                     [List.hd None Doubles.paypal_links] |})
      as [Hpanic _]; [vm_compute; reflexivity .. |].
    destruct Hpanic as [Hp _]; [left; simpl; lia|exact Hp].
  - destruct (@Paypal_Pay_second_link Doubles.paypal_pay_world Doubles.fmt
                Doubles.runtime Doubles.paypal_pay_clock Doubles.rand Doubles.paypal_pay_base
                Doubles.paypal_pay_sdk Doubles.paypal_pay_pp r
                (1700000000, Doubles.paypal_links)
                (1700000001, Doubles.paypal_links)
                (1700000001, Doubles.paypal_links)
                (Doubles.paypal_reference (1700000000, Doubles.paypal_links))
                {| PaypalPay.CreateOrderRsp.Code := paypal.Success;
                   PaypalPay.CreateOrderRsp.Error := "";
                   PaypalPay.CreateOrderRsp.Response :=
                     Some {| PaypalPay.CreatedOrder.Id := "9BR68863NE220374S";
                             PaypalPay.CreatedOrder.Links :=
                               Doubles.paypal_links |} |}
                {| PaypalPay.CreatedOrder.Id := "9BR68863NE220374S";
                   PaypalPay.CreatedOrder.Links := Doubles.paypal_links |})
      as [_ Hlink]; [vm_compute; reflexivity .. |].
    apply (Hlink {| PaypalPay.Link.Href :=
                      "https://www.sandbox.paypal.com/checkoutnow?token=9BR68863NE220374S" |}).
    reflexivity.
Defined.

Lemma Paypal_Pay_Notify_names_witness :
  exists res,
    PaypalPaymentProvider.Notify (H := Mock.lib)
      (H0 := Doubles.paypal_scripted) Doubles.paypal_scripted_pp "" "o1"
      (Doubles.paypal_completed "A book|book|paypal",
       Doubles.paypal_completed "A book|book|paypal")
    = (Val res,
       (Doubles.paypal_completed "A book|book|paypal",
        Doubles.paypal_completed "A book|book|paypal"))
    /\ names_of res = ("book", "A book", "paypal")
    /\ NotifyResult.Price res = 99.99%float
    /\ NotifyResult.PaymentName res = "o1".
Proof.
  apply (@Paypal_Pay_Notify_names Doubles.paypal_script Mock.lib Doubles.fmt
           Doubles.paypal_scripted Doubles.paypal_scripted_pp
           (Doubles.request "paypal" "" "") "" "o1" "ref"
           (Doubles.paypal_completed "A book|book|paypal",
            Doubles.paypal_completed "A book|book|paypal")
           (Doubles.paypal_completed "A book|book|paypal",
            Doubles.paypal_completed "A book|book|paypal")
           (Doubles.paypal_completed "A book|book|paypal",
            Doubles.paypal_completed "A book|book|paypal")
           (Doubles.paypal_completed "A book|book|paypal")
           (Doubles.paypal_completed "A book|book|paypal")
           {| paypal.Id := "o1"; paypal.Status := "COMPLETED";
              paypal.PurchaseUnits :=
                [{| paypal.Amount_ :=
                      Some {| paypal.CurrencyCode := "USD";
                              paypal.Value := "99.99" |};
                    paypal.Description_ := "A book|book|paypal" |}] |}
           {| paypal.Amount_ :=
                Some {| paypal.CurrencyCode := "USD";
                        paypal.Value := "99.99" |};
              paypal.Description_ := "A book|book|paypal" |}
           []
           {| paypal.CurrencyCode := "USD"; paypal.Value := "99.99" |}
           99.99%float);
    reflexivity.
Defined.

(** ** GC: paying and invoicing *)

Lemma bind_Val_inv {W A B : Type} (m : Vendor W A) (k : A -> Vendor W B)
    (w w' : W) (b : B) :
  bind m k w = (Val b, w') ->
  exists a w1, m w = (Val a, w1) /\ k a w1 = (Val b, w').
Proof.
  unfold bind. destruct (m w) as [[a|e|p] w1]; intros Hk;
    try discriminate Hk.
  exists a, w1. split; [reflexivity|exact Hk].
Qed.

Section GcClientProperties.
Context {W : Type} `{!GoLib} `{!GoFmt} `{!HTTP W} `{!GcLib W}.

(** X19. GC's [GetInvoice] never returns an empty URL. Once the vendor
    has answered ["SUCCESS"] with a payload that decodes, the call
    fails when the invoice is in the state ["0"] (still being issued),
    fails when the URL is empty, and returns the URL otherwise. The
    payer type sent is ["1"] for the invoice type ["Organization"] and
    ["0"] for every other. *)
Theorem Gc_GetInvoice_url (pp : GcPaymentProvider.t)
    (paymentName personName personIdCard personEmail personPhone : string)
    (invoiceType invoiceTitle invoiceTaxId : string) (w : W) :
  (forall url w',
     GcClient.GetInvoice pp paymentName personName personIdCard personEmail
       personPhone invoiceType invoiceTitle invoiceTaxId w = (Val url, w') ->
     url <> "")
  /\ (forall bytes w1 info,
        GcClient.exchange pp "InvoiceEBillByOrder"
          (GcClient.Marshal_GcInvoiceReqInfo
             (invoice_request paymentName personName personIdCard personEmail
                personPhone invoiceType invoiceTitle invoiceTaxId)) w
        = (Val bytes, w1) ->
        json_Unmarshal_GcInvoiceRespInfo bytes = inr info ->
        GcClient.GetInvoice pp paymentName personName personIdCard personEmail
          personPhone invoiceType invoiceTitle invoiceTaxId w =
          (if String.eqb (GcInvoiceRespInfo.State info) "0"
           then Err "申请成功，开票中"
           else if String.eqb (GcInvoiceRespInfo.Url info) ""
                then Err "invoice URL is empty"
                else Val (GcInvoiceRespInfo.Url info), w1)).
Proof.
  split.
  - intros url w' Hcall. unfold GcClient.GetInvoice in Hcall.
    apply bind_Val_inv in Hcall as (bytes & w1 & _ & Hcall).
    apply bind_Val_inv in Hcall as (info & w2 & _ & Hcall).
    destruct (String.eqb (GcInvoiceRespInfo.State info) "0");
      [discriminate Hcall|].
    destruct (String.eqb (GcInvoiceRespInfo.Url info) "") eqn:Hurl;
      [discriminate Hcall|].
    injection Hcall as <- _. apply String.eqb_neq. exact Hurl.
  - intros bytes w1 info Hx Hinfo. unfold GcClient.GetInvoice.
    fold (invoice_request paymentName personName personIdCard personEmail
            personPhone invoiceType invoiceTitle invoiceTaxId).
    rewrite (bind_Val _ _ _ _ _ Hx), Hinfo. cbn [of_pair].
    rewrite bind_lift_Val.
    destruct (String.eqb (GcInvoiceRespInfo.State info) "0");
      [reflexivity|].
    destruct (String.eqb (GcInvoiceRespInfo.Url info) ""); reflexivity.
Qed.

(** X20. GC's [Pay]: a response never carries an order id, and its
    payment URL is whatever the vendor's payload says, the empty string
    included. A vendor answer whose return code is not ["SUCCESS"] is
    the error made of the code and the message, and its payload is not
    looked at. *)
Theorem Gc_Pay_result (pp : GcPaymentProvider.t) (r : PayReq.t) (w : W) :
  (forall resp w',
     GcClient.Pay pp r w = (Val resp, w') ->
     PayResp.OrderId resp = "" /\ PayResp.AttachInfo resp = ∅
     /\ exists bytes info,
          json_Unmarshal_GcPayRespInfo bytes = inr info
          /\ PayResp.PayUrl resp = GcPayRespInfo.PayUrl info)
  /\ (forall orderDate w1 requestTime w2 respBytes w3 respBody,
        GenerateSimpleTimeId w = (Val orderDate, w1) ->
        GenerateSimpleTimeId w1 = (Val requestTime, w2) ->
        GcClient.doPost pp
          (GcClient.Marshal_GcRequestBody
             (signed_body pp "OrderCreate"
                (GcClient.Marshal_GcPayReqInfo (pay_request pp r orderDate))
                requestTime)) w2 = (Val respBytes, w3) ->
        json_Unmarshal_GcResponseBody respBytes = inr respBody ->
        GcResponseBody.ReturnCode respBody <> "SUCCESS" ->
        GcClient.Pay pp r w =
          (Err (GcResponseBody.ReturnCode respBody +:+ ": "
                +:+ GcResponseBody.ReturnMsg respBody), w3)).
Proof.
  split.
  - intros resp w' Hcall. unfold GcClient.Pay in Hcall.
    apply bind_Val_inv in Hcall as (orderDate & w1 & _ & Hcall).
    apply bind_Val_inv in Hcall as (bytes & w2 & _ & Hcall).
    apply bind_Val_inv in Hcall as (info & w3 & Hinfo & Hcall).
    injection Hcall as <- _.
    split; [reflexivity|]. split; [reflexivity|].
    exists bytes, info. split; [|reflexivity].
    unfold lift in Hinfo.
    destruct (json_Unmarshal_GcPayRespInfo bytes) as [e|i];
      [discriminate Hinfo|].
    injection Hinfo as -> _. reflexivity.
  - intros orderDate w1 requestTime w2 respBytes w3 respBody
           Hdate Htime Hpost Hbody Hcode.
    unfold GcClient.Pay. rewrite (bind_Val _ _ _ _ _ Hdate).
    unfold GcClient.exchange at 1.
    unfold bind at 1. unfold bind at 1. rewrite Htime.
    unfold bind at 1.
    change (GcClient.doPost pp _ w2)
      with (GcClient.doPost pp
              (GcClient.Marshal_GcRequestBody
                 (signed_body pp "OrderCreate"
                    (GcClient.Marshal_GcPayReqInfo
                       (pay_request pp r orderDate))
                    requestTime)) w2).
    rewrite Hpost.
    unfold bind at 1. unfold lift at 1. rewrite Hbody. cbn [of_pair].
    rewrite (proj2 (String.eqb_neq _ _) Hcode). reflexivity.
Qed.

End GcClientProperties.

Lemma Gc_GetInvoice_url_witness :
  @GcClient.GetInvoice string Mock.lib Doubles.gc_http Doubles.gc_client_lib
    Mock.gc_pp "order_1" "Alice" "110101" "alice@example.com" "13800138000"
    "Individual" "Alice" "" "cGFpZA=="
  = (Val "https://gc.example/invoice/1", "cGFpZA==")
  /\ fst (@GcClient.GetInvoice string Mock.lib Doubles.gc_http
            Doubles.gc_client_lib Mock.gc_pp "order_1" "Alice" "110101"
            "alice@example.com" "13800138000" "Individual" "Alice" ""
            "b2Rk")
     <> Val "".
Proof.
  destruct (@Gc_GetInvoice_url string Mock.lib Doubles.gc_http
              Doubles.gc_client_lib Mock.gc_pp "order_1" "Alice" "110101"
              "alice@example.com" "13800138000" "Individual" "Alice" ""
              "cGFpZA==") as [_ Hurl].
  destruct (@Gc_GetInvoice_url string Mock.lib Doubles.gc_http
              Doubles.gc_client_lib Mock.gc_pp "order_1" "Alice" "110101"
              "alice@example.com" "13800138000" "Individual" "Alice" ""
              "b2Rk") as [Hnonempty _].
  split.
  - apply (Hurl "paid" "cGFpZA=="
             {| GcInvoiceRespInfo.BusNo := "order_1";
                GcInvoiceRespInfo.State := "1";
                GcInvoiceRespInfo.EbillCode := "";
                GcInvoiceRespInfo.EbillNo := "";
                GcInvoiceRespInfo.CheckCode := "";
                GcInvoiceRespInfo.Url := "https://gc.example/invoice/1";
                GcInvoiceRespInfo.Content := "" |}); reflexivity.
  - intros Hval.
    apply (Hnonempty ""
             (snd (@GcClient.GetInvoice string Mock.lib Doubles.gc_http
                     Doubles.gc_client_lib Mock.gc_pp "order_1" "Alice"
                     "110101" "alice@example.com" "13800138000" "Individual"
                     "Alice" "" "b2Rk"))); [|reflexivity].
    rewrite <- Hval. apply surjective_pairing.
Defined.

Lemma Gc_Pay_result_witness :
  @GcClient.Pay string Mock.lib Doubles.fmt Doubles.gc_http
    Doubles.gc_client_lib Mock.gc_pp (Doubles.request "gc" "" "") "refused"
  = (Err "FAIL: sign error", "refused")
  /\ forall resp w',
       @GcClient.Pay string Mock.lib Doubles.fmt Doubles.gc_http
         Doubles.gc_client_lib Mock.gc_pp (Doubles.request "gc" "" "")
         "cGFpZA==" = (Val resp, w') ->
       PayResp.OrderId resp = "".
Proof.
  split.
  - destruct (@Gc_Pay_result string Mock.lib Doubles.fmt Doubles.gc_http
                Doubles.gc_client_lib Mock.gc_pp (Doubles.request "gc" "" "")
                "refused") as [_ Hrefused].
    apply (Hrefused "20240101120000" "refused" "20240101120000" "refused"
             "refused" "refused"
             (Doubles.gc_answer "FAIL" "sign error" ""));
      first [reflexivity | discriminate].
  - intros resp w' Hpay.
    destruct (@Gc_Pay_result string Mock.lib Doubles.fmt Doubles.gc_http
                Doubles.gc_client_lib Mock.gc_pp (Doubles.request "gc" "" "")
                "cGFpZA==") as [Hval _].
    exact (proj1 (Hval resp w' Hpay)).
Defined.

(** ** Airwallex: the token cache and the intent query *)



Section AirwallexClientProperties.
Context {W : Type} `{!GoLib} `{!Clock W} `{!HTTP W} `{!AirwallexLib W}.

Lemma GetToken_fetch (c : AirwallexClient.t) (cache : option CachedToken.t)
    (w w1 w2 : W) (resp : Response) (result : AirWallexTokenInfo.t) :
  AirwallexHTTP.cached_token (cache, w) = (Val None, (cache, w)) ->
  http_NewRequest_error "POST"
    (AirwallexClient.APIEndpoint c +:+ "/authentication/login") = None ->
  client_Do (AirwallexClient.client_Timeout c) (login_request c) w
    = (Val resp, w1) ->
  Decode_AirWallexTokenInfo resp w1 = (Val result, w2) ->
  AirwallexHTTP.GetToken c (cache, w) =
    if String.eqb (AirWallexTokenInfo.Token result) "" then
      (Err "invalid token response", (cache, w2))
    else
      (Val (AirWallexTokenInfo.Token result),
       (Some {| CachedToken.info := result;
                CachedToken.parsedExpiresAt :=
                  match time_Parse_RFC3339
                          (GoStrings.Replace1
                             (AirWallexTokenInfo.ExpiresAt result)
                             "+0000" "+00:00") with
                  | inr t => t
                  | inl _ => time.zero
                  end |}, w2)).
Proof.
  intros Hmiss Hreq Hdo Hdecode. unfold AirwallexHTTP.GetToken.
  rewrite (bind_Val _ _ _ _ _ Hmiss).
  unfold AirwallexHTTP.NewRequest_unchecked, http_NewRequest.
  rewrite Hreq. rewrite bind_lift_Val.
  change (Header_Set (Header_Set _ "x-client-id" _) "x-api-key" _)
    with (login_request c).
  unfold bind at 1. unfold AirwallexHTTP.world at 1. cbn [fst snd].
  rewrite Hdo.
  unfold bind at 1. unfold AirwallexHTTP.world at 1. cbn [fst snd].
  rewrite Hdecode.
  destruct (String.eqb (AirWallexTokenInfo.Token result) ""); reflexivity.
Qed.

(** X21. The token cache of the Airwallex client. A first [GetToken]
    logs in, and keeps the token with the expiry the server gave. A
    second [GetToken] at a time before that expiry returns the same
    token and sends nothing: it only reads the clock. *)
Theorem Airwallex_GetToken_reuses_token (c : AirwallexClient.t)
    (w w1 w2 w3 : W) (resp : Response) (result : AirWallexTokenInfo.t)
    (t now : time.Time) :
  http_NewRequest_error "POST"
    (AirwallexClient.APIEndpoint c +:+ "/authentication/login") = None ->
  client_Do (AirwallexClient.client_Timeout c) (login_request c) w
    = (Val resp, w1) ->
  Decode_AirWallexTokenInfo resp w1 = (Val result, w2) ->
  AirWallexTokenInfo.Token result <> "" ->
  time_Parse_RFC3339
    (GoStrings.Replace1 (AirWallexTokenInfo.ExpiresAt result)
       "+0000" "+00:00") = inr t ->
  time_Now w2 = (Val now, w3) ->
  now < t ->
  AirwallexHTTP.GetToken c (None, w) =
    (Val (AirWallexTokenInfo.Token result),
     (Some {| CachedToken.info := result;
              CachedToken.parsedExpiresAt := t |}, w2))
  /\ AirwallexHTTP.GetToken c
       (Some {| CachedToken.info := result;
                CachedToken.parsedExpiresAt := t |}, w2) =
       (Val (AirWallexTokenInfo.Token result),
        (Some {| CachedToken.info := result;
                 CachedToken.parsedExpiresAt := t |}, w3)).
Proof.
  intros Hreq Hdo Hdecode Htoken Hparse Hnow Hlt. split.
  - rewrite (GetToken_fetch c None w w1 w2 resp result eq_refl Hreq Hdo
               Hdecode).
    rewrite (proj2 (String.eqb_neq _ _) Htoken), Hparse. reflexivity.
  - unfold AirwallexHTTP.GetToken, AirwallexHTTP.cached_token.
    unfold bind at 1. unfold bind at 1. unfold AirwallexHTTP.tokenCache.
    cbn [fst snd CachedToken.parsedExpiresAt].
    unfold bind at 1. unfold AirwallexHTTP.world at 1. cbn [fst snd].
    rewrite Hnow. unfold time.Before.
    rewrite (proj2 (Z.ltb_lt now t) Hlt). reflexivity.
Qed.

(** X22. An expiry that does not parse is dropped without an error, and
    the token is kept with the zero time as its expiry. Such a token is
    never used again: at every time that is not before the zero time
    the next [GetToken] logs in anew, so that an error of that login is
    the error of the call, the kept token notwithstanding. *)
Theorem Airwallex_GetToken_unparsable_expiry (c : AirwallexClient.t)
    (w w1 w2 w3 w4 : W) (resp : Response) (result : AirWallexTokenInfo.t)
    (e e' : error) (now : time.Time) :
  http_NewRequest_error "POST"
    (AirwallexClient.APIEndpoint c +:+ "/authentication/login") = None ->
  client_Do (AirwallexClient.client_Timeout c) (login_request c) w
    = (Val resp, w1) ->
  Decode_AirWallexTokenInfo resp w1 = (Val result, w2) ->
  AirWallexTokenInfo.Token result <> "" ->
  time_Parse_RFC3339
    (GoStrings.Replace1 (AirWallexTokenInfo.ExpiresAt result)
       "+0000" "+00:00") = inl e ->
  time_Now w2 = (Val now, w3) ->
  time.zero <= now ->
  client_Do (AirwallexClient.client_Timeout c) (login_request c) w3
    = (Err e', w4) ->
  AirwallexHTTP.GetToken c (None, w) =
    (Val (AirWallexTokenInfo.Token result),
     (Some {| CachedToken.info := result;
              CachedToken.parsedExpiresAt := time.zero |}, w2))
  /\ AirwallexHTTP.GetToken c
       (Some {| CachedToken.info := result;
                CachedToken.parsedExpiresAt := time.zero |}, w2) =
       (Err e',
        (Some {| CachedToken.info := result;
                 CachedToken.parsedExpiresAt := time.zero |}, w4)).
Proof.
  intros Hreq Hdo Hdecode Htoken Hparse Hnow Hzero Hdo'. split.
  - rewrite (GetToken_fetch c None w w1 w2 resp result eq_refl Hreq Hdo
               Hdecode).
    rewrite (proj2 (String.eqb_neq _ _) Htoken), Hparse. reflexivity.
  - unfold AirwallexHTTP.GetToken, AirwallexHTTP.cached_token.
    unfold bind at 1. unfold bind at 1. unfold AirwallexHTTP.tokenCache.
    cbn [fst snd CachedToken.parsedExpiresAt].
    unfold bind at 1. unfold AirwallexHTTP.world at 1. cbn [fst snd].
    rewrite Hnow. unfold time.Before.
    rewrite (proj2 (Z.ltb_ge now time.zero) Hzero).
    cbn [ret].
    unfold AirwallexHTTP.NewRequest_unchecked, http_NewRequest.
    rewrite Hreq. rewrite bind_lift_Val.
    change (Header_Set (Header_Set _ "x-client-id" _) "x-api-key" _)
      with (login_request c).
    unfold bind at 1. unfold AirwallexHTTP.world at 1. cbn [fst snd].
    rewrite Hdo'. reflexivity.
Qed.

Lemma GetIntentByOrderId_answered (c : AirwallexClient.t) (orderId : string)
    (s s1 : AirwallexHTTP.State) (intentRes : gmap string json) :
  AirwallexHTTP.authRequest c "GET" (intent_url c orderId) JNull s
    = (Val intentRes, s1) ->
  AirwallexHTTP.GetIntentByOrderId c orderId s =
    match AirwallexHTTP.array_at intentRes "items" with
    | Val [] =>
        (Err ("no payment intent found for order id: " +:+ orderId),
         s1)
    | Val (item :: _) =>
        let intent := remarshal_AirwallexIntent item in
        (Val {| AirWallexIntentInfo.Id := AirwallexIntent.Id intent;
                AirWallexIntentInfo.Amount :=
                  AirwallexIntent.Amount intent;
                AirWallexIntentInfo.Currency :=
                  AirwallexIntent.Currency intent;
                AirWallexIntentInfo.Status :=
                  AirwallexIntent.Status intent;
                AirWallexIntentInfo.Descriptor :=
                  AirwallexIntent.Descriptor intent;
                AirWallexIntentInfo.MerchantOrderId :=
                  AirwallexIntent.MerchantOrderId intent;
                AirWallexIntentInfo.PaymentStatus :=
                  AirwallexIntent.LatestPaymentAttempt_Status intent;
                AirWallexIntentInfo.Metadata :=
                  AirwallexIntent.Metadata intent |}, s1)
    | Err e => (Err e, s1)
    | Panic msg => (Panic msg, s1)
    end.
Proof.
  intros Hreq. unfold AirwallexHTTP.GetIntentByOrderId.
  fold (intent_url c orderId).
  unfold bind at 1. unfold attempt. rewrite Hreq.
  unfold bind, lift.
  destruct (AirwallexHTTP.array_at intentRes "items") as [[|item rest]|e|m];
    reflexivity.
Qed.

Lemma GetIntentByOrderId_without_items (c : AirwallexClient.t)
    (orderId : string) (s s1 : AirwallexHTTP.State)
    (intentRes : gmap string json) :
  AirwallexHTTP.authRequest c "GET" (intent_url c orderId) JNull s
    = (Val intentRes, s1) ->
  (forall items, intentRes !! "items" <> Some (JArray items)) ->
  panics (fst (AirwallexHTTP.GetIntentByOrderId c orderId s))
  /\ snd (AirwallexHTTP.GetIntentByOrderId c orderId s) = s1.
Proof.
  intros Hreq Hnone.
  rewrite (GetIntentByOrderId_answered c orderId s s1 intentRes Hreq).
  unfold AirwallexHTTP.array_at.
  destruct (intentRes !! "items") as [[| | | |items|]|] eqn:Hitems;
    try (split; [eexists|]; reflexivity).
  exfalso. apply (Hnone items). reflexivity.
Qed.

(** X23. What [GetIntentByOrderId] makes of the server's answer to the
    intent query. An error of the request comes back under the prefix
    ["failed to get payment intent: "]. An answer that decodes to an
    object without an array under ["items"], as the body of an error
    does, makes the call panic; an empty array is the error that names
    the order id; otherwise the first item alone is looked at, the
    status of its latest payment attempt becoming the payment
    status. *)
Theorem Airwallex_GetIntentByOrderId_items (c : AirwallexClient.t)
    (orderId : string) (s s1 : AirwallexHTTP.State) :
  (forall e,
     AirwallexHTTP.authRequest c "GET" (intent_url c orderId) JNull s
       = (Err e, s1) ->
     AirwallexHTTP.GetIntentByOrderId c orderId s =
       (Err ("failed to get payment intent: " +:+ e), s1))
  /\ (forall intentRes,
        AirwallexHTTP.authRequest c "GET" (intent_url c orderId) JNull s
          = (Val intentRes, s1) ->
        ((forall items, intentRes !! "items" <> Some (JArray items)) ->
         panics (fst (AirwallexHTTP.GetIntentByOrderId c orderId s))
         /\ snd (AirwallexHTTP.GetIntentByOrderId c orderId s) = s1)
        /\ (intentRes !! "items" = Some (JArray []) ->
            AirwallexHTTP.GetIntentByOrderId c orderId s =
              (Err ("no payment intent found for order id: " +:+ orderId),
               s1))
        /\ (forall item rest,
              intentRes !! "items" = Some (JArray (item :: rest)) ->
              exists info,
                AirwallexHTTP.GetIntentByOrderId c orderId s = (Val info, s1)
                /\ AirWallexIntentInfo.Status info
                   = AirwallexIntent.Status (remarshal_AirwallexIntent item)
                /\ AirWallexIntentInfo.PaymentStatus info
                   = AirwallexIntent.LatestPaymentAttempt_Status
                       (remarshal_AirwallexIntent item)
                /\ AirWallexIntentInfo.Amount info
                   = AirwallexIntent.Amount (remarshal_AirwallexIntent item)
                /\ AirWallexIntentInfo.MerchantOrderId info
                   = AirwallexIntent.MerchantOrderId
                       (remarshal_AirwallexIntent item))).
Proof.
  split.
  - intros e Hreq. unfold AirwallexHTTP.GetIntentByOrderId.
    fold (intent_url c orderId).
    unfold bind at 1. unfold attempt. rewrite Hreq. reflexivity.
  - intros intentRes Hreq.
    split; [exact (GetIntentByOrderId_without_items c orderId s s1 intentRes
                     Hreq)|].
    rewrite (GetIntentByOrderId_answered c orderId s s1 intentRes Hreq).
    unfold AirwallexHTTP.array_at.
    split.
    + intros ->. reflexivity.
    + intros item rest ->. eexists. repeat split.
Qed.

(** X24. Airwallex's [Notify] on the hand-written client. A login that
    the server answers without a token makes [Notify] fail with the
    error of the token under the prefix of the intent query, and no
    token is kept. An answer to the intent query that has no array
    under ["items"] makes [Notify] panic. *)
Theorem Airwallex_Notify_over_client (pp : AirwallexPaymentProvider.t)
    (body orderId : string) :
  (forall (w w1 w2 : W) resp result,
     http_NewRequest_error "POST"
       (AirwallexClient.APIEndpoint (AirwallexPaymentProvider.Client pp)
        +:+ "/authentication/login") = None ->
     client_Do
       (AirwallexClient.client_Timeout (AirwallexPaymentProvider.Client pp))
       (login_request (AirwallexPaymentProvider.Client pp)) w
       = (Val resp, w1) ->
     Decode_AirWallexTokenInfo resp w1 = (Val result, w2) ->
     AirWallexTokenInfo.Token result = "" ->
     @AirwallexPaymentProvider.Notify AirwallexHTTP.State _ AirwallexHTTP.api
       pp body orderId (None, w) =
       (Err "failed to get payment intent: invalid token response",
        (None, w2)))
  /\ (forall (s s1 : AirwallexHTTP.State) intentRes,
        AirwallexHTTP.authRequest (AirwallexPaymentProvider.Client pp) "GET"
          (intent_url (AirwallexPaymentProvider.Client pp) orderId) JNull s
          = (Val intentRes, s1) ->
        (forall items, intentRes !! "items" <> Some (JArray items)) ->
        panics (fst (@AirwallexPaymentProvider.Notify AirwallexHTTP.State _
                       AirwallexHTTP.api pp body orderId s))
        /\ snd (@AirwallexPaymentProvider.Notify AirwallexHTTP.State _
                  AirwallexHTTP.api pp body orderId s) = s1).
Proof.
  split.
  - intros w w1 w2 resp result Hreq Hdo Hdecode Htoken.
    unfold AirwallexPaymentProvider.Notify.
    unfold bind at 1.
    change (GetIntentByOrderId (AirwallexPaymentProvider.Client pp) orderId
              (None, w))
      with (AirwallexHTTP.GetIntentByOrderId
              (AirwallexPaymentProvider.Client pp) orderId (None, w)).
    unfold AirwallexHTTP.GetIntentByOrderId.
    unfold bind at 1. unfold attempt.
    unfold AirwallexHTTP.authRequest. unfold bind at 1.
    rewrite (GetToken_fetch _ None w w1 w2 resp result eq_refl Hreq Hdo
               Hdecode).
    rewrite Htoken. reflexivity.
  - intros s s1 intentRes Hreq Hnone.
    destruct (GetIntentByOrderId_without_items
                (AirwallexPaymentProvider.Client pp) orderId s s1 intentRes
                Hreq Hnone) as [[msg Hmsg] Hstate].
    unfold AirwallexPaymentProvider.Notify. unfold bind at 1 2.
    change (GetIntentByOrderId (AirwallexPaymentProvider.Client pp) orderId s)
      with (AirwallexHTTP.GetIntentByOrderId
              (AirwallexPaymentProvider.Client pp) orderId s).
    destruct (AirwallexHTTP.GetIntentByOrderId
                (AirwallexPaymentProvider.Client pp) orderId s)
      as [o s'] eqn:Hcall.
    cbn [fst snd] in Hmsg, Hstate. subst o s'.
    split; [eexists|]; reflexivity.
Qed.


End AirwallexClientProperties.

Lemma Airwallex_GetToken_reuses_token_witness :
  let tok :=
    {| CachedToken.info :=
         {| AirWallexTokenInfo.Token := "tok_1";
            AirWallexTokenInfo.ExpiresAt := "2024-01-01T00:00:00+0000" |};
       CachedToken.parsedExpiresAt := 1704067200000000000 |} in
  @AirwallexHTTP.GetToken Z Doubles.air_clock Doubles.air_http Doubles.air_lib
    (Doubles.air_client "key") (None, 0)
  = (Val "tok_1", (Some tok, 0))
  /\ @AirwallexHTTP.GetToken Z Doubles.air_clock Doubles.air_http
       Doubles.air_lib (Doubles.air_client "key") (Some tok, 0)
     = (Val "tok_1", (Some tok, 100)).
Proof.
  intros tok.
  apply (@Airwallex_GetToken_reuses_token Z Doubles.air_clock Doubles.air_http
           Doubles.air_lib (Doubles.air_client "key") 0 0 0 100
           (@login_request Z Doubles.air_http (Doubles.air_client "key"))
           {| AirWallexTokenInfo.Token := "tok_1";
              AirWallexTokenInfo.ExpiresAt := "2024-01-01T00:00:00+0000" |}
           1704067200000000000 0);
    first [reflexivity | discriminate | lia].
Defined.

Lemma Airwallex_GetToken_unparsable_expiry_witness :
  let tok :=
    {| CachedToken.info :=
         {| AirWallexTokenInfo.Token := "tok_2";
            AirWallexTokenInfo.ExpiresAt := "soon" |};
       CachedToken.parsedExpiresAt := time.zero |} in
  @AirwallexHTTP.GetToken Z Doubles.air_clock Doubles.air_http Doubles.air_lib
    (Doubles.air_client "legacy") (None, 0)
  = (Val "tok_2", (Some tok, 0))
  /\ @AirwallexHTTP.GetToken Z Doubles.air_clock Doubles.air_http
       Doubles.air_lib (Doubles.air_client "legacy") (Some tok, 0)
     = (Err "connection refused", (Some tok, 100)).
Proof.
  intros tok.
  apply (@Airwallex_GetToken_unparsable_expiry Z Doubles.air_clock
           Doubles.air_http Doubles.air_lib (Doubles.air_client "legacy")
           0 0 0 100 100
           (@login_request Z Doubles.air_http (Doubles.air_client "legacy"))
           {| AirWallexTokenInfo.Token := "tok_2";
              AirWallexTokenInfo.ExpiresAt := "soon" |}
           "parsing time: cannot parse" "connection refused" 0);
    first [reflexivity | discriminate | vm_compute; discriminate].
Defined.

Lemma Airwallex_GetIntentByOrderId_items_witness :
  panics (fst (@AirwallexHTTP.GetIntentByOrderId Z Doubles.air_clock
                 Doubles.air_http Doubles.air_lib (Doubles.air_client "key")
                 "order_1" (None, 0)))
  /\ snd (@AirwallexHTTP.GetIntentByOrderId Z Doubles.air_clock
            Doubles.air_http Doubles.air_lib (Doubles.air_client "key")
            "order_1" (None, 0))
     = (Some Doubles.air_cached, 0).
Proof.
  destruct (@Airwallex_GetIntentByOrderId_items Z Doubles.air_clock
              Doubles.air_http Doubles.air_lib (Doubles.air_client "key")
              "order_1" (None, 0) (Some Doubles.air_cached, 0))
    as [_ Hanswer].
  destruct (Hanswer Doubles.air_error_body eq_refl) as [Hpanic _].
  apply Hpanic. intros items. vm_compute. discriminate.
Defined.

Lemma Airwallex_Notify_over_client_witness :
  @AirwallexPaymentProvider.Notify (@AirwallexHTTP.State Z) Mock.lib
    (@AirwallexHTTP.api Z Doubles.air_clock Doubles.air_http Doubles.air_lib)
    {| AirwallexPaymentProvider.Client := Doubles.air_client "unknown" |}
    "" "order_1" (None, 0)
  = (Err "failed to get payment intent: invalid token response", (None, 0))
  /\ panics
       (fst (@AirwallexPaymentProvider.Notify (@AirwallexHTTP.State Z)
               Mock.lib
               (@AirwallexHTTP.api Z Doubles.air_clock Doubles.air_http
                  Doubles.air_lib)
               {| AirwallexPaymentProvider.Client := Doubles.air_client "key" |}
               "" "order_1" (None, 0))).
Proof.
  split.
  - destruct (@Airwallex_Notify_over_client Z Mock.lib Doubles.air_clock
                Doubles.air_http Doubles.air_lib
                {| AirwallexPaymentProvider.Client :=
                     Doubles.air_client "unknown" |} "" "order_1")
      as [Hlogin _].
    apply (Hlogin 0 0 0
             (@login_request Z Doubles.air_http (Doubles.air_client "unknown"))
             {| AirWallexTokenInfo.Token := "";
                AirWallexTokenInfo.ExpiresAt := "" |}); reflexivity.
  - destruct (@Airwallex_Notify_over_client Z Mock.lib Doubles.air_clock
                Doubles.air_http Doubles.air_lib
                {| AirwallexPaymentProvider.Client :=
                     Doubles.air_client "key" |} "" "order_1")
      as [_ Hitems].
    destruct (Hitems (None, 0) (Some Doubles.air_cached, 0)
                Doubles.air_error_body eq_refl) as [Hpanic _];
      [intros items; vm_compute; discriminate|].
    exact Hpanic.
Defined.

